(** * AWS AI cost optimizer: the collectors, embedded and verified

    A shallow embedding of the data-shaping code of the three collectors
    ([src/collectors/cost_explorer.py], [src/collectors/cloudwatch_metrics.py],
    [src/collectors/resource_inventory.py]), of the second cost collector
    ([src/data_collection/cost_explorer/collector.py]), of the utilities
    ([src/utils.py]) and of the estimates of the analysis script
    ([src/data_collection/Untitled-7.py]).

    Conventions of the embedding:
    - a Python [dict] is an association list in insertion order ([Py.dict]);
    - a Python [float] is an exact rational ([Q]); rounding, infinities and
      NaN are not modelled, and [float(s)] on a string is a parameter
      [float_ : string -> option Q] ([None] is Python's [ValueError]);
    - code that reads the clock, calls an AWS client or raises runs in the
      monad [M]: a tick counter is threaded through, every clock reading and
      every client call consumes one tick, and the answer of the outside
      world at a tick is a parameter of the model;
    - [logger] calls have no effect on results and are left out. *)

From Stdlib Require Import List String Ascii ZArith QArith Qround Bool Lia
  Permutation Sorted.
Import ListNotations.
Open Scope string_scope.
Open Scope list_scope.

(** ** Python values, exceptions and the effect monad *)

Module Py.

(** The exception classes the modelled code raises or receives; all are
    subclasses of [Exception], so a blanket [except Exception] catches them. *)
Inductive exn : Type :=
| KeyError (key : string)
| ValueError (msg : string)
| ClientError (msg : string)
| OverflowError.

Inductive result (A : Type) : Type :=
| Ok (a : A)
| Raise (e : exn).
Arguments Ok {A} a.
Arguments Raise {A} e.

(** State (the tick counter of the outside world) and exceptions. *)
Definition M (A : Type) : Type := nat -> result A * nat.

Definition ret {A} (a : A) : M A := fun t => (Ok a, t).

Definition raise {A} (e : exn) : M A := fun t => (Raise e, t).

Definition bind {A B} (m : M A) (k : A -> M B) : M B :=
  fun t => match m t with
           | (Ok a, t') => k a t'
           | (Raise e, t') => (Raise e, t')
           end.

(** [try: m except Exception as e: h e].  What [m] did to the world before
    it raised stays done. *)
Definition try_except {A} (m : M A) (h : exn -> M A) : M A :=
  fun t => match m t with
           | (Ok a, t') => (Ok a, t')
           | (Raise e, t') => h e t'
           end.

(** One interaction with the outside world: its answer at the current tick. *)
Definition ask {A} (world : nat -> result A) : M A :=
  fun t => (world t, S t).

Declare Scope py_scope.
Delimit Scope py_scope with py.
Notation "x <- m ;; k" := (bind m (fun x => k))
  (at level 61, m at next level, right associativity) : py_scope.

(** [for x in xs: body], the loop state passed along; an exception raised
    by the body leaves the loop. *)
Fixpoint for_in {A S} (xs : list A) (body : A -> S -> M S) (s : S) : M S :=
  match xs with
  | [] => ret s
  | x :: xs' => bind (body x s) (for_in xs' body)
  end.

(** *** Dictionaries with insertion order *)

Definition dict (V : Type) : Type := list (string * V).

Fixpoint dict_get {V} (k : string) (d : dict V) : option V :=
  match d with
  | [] => None
  | (k', v) :: d' => if String.eqb k k' then Some v else dict_get k d'
  end.

Definition dict_mem {V} (k : string) (d : dict V) : bool :=
  match dict_get k d with Some _ => true | None => false end.

(** [d[k] = v]: an existing key keeps its place, a new one goes last. *)
Fixpoint dict_set {V} (k : string) (v : V) (d : dict V) : dict V :=
  match d with
  | [] => [(k, v)]
  | (k', v') :: d' =>
      if String.eqb k k' then (k', v) :: d' else (k', v') :: dict_set k v d'
  end.

(** [d[k]], which raises [KeyError] on a missing key. *)
Definition dict_item {V} (k : string) (d : dict V) : M V :=
  match dict_get k d with
  | Some v => ret v
  | None => raise (KeyError k)
  end.

Definition keys {V} (d : dict V) : list string := map fst d.

(** *** Distinct values

    [x in l] on strings, and the distinct values of a list in order of first
    appearance ([Series.unique()], and the order in which a loop adds new
    keys to a dict). *)
Definition mem_string (x : string) (l : list string) : bool :=
  existsb (String.eqb x) l.

(** [Series.unique()]: the distinct values in order of first appearance. *)
Fixpoint unique_from (seen l : list string) : list string :=
  match l with
  | [] => []
  | x :: l' =>
      if mem_string x seen then unique_from seen l'
      else x :: unique_from (x :: seen) l'
  end.

Definition unique (l : list string) : list string := unique_from [] l.

(** *** Sorting

    [list.sort] and [sorted] are stable and ascending in the key.  The model
    is a stable insertion sort; [reverse=True] is what CPython does: reverse
    the list, sort it, reverse the result. *)
Section Sort.
Context {A K : Type} (key : A -> K) (leb : K -> K -> bool).

Fixpoint insert_by (x : A) (l : list A) : list A :=
  match l with
  | [] => [x]
  | y :: l' =>
      if leb (key x) (key y) then x :: y :: l' else y :: insert_by x l'
  end.

Definition sort_by (l : list A) : list A := fold_right insert_by [] l.

Definition sort_by_reverse (l : list A) : list A :=
  rev (sort_by (rev l)).

(** The order of the keys, and the elements whose key ties with [c]. *)
Definition key_le (x y : A) : Prop := leb (key x) (key y) = true.

Definition tied (c : K) (x : A) : bool :=
  andb (leb (key x) c) (leb c (key x)).
End Sort.

(** [float(s)] for a conversion function [float_]. *)
Definition float (float_ : string -> option Q) (s : string) : M Q :=
  match float_ s with
  | Some q => ret q
  | None => raise (ValueError ("could not convert string to float: " ++ s))
  end.

(** A value stored in a record that mixes strings and numbers. *)
Inductive value : Type :=
| VStr (s : string)
| VFloat (q : Q).

(** Plain decimal literals (digits, an optional fraction), a fragment of
    what [float] accepts; the concrete instances below run on it. *)
Definition digit_val (c : ascii) : option nat :=
  let n := nat_of_ascii c in
  if andb (48 <=? n)%nat (n <=? 57)%nat then Some (n - 48)%nat else None.

Fixpoint digits_val (s : string) (acc : nat) : option nat :=
  match s with
  | EmptyString => Some acc
  | String c s' =>
      match digit_val c with
      | Some d => digits_val s' (10 * acc + d)%nat
      | None => None
      end
  end.

Fixpoint split_dot (s : string) : string * option string :=
  match s with
  | EmptyString => (EmptyString, None)
  | String c s' =>
      if Ascii.eqb c "."%char then (EmptyString, Some s')
      else let (a, b) := split_dot s' in (String c a, b)
  end.

Definition float_decimal (s : string) : option Q :=
  match split_dot s with
  | (EmptyString, _) => None
  | (ip, None) =>
      match digits_val ip 0 with
      | Some n => Some (inject_Z (Z.of_nat n))
      | None => None
      end
  | (ip, Some fp) =>
      match digits_val ip 0, digits_val fp 0 with
      | Some n, Some f =>
          Some (Qplus (inject_Z (Z.of_nat n))
                      (Qmake (Z.of_nat f)
                             (Pos.of_nat (10 ^ String.length fp))))
      | _, _ => None
      end
  end.

End Py.

Import Py.
Open Scope py_scope.

(** ** [src/collectors/cost_explorer.py] *)

Module CostExplorer.

Record MetricValue : Type := { Amount : string; Unit : string }.

Record Group : Type := { Keys : list string; Metrics : dict MetricValue }.

Record TimePeriod : Type := { Start : string; End : string }.

Record ResultByTime : Type :=
  { TimePeriod_ : TimePeriod; Groups : option (list Group) }.

(** A raw [get_cost_and_usage] response; ['ResultsByTime'] and ['Groups']
    are read with [.get(..., [])], so they may be absent. *)
Record Response : Type := { ResultsByTime : option (list ResultByTime) }.

Definition get_or_empty {A} (o : option (list A)) : list A :=
  match o with Some l => l | None => [] end.

(** The metrics [fetch_cost_data] asks Cost Explorer for. *)
Definition requested_metrics : list string :=
  ["AmortizedCost"; "UsageQuantity"; "UnblendedCost"].

Section Collector.
(** [float] on amount strings, and [datetime.utcnow().isoformat()] at
    each tick. *)
Variable float_ : string -> option Q.
Variable clock : nat -> string.

Definition utcnow_isoformat : M string := ask (fun t => Ok (clock t)).

(** The body of the inner loop of [process_cost_data]. *)
Definition process_group (date : string) (group : Group)
    (summaries : list (dict value)) : M (list (dict value)) :=
  let service :=
    if (0 <? List.length (Keys group))%nat
    then nth 0 (Keys group) "" else "Unknown" in
  let resource_id :=
    if (1 <? List.length (Keys group))%nat
    then nth 1 (Keys group) "" else "N/A" in
  m <- dict_item "AmortizedCost" (Metrics group) ;;
  amortized_cost <- float float_ (Amount m) ;;
  m <- dict_item "UsageQuantity" (Metrics group) ;;
  usage_quantity <- float float_ (Amount m) ;;
  timestamp <- utcnow_isoformat ;;
  let summary :=
    [ ("date", VStr date);
      ("service", VStr service);
      ("resource_id", VStr resource_id);
      ("amortized_cost", VFloat amortized_cost);
      ("usage_quantity", VFloat usage_quantity);
      ("timestamp", VStr timestamp) ] in
  ret (summaries ++ [summary]).

Definition process_time_period (time_period : ResultByTime)
    (summaries : list (dict value)) : M (list (dict value)) :=
  let date := Start (TimePeriod_ time_period) in
  for_in (get_or_empty (Groups time_period)) (process_group date) summaries.

Definition process_cost_data (raw_data : Response) : M (list (dict value)) :=
  for_in (get_or_empty (ResultsByTime raw_data)) process_time_period [].
(** *** Vocabulary of the statements about [process_cost_data] *)

(** The two amounts [process_cost_data] reads are there and convert. *)
Definition amount_of (name : string) (g : Group) (q : Q) : Prop :=
  exists m, dict_get name (Metrics g) = Some m /\ float_ (Amount m) = Some q.

Definition amounts_ok (g : Group) : Prop :=
  (exists q, amount_of "AmortizedCost" g q)
  /\ (exists q, amount_of "UsageQuantity" g q).

Definition first_key_or (g : Group) : string :=
  match Keys g with k :: _ => k | [] => "Unknown" end.

Definition second_key_or (g : Group) : string :=
  match Keys g with _ :: k :: _ => k | _ => "N/A" end.

(** What a record says about the (time period, group) pair it was made
    from. *)
Definition summary_of (p : ResultByTime * Group) (rec : dict value) : Prop :=
  dict_get "date" rec = Some (VStr (Start (TimePeriod_ (fst p))))
  /\ dict_get "service" rec = Some (VStr (first_key_or (snd p)))
  /\ dict_get "resource_id" rec = Some (VStr (second_key_or (snd p)))
  /\ (exists q, amount_of "AmortizedCost" (snd p) q
                /\ dict_get "amortized_cost" rec = Some (VFloat q))
  /\ (exists q, amount_of "UsageQuantity" (snd p) q
                /\ dict_get "usage_quantity" rec = Some (VFloat q)).

Definition summary_keys : list string :=
  ["date"; "service"; "resource_id"; "amortized_cost"; "usage_quantity";
   "timestamp"].

End Collector.

(** The (time period, group) pairs of a response, in response order. *)
Definition period_groups (raw_data : Response)
  : list (ResultByTime * Group) :=
  flat_map (fun tp => map (pair tp) (get_or_empty (Groups tp)))
           (get_or_empty (ResultsByTime raw_data)).

(** The response with one metric removed from every group. *)
Definition drop_metric (name : string) (raw_data : Response) : Response :=
  {| ResultsByTime :=
       option_map
         (map (fun tp =>
                 {| TimePeriod_ := TimePeriod_ tp;
                    Groups :=
                      option_map
                        (map (fun g =>
                                {| Keys := Keys g;
                                   Metrics :=
                                     filter
                                       (fun kv =>
                                          negb (String.eqb (fst kv) name))
                                       (Metrics g) |}))
                        (Groups tp) |}))
         (ResultsByTime raw_data) |}.

(** The value a computation returned, nothing for one that raised. *)
Definition returned {A} (r : result (list A) * nat) : list A :=
  match r with (Ok l, _) => l | (Raise _, _) => [] end.

End CostExplorer.

(** ** [src/collectors/cloudwatch_metrics.py] *)

Module CloudWatch.

Record MetricConfig : Type :=
  { Name : string; Stat : string; Unit : option string }.

Record ResourceConfig : Type :=
  { Namespace : string;
    Metrics : list MetricConfig;
    DimensionName : string }.

Definition metric (name stat unit : string) : MetricConfig :=
  {| Name := name; Stat := stat; Unit := Some unit |}.

Definition METRICS_CONFIG : dict ResourceConfig :=
  [ ("EC2",
     {| Namespace := "AWS/EC2";
        Metrics :=
          [ metric "CPUUtilization" "Average" "Percent";
            metric "NetworkIn" "Sum" "Bytes";
            metric "NetworkOut" "Sum" "Bytes";
            metric "DiskReadBytes" "Sum" "Bytes";
            metric "DiskWriteBytes" "Sum" "Bytes" ];
        DimensionName := "InstanceId" |});
    ("RDS",
     {| Namespace := "AWS/RDS";
        Metrics :=
          [ metric "CPUUtilization" "Average" "Percent";
            metric "DatabaseConnections" "Average" "Count";
            metric "FreeStorageSpace" "Average" "Bytes";
            metric "ReadLatency" "Average" "Seconds";
            metric "WriteLatency" "Average" "Seconds" ];
        DimensionName := "DBInstanceIdentifier" |});
    ("Lambda",
     {| Namespace := "AWS/Lambda";
        Metrics :=
          [ metric "Duration" "Average" "Milliseconds";
            metric "Invocations" "Sum" "Count";
            metric "Errors" "Sum" "Count";
            metric "ConcurrentExecutions" "Maximum" "Count" ];
        DimensionName := "FunctionName" |}) ].

(** A datapoint of a [get_metric_statistics] response: its timestamp
    (seconds), the statistics it carries by name, and its unit. *)
Record Datapoint : Type :=
  { Timestamp : Z; Stats : dict Q; DpUnit : option string }.

Record MetricResponse : Type := { Datapoints : option (list Datapoint) }.

Record Dimension : Type := { DimName : string; DimValue : string }.

(** The keyword arguments of the client call. *)
Record Params : Type :=
  { pNamespace : string;
    pMetricName : string;
    pDimensions : list Dimension;
    pStartTime : Z;
    pEndTime : Z;
    pPeriod : Z;
    pStatistics : list string;
    pUnit : option string }.

(** A row of the metrics table, and the table ([pd.DataFrame] built from a
    list of row dictionaries; [pd.DataFrame()] is the table without rows). *)
Record Row : Type :=
  { resource_type : string;
    resource_id : string;
    metric_name : string;
    timestamp : Z;
    value : Q;
    unit : option string;
    statistic : string }.

Definition DataFrame : Type := list Row.

(** An entry of the resource list of [collect_batch_metrics]: a dict with
    the keys ['type'] and ['id']. *)
Record Resource : Type := { type : string; id : string }.

Definition truthy (o : option string) : option string :=
  match o with
  | Some s => if String.eqb s "" then None else Some s
  | None => None
  end.

(** Python's limits on times and durations, times counted in seconds from
    1970-01-01: [datetime.min] is 0001-01-01T00:00:00, [datetime.max] lies
    in the last second of 9999-12-31, and a [timedelta] has at most
    999999999 days.  Beyond them [timedelta(days=...)] and the subtraction
    of a duration from a time raise [OverflowError]. *)
Definition datetime_min : Z := (-62135596800)%Z.
Definition datetime_max : Z := 253402300799%Z.
Definition timedelta_max_days : Z := 999999999%Z.

(** The window of [days_back] days before [end_time] starts at a time
    Python can represent. *)
Definition representable_window (end_time days_back : Z) : Prop :=
  (Z.abs days_back <= timedelta_max_days)%Z
  /\ (datetime_min <= end_time - days_back * 86400 <= datetime_max)%Z.

Definition window_test (end_time days_back : Z) : bool :=
  andb (Z.abs days_back <=? timedelta_max_days)%Z
       (andb (datetime_min <=? end_time - days_back * 86400)%Z
             (end_time - days_back * 86400 <=? datetime_max)%Z).

(** [end_time - timedelta(days=days_back)]. *)
Definition subtract_days (end_time days_back : Z) : M Z :=
  if window_test end_time days_back
  then ret (end_time - days_back * 86400)%Z
  else raise OverflowError.

Section Collector.
(** The CloudWatch client's answer to a call made at a tick, and the
    clock ([datetime.utcnow()], in seconds) at a tick. *)
Variable cw_client : nat -> Params -> result MetricResponse.
Variable clock : nat -> Z.

Definition utcnow : M Z := ask (fun t => Ok (clock t)).

Definition client_get_metric_statistics (params : Params)
  : M MetricResponse :=
  ask (fun t => cw_client t params).

Definition get_metric_statistics (namespace metric_name : string)
    (dimensions : list Dimension) (start_time end_time : Z) (period : Z)
    (statistics : option (list string)) (unit : option string)
  : M (list Datapoint) :=
  let statistics :=
    match statistics with Some l => l | None => ["Average"] end in
  try_except
    (let params :=
       {| pNamespace := namespace;
          pMetricName := metric_name;
          pDimensions := dimensions;
          pStartTime := start_time;
          pEndTime := end_time;
          pPeriod := period;
          pStatistics := statistics;
          pUnit := truthy unit |} in
     response <- client_get_metric_statistics params ;;
     let datapoints :=
       match Datapoints response with Some l => l | None => [] end in
     let datapoints := sort_by Timestamp Z.leb datapoints in
     ret datapoints)
    (fun e => raise e).

Definition row_of (resource_type resource_id : string)
    (metric_config : MetricConfig) (dp : Datapoint) : Row :=
  {| resource_type := resource_type;
     resource_id := resource_id;
     metric_name := Name metric_config;
     timestamp := Timestamp dp;
     value :=
       match dict_get (Stat metric_config) (Stats dp) with
       | Some v => v
       | None => 0%Q
       end;
     unit :=
       match DpUnit dp with
       | Some u => Some u
       | None => Unit metric_config
       end;
     statistic := Stat metric_config |}.

Definition collect_resource_metrics (resource_type resource_id : string)
    (days_back : Z) : M DataFrame :=
  match dict_get resource_type METRICS_CONFIG with
  | None =>
      raise (ValueError ("Unsupported resource type: " ++ resource_type))
  | Some config =>
      end_time <- utcnow ;;
      start_time <- subtract_days end_time days_back ;;
      let dimensions :=
        [ {| DimName := DimensionName config; DimValue := resource_id |} ] in
      all_metrics_data <-
        for_in (Metrics config)
          (fun metric_config all_metrics_data =>
             try_except
               (datapoints <-
                  get_metric_statistics (Namespace config)
                    (Name metric_config) dimensions start_time end_time
                    3600 (Some [Stat metric_config]) (Unit metric_config) ;;
                ret (all_metrics_data
                       ++ map (row_of resource_type resource_id
                                      metric_config) datapoints))
               (fun e => ret all_metrics_data))
          [] ;;
      ret all_metrics_data
  end.

(** [collect_batch_metrics], with the method it calls on [self] for each
    resource as [self_collect_resource_metrics]. *)
Definition collect_batch_metrics
    (self_collect_resource_metrics : string -> string -> Z -> M DataFrame)
    (resources : list Resource) (days_back : Z) : M DataFrame :=
  all_data <-
    for_in resources
      (fun resource all_data =>
         try_except
           (df <- self_collect_resource_metrics
                    (type resource) (id resource) days_back ;;
            ret (all_data ++ [df]))
           (fun e => ret all_data))
      [] ;;
  match all_data with
  | _ :: _ => ret (List.concat all_data)
  | [] => ret []
  end.

(** The method of the class itself. *)
Definition CloudWatchCollector_collect_batch_metrics
  : list Resource -> Z -> M DataFrame :=
  collect_batch_metrics collect_resource_metrics.

(** The tables of the resources whose collection returned, in order, each
    collection starting in the world the one before left (and the world
    after the last). *)
Fixpoint succeeded
    (self_collect_resource_metrics : string -> string -> Z -> M DataFrame)
    (resources : list Resource) (days_back : Z) (t : nat)
  : list DataFrame * nat :=
  match resources with
  | [] => ([], t)
  | r :: rs =>
      match self_collect_resource_metrics (type r) (id r) days_back t with
      | (Ok df, t1) =>
          let (dfs, t2) :=
            succeeded self_collect_resource_metrics rs days_back t1 in
          (df :: dfs, t2)
      | (Raise _, t1) =>
          succeeded self_collect_resource_metrics rs days_back t1
      end
  end.

(** The arguments [collect_resource_metrics] passes to the client for one
    metric, and the rows that metric contributes when its call is made at
    tick [t]: those of the client's datapoints, none when the call fails. *)
Definition metric_params (config : ResourceConfig) (resource_id : string)
    (start_time end_time : Z) (metric_config : MetricConfig) : Params :=
  {| pNamespace := Namespace config;
     pMetricName := Name metric_config;
     pDimensions :=
       [ {| DimName := DimensionName config; DimValue := resource_id |} ];
     pStartTime := start_time;
     pEndTime := end_time;
     pPeriod := 3600;
     pStatistics := [Stat metric_config];
     pUnit := truthy (Unit metric_config) |}.

Definition metric_rows (config : ResourceConfig)
    (resource_type resource_id : string) (start_time end_time : Z) (t : nat)
    (metric_config : MetricConfig) : DataFrame :=
  match cw_client t (metric_params config resource_id start_time end_time
                       metric_config) with
  | Ok response =>
      map (row_of resource_type resource_id metric_config)
          (sort_by Timestamp Z.leb
             (match Datapoints response with Some l => l | None => [] end))
  | Raise _ => []
  end.

Fixpoint rows_from (config : ResourceConfig)
    (resource_type resource_id : string) (start_time end_time : Z) (t : nat)
    (metrics : list MetricConfig) : DataFrame :=
  match metrics with
  | [] => []
  | metric_config :: rest =>
      metric_rows config resource_type resource_id start_time end_time t
        metric_config
      ++ rows_from config resource_type resource_id start_time end_time
           (S t) rest
  end.
End Collector.

(** *** [calculate_statistics] *)

Record Summary : Type :=
  { mean : Q; median : Q; p95 : Q; p99 : Q; max : Q; min : Q; std : Q }.

Definition Qsum (l : list Q) : Q := fold_left Qplus l 0%Q.

Definition Qlen (l : list Q) : Q := inject_Z (Z.of_nat (List.length l)).

Definition values_mean (values : list Q) : Q := (Qsum values / Qlen values)%Q.

Definition Qmax (a b : Q) : Q := if Qle_bool a b then b else a.
Definition Qmin (a b : Q) : Q := if Qle_bool a b then a else b.

Definition values_max (values : list Q) : Q :=
  match values with [] => 0%Q | v :: vs => fold_left Qmax vs v end.

Definition values_min (values : list Q) : Q :=
  match values with [] => 0%Q | v :: vs => fold_left Qmin vs v end.

(** [Series.quantile(q)], linear interpolation between order statistics. *)
Definition quantile (values : list Q) (q : Q) : Q :=
  let sorted := sort_by (fun v : Q => v) Qle_bool values in
  let h := (q * (Qlen values - 1))%Q in
  let lo := Qfloor h in
  let vlo := nth (Z.to_nat lo) sorted 0%Q in
  let vhi := nth (Z.to_nat (lo + 1)) sorted vlo in
  (vlo + (h - inject_Z lo) * (vhi - vlo))%Q.

(** [Series.median()]: the middle order statistic, or the mean of the two
    middle ones. *)
Definition values_median (values : list Q) : Q :=
  let sorted := sort_by (fun v : Q => v) Qle_bool values in
  let n := List.length values in
  if Nat.even n
  then ((nth (n / 2 - 1) sorted 0 + nth (n / 2) sorted 0) / 2)%Q
  else nth (n / 2) sorted 0%Q.

Section Statistics.
(** The square root of [ndarray.std]. *)
Variable sqrt : Q -> Q.

(** [ndarray.std()] with its default [ddof=0]: the population standard
    deviation. *)
Definition values_std (values : list Q) : Q :=
  let m := values_mean values in
  sqrt (values_mean (map (fun v => ((v - m) * (v - m))%Q) values)).

Definition summarize (values : list Q) : Summary :=
  {| mean := values_mean values;
     median := values_median values;
     p95 := quantile values (95 # 100);
     p99 := quantile values (99 # 100);
     max := values_max values;
     min := values_min values;
     std := values_std values |}.

Definition calculate_statistics (df : DataFrame) : dict (dict Summary) :=
  match df with
  | [] => []
  | _ :: _ =>
      fold_left
        (fun stats rid =>
           let resource_df :=
             filter (fun r => String.eqb (resource_id r) rid) df in
           let resource_stats :=
             fold_left
               (fun resource_stats mname =>
                  let metric_df :=
                    filter (fun r => String.eqb (metric_name r) mname)
                           resource_df in
                  let values := map value metric_df in
                  dict_set mname (summarize values) resource_stats)
               (unique (map metric_name resource_df)) [] in
           dict_set rid resource_stats stats)
        (unique (map resource_id df)) []
  end.
End Statistics.

(** The (resource, metric) pairs of a table, and the values of the rows of
    one pair, in table order. *)
Definition pairs_present (df : DataFrame) : list (string * string) :=
  map (fun r => (resource_id r, metric_name r)) df.

Definition pair_values (rid mname : string) (df : DataFrame) : list Q :=
  map value
      (filter (fun r => andb (String.eqb (resource_id r) rid)
                             (String.eqb (metric_name r) mname)) df).

End CloudWatch.

(** ** [src/collectors/resource_inventory.py] *)

Module Inventory.

Section Collector.
(** A resource record, and the three scans: each drains its paginator,
    shapes the records, and re-raises whatever the client raised. *)
Variable ResourceRecord : Type.
Variable scan_ec2_instances : M (list ResourceRecord).
Variable scan_rds_instances : M (list ResourceRecord).
Variable scan_lambda_functions : M (list ResourceRecord).

Definition collect_full_inventory : M (dict (list ResourceRecord)) :=
  ec2 <- scan_ec2_instances ;;
  rds <- scan_rds_instances ;;
  lambda <- scan_lambda_functions ;;
  let inventory :=
    [ ("ec2_instances", ec2);
      ("rds_instances", rds);
      ("lambda_functions", lambda) ] in
  ret inventory.
(** Some scan raises [e] when its turn comes, leaving the world at [t']. *)
Definition raises_in_turn (t : nat) (e : exn) (t' : nat) : Prop :=
  scan_ec2_instances t = (Raise e, t')
  \/ (exists ec2 t1,
        scan_ec2_instances t = (Ok ec2, t1)
        /\ scan_rds_instances t1 = (Raise e, t'))
  \/ (exists ec2 t1 rds t2,
        scan_ec2_instances t = (Ok ec2, t1)
        /\ scan_rds_instances t1 = (Ok rds, t2)
        /\ scan_lambda_functions t2 = (Raise e, t')).
End Collector.

End Inventory.

(** ** [src/data_collection/cost_explorer/collector.py] *)

Module CostCollector.

Import CostExplorer.

Record ServiceCost : Type := { service : string; cost : Q }.

Record TaggedCosts : Type :=
  { tag_key : string; by_tag_value : dict Q; untagged_cost : Q }.

(** [group['Keys'][0]], an [IndexError] on an empty list; the class
    [IndexError] is a [KeyError]'s sibling under [LookupError]. *)
Definition first_key (group : Group) : M string :=
  match Keys group with
  | k :: _ => ret k
  | [] => raise (KeyError "0")
  end.

Section Collector.
Variable float_ : string -> option Q.

Definition unblended_cost (group : Group) : M Q :=
  m <- dict_item "UnblendedCost" (Metrics group) ;;
  float float_ (Amount m).

(** [d[k] += c] after [if k not in d: d[k] = 0.0]. *)
Definition add_cost (k : string) (c : Q) (d : dict Q) : dict Q :=
  let d := if dict_mem k d then d else dict_set k 0%Q d in
  match dict_get k d with
  | Some v => dict_set k (v + c)%Q d
  | None => d
  end.

Definition each_group {S} (response : Response)
    (body : Group -> S -> M S) (s : S) : M S :=
  for_in (get_or_empty (ResultsByTime response))
    (fun result s => for_in (get_or_empty (Groups result)) body s) s.

Definition _aggregate_service_costs (response : Response)
  : M (list ServiceCost) :=
  service_costs <-
    each_group response
      (fun group service_costs =>
         service_name <- first_key group ;;
         c <- unblended_cost group ;;
         ret (add_cost service_name c service_costs))
      [] ;;
  let sorted_services :=
    sort_by_reverse cost Qle_bool
      (map (fun kv => {| service := fst kv; cost := snd kv |})
           service_costs) in
  ret sorted_services.

Definition _parse_tagged_costs (response : Response) (tag_key : string)
  : M TaggedCosts :=
  let tagged_costs :=
    {| tag_key := tag_key; by_tag_value := []; untagged_cost := 0 |} in
  each_group response
    (fun group tagged_costs =>
       let tag_value :=
         match Keys group with k :: _ => k | [] => "untagged" end in
       c <- unblended_cost group ;;
       if orb (String.eqb tag_value "untagged") (String.eqb tag_value "")
       then ret {| tag_key := CostCollector.tag_key tagged_costs;
                   by_tag_value := by_tag_value tagged_costs;
                   untagged_cost := (untagged_cost tagged_costs + c)%Q |}
       else ret {| tag_key := CostCollector.tag_key tagged_costs;
                   by_tag_value :=
                     add_cost tag_value c (by_tag_value tagged_costs);
                   untagged_cost := untagged_cost tagged_costs |})
    tagged_costs.
End Collector.

(** *** Vocabulary of the statements about the aggregations *)

(** The groups of a response, in response order. *)
Definition groups_of (response : Response) : list Group :=
  flat_map (fun result => get_or_empty (Groups result))
           (get_or_empty (ResultsByTime response)).

(** The UnblendedCost amount of a group, converted. *)
Definition group_cost (float_ : string -> option Q) (g : Group) : option Q :=
  match dict_get "UnblendedCost" (Metrics g) with
  | Some m => float_ (Amount m)
  | None => None
  end.

Definition cost_or_zero (float_ : string -> option Q) (g : Group) : Q :=
  match group_cost float_ g with Some q => q | None => 0%Q end.

Definition first_key_or (default : string) (g : Group) : string :=
  match Keys g with k :: _ => k | [] => default end.

(** The tag-group key value is empty or missing. *)
Definition empty_or_missing (g : Group) : bool :=
  match Keys g with [] => true | k :: _ => String.eqb k "" end.

(** The tag value is the literal string ["untagged"]. *)
Definition literally_untagged (g : Group) : bool :=
  match Keys g with [] => false | k :: _ => String.eqb k "untagged" end.

(** The groups [_parse_tagged_costs] counts as untagged, and the
    (tag value, cost) pairs of the others. *)
Definition folded (g : Group) : bool :=
  orb (empty_or_missing g) (literally_untagged g).

Definition tagged_pairs (float_ : string -> option Q) (gs : list Group)
  : list (string * Q) :=
  map (fun g => (first_key_or "untagged" g, cost_or_zero float_ g))
      (filter (fun g => negb (folded g)) gs).

(** The (service, cost) pairs [_aggregate_service_costs] adds up. *)
Definition service_pairs (float_ : string -> option Q) (gs : list Group)
  : list (string * Q) :=
  map (fun g => (first_key_or "" g, cost_or_zero float_ g)) gs.

(** The same group with its keys removed. *)
Definition without_keys (g : Group) : Group :=
  {| Keys := []; Metrics := Metrics g |}.

Definition map_groups (f : Group -> Group) (response : Response) : Response :=
  {| ResultsByTime :=
       option_map
         (map (fun tp =>
                 {| TimePeriod_ := TimePeriod_ tp;
                    Groups := option_map (map f) (Groups tp) |}))
         (ResultsByTime response) |}.

(** The costs added under key [k], in order, and their running sum from
    [0.0]. *)
Definition costs_of (k : string) (pairs : list (string * Q)) : list Q :=
  map snd (filter (fun p => String.eqb k (fst p)) pairs).

Definition total_of (k : string) (pairs : list (string * Q)) : Q :=
  fold_left Qplus (costs_of k pairs) 0%Q.

Definition add_all (pairs : list (string * Q)) (d : dict Q) : dict Q :=
  fold_left (fun d p => add_cost (fst p) (snd p) d) pairs d.

(** The tag values a result has an entry for. *)
Definition keys_of_costs (r : TaggedCosts) : list string :=
  keys (by_tag_value r).

End CostCollector.

(** ** [src/data_collection/cost_explorer/collector.py], the other parsers *)

Module CostParsers.

Import CostExplorer CostCollector.

Record ParsedCosts : Type :=
  { time_period : list ResultByTime; total_cost : Q; by_service : dict Q }.

Record UsageEntry : Type := { usage_cost : Q; quantity : Q; unit_cost : Q }.

Section Parsers.
Variable float_ : string -> option Q.

Definition usage_quantity (group : Group) : M Q :=
  m <- dict_item "UsageQuantity" (Metrics group) ;;
  float float_ (Amount m).

Definition _parse_cost_response (response : Response) : M ParsedCosts :=
  let parsed_data :=
    {| time_period := get_or_empty (ResultsByTime response);
       total_cost := 0;
       by_service := [] |} in
  each_group response
    (fun group parsed_data =>
       service_name <- first_key group ;;
       c <- unblended_cost float_ group ;;
       ret {| time_period := time_period parsed_data;
              total_cost := (total_cost parsed_data + c)%Q;
              by_service := add_cost service_name c (by_service parsed_data) |})
    parsed_data.

(** The entry [_parse_usage_types] stores for a cost and a quantity. *)
Definition usage_entry (c q : Q) : UsageEntry :=
  {| usage_cost := c;
     quantity := q;
     unit_cost := if Qle_bool q 0 then 0%Q else (c / q)%Q |}.

Definition _parse_usage_types (response : Response) : M (dict UsageEntry) :=
  each_group response
    (fun group usage_data =>
       usage_type <- first_key group ;;
       c <- unblended_cost float_ group ;;
       q <- usage_quantity group ;;
       ret (dict_set usage_type (usage_entry c q) usage_data))
    [].

(** The quantity of a group, converted, and the entry of a group. *)
Definition group_quantity (g : Group) : option Q :=
  match dict_get "UsageQuantity" (Metrics g) with
  | Some m => float_ (Amount m)
  | None => None
  end.

Definition entry_of (g : Group) : UsageEntry :=
  usage_entry (cost_or_zero float_ g)
              (match group_quantity g with Some q => q | None => 0%Q end).
End Parsers.

(** The last element of a list that satisfies [p]. *)
Definition find_last {A} (p : A -> bool) (l : list A) : option A :=
  find p (rev l).

End CostParsers.

(** ** [src/collectors/resource_inventory.py], tags and specifications *)

Module InventorySpecs.

Record Tag : Type := { Key : string; Value : string }.

(** [{tag['Key']: tag['Value'] for tag in tags_list}]. *)
Definition _extract_tags (tags_list : list Tag) : dict string :=
  fold_left (fun d tag => dict_set (Key tag) (Value tag) d) tags_list [].

Definition ec2_vcpu_map : dict Z :=
  [ ("t2.micro", 1); ("t2.small", 1); ("t2.medium", 2); ("t2.large", 2);
    ("t3.micro", 2); ("t3.small", 2); ("t3.medium", 2); ("t3.large", 2);
    ("m5.large", 2); ("m5.xlarge", 4); ("m5.2xlarge", 8);
    ("c5.large", 2); ("c5.xlarge", 4); ("c5.2xlarge", 8) ]%Z.

Definition ec2_memory_map : dict Z :=
  [ ("t2.micro", 1); ("t2.small", 2); ("t2.medium", 4); ("t2.large", 8);
    ("t3.micro", 1); ("t3.small", 2); ("t3.medium", 4); ("t3.large", 8);
    ("m5.large", 8); ("m5.xlarge", 16); ("m5.2xlarge", 32);
    ("c5.large", 4); ("c5.xlarge", 8); ("c5.2xlarge", 16) ]%Z.

Definition rds_vcpu_map : dict Z :=
  [ ("db.t3.micro", 2); ("db.t3.small", 2); ("db.t3.medium", 2);
    ("db.m5.large", 2); ("db.m5.xlarge", 4); ("db.m5.2xlarge", 8) ]%Z.

Definition rds_memory_map : dict Z :=
  [ ("db.t3.micro", 1); ("db.t3.small", 2); ("db.t3.medium", 4);
    ("db.m5.large", 8); ("db.m5.xlarge", 16); ("db.m5.2xlarge", 32) ]%Z.

Definition _get_instance_vcpus (instance_type : string) : option Z :=
  dict_get instance_type ec2_vcpu_map.

Definition _get_instance_memory (instance_type : string) : option Z :=
  dict_get instance_type ec2_memory_map.

Definition _get_rds_vcpus (instance_class : string) : option Z :=
  dict_get instance_class rds_vcpu_map.

Definition _get_rds_memory (instance_class : string) : option Z :=
  dict_get instance_class rds_memory_map.

End InventorySpecs.

(** ** [src/utils.py] *)

Module Utils.

(** Dates are day numbers; [isoformat] prints one.  Days are subtracted as
    day numbers, which is what the source does on the days Python can
    represent ([date_min] to [date_max] below); the source raises
    [OverflowError] when a subtraction leaves them. *)
Section DateRanges.
Variable isoformat : Z -> string.
Variable today : nat -> Z.

(** The [while days_remaining > 0] loop of [get_date_ranges], with the
    iterations left to run as fuel; [None] when the fuel runs out before
    the loop ends. *)
Fixpoint ranges_loop (fuel : nat) (chunk_days current_end days_remaining : Z)
    (ranges : list (string * string)) : option (list (string * string)) :=
  if (days_remaining >? 0)%Z then
    match fuel with
    | O => None
    | S fuel' =>
        let chunk_size := Z.min chunk_days days_remaining in
        let current_start := (current_end - chunk_size)%Z in
        ranges_loop fuel' chunk_days current_start
          (days_remaining - chunk_size)%Z
          (ranges ++ [(isoformat current_start, isoformat current_end)])
    end
  else Some ranges.

Definition get_date_ranges (fuel : nat) (days_back chunk_days : Z)
  : M (option (list (string * string))) :=
  end_date <- ask (fun t => Ok (today t)) ;;
  ret (option_map (@rev _)
         (ranges_loop fuel chunk_days end_date days_back [])).

(** A range of day numbers, printed. *)
Definition iso_range (r : Z * Z) : string * string :=
  (isoformat (fst r), isoformat (snd r)).
End DateRanges.

(** Day numbers count days from 0001-01-01 as day 1 ([date.toordinal]);
    [date.min] is day 1 and [date.max], 9999-12-31, day 3652059.  A
    subtraction that leaves this range raises [OverflowError]; within it,
    it is the subtraction of day numbers. *)
Definition date_min : Z := 1%Z.
Definition date_max : Z := 3652059%Z.

(** The ranges [zr] go from [lo] to [hi] without gap or overlap: the first
    starts at [lo], each ends where the next starts, the last ends at
    [hi]. *)
Fixpoint partition_of (lo hi : Z) (zr : list (Z * Z)) : Prop :=
  match zr with
  | [] => lo = hi
  | (a, b) :: rest => a = lo /\ partition_of b hi rest
  end.

(** [max(0, score)] and [min(100, x)]: the first argument unless the second
    is strictly beyond it. *)
Definition py_max (a b : Q) : Q := if Qle_bool b a then a else b.
Definition py_min (a b : Q) : Q := if Qle_bool a b then a else b.

Definition calculate_utilization_score (cpu_avg memory_avg network_avg : Q)
  : Q :=
  let score :=
    (cpu_avg * (5 # 10) + memory_avg * (4 # 10) + network_avg * (1 # 10))%Q in
  py_min 100 (py_max 0 score).

Definition calculate_cost_per_hour (monthly_cost : Q) : Q :=
  (monthly_cost / 730)%Q.

Section FormatBytes.
(** [f"{x:.2f}"]. *)
Variable fmt2 : Q -> string.

Fixpoint format_loop (units : list string) (bytes_value : Q) : string :=
  match units with
  | [] => fmt2 bytes_value ++ " PB"
  | unit :: units' =>
      if negb (Qle_bool 1024 bytes_value)
      then fmt2 bytes_value ++ " " ++ unit
      else format_loop units' (bytes_value / 1024)%Q
  end.

Definition format_bytes (bytes_value : Q) : string :=
  format_loop ["B"; "KB"; "MB"; "GB"; "TB"] bytes_value.
End FormatBytes.

(** The value after [k] divisions by 1024. *)
Fixpoint scaled (bytes_value : Q) (k : nat) : Q :=
  match k with
  | O => bytes_value
  | S k' => scaled (bytes_value / 1024)%Q k'
  end.

End Utils.

(** ** [src/data_collection/Untitled-7.py], the cost estimates *)

Module CloudWatchAnalysis.

(** The estimates [analyze_cloudwatch_costs] computes between its prints:
    the tiered price of the custom metrics, the price of the alarms, the
    price of the stored logs. *)
Definition metric_cost (total_custom : Z) : Q :=
  if (total_custom <=? 10000)%Z
  then (inject_Z total_custom * (30 # 100))%Q
  else (inject_Z 10000 * (30 # 100)
        + inject_Z (total_custom - 10000) * (10 # 100))%Q.

Record AlarmStats : Type :=
  { total_alarms : Z;
    standard_alarms : Z;
    high_resolution_alarms : Z;
    composite_alarms : Z }.

Definition alarm_cost (alarm_stats : AlarmStats) : Q :=
  (inject_Z (standard_alarms alarm_stats) * (10 # 100)
   + inject_Z (high_resolution_alarms alarm_stats) * (30 # 100)
   + inject_Z (composite_alarms alarm_stats) * (50 # 100))%Q.

(** A log group: its size, and its retention in days ([None] for
    ['Never expire']). *)
Record LogGroup : Type := { stored_gb : Q; retention_days : option Z }.

Definition storage_cost (log_groups : list LogGroup) : Q :=
  (fold_left Qplus (map stored_gb log_groups) 0 * (3 # 100))%Q.

Definition total_cost (total_custom : Z) (alarm_stats : AlarmStats)
    (log_groups : list LogGroup) : Q :=
  let total_cost := alarm_cost alarm_stats in
  let total_cost :=
    if (total_custom >? 0)%Z
    then (total_cost + metric_cost total_custom)%Q else total_cost in
  match log_groups with
  | _ :: _ => (total_cost + storage_cost log_groups)%Q
  | [] => total_cost
  end.

Inductive Recommendation : Type :=
| ReviewCustomMetrics
| ConvertHighResolution (alarms : Z) (saving : Q)
| SetRetention (groups : nat).

Definition never_expires (lg : LogGroup) : bool :=
  match retention_days lg with None => true | Some _ => false end.

Definition recommendations (total_custom : Z) (alarm_stats : AlarmStats)
    (log_groups : list LogGroup) : list Recommendation :=
  let recommendations := [] in
  let recommendations :=
    if (total_custom >? 100)%Z
    then recommendations ++ [ReviewCustomMetrics] else recommendations in
  let recommendations :=
    if (high_resolution_alarms alarm_stats >? 10)%Z
    then recommendations
         ++ [ConvertHighResolution (high_resolution_alarms alarm_stats)
               (inject_Z (high_resolution_alarms alarm_stats) * (20 # 100))%Q]
    else recommendations in
  match log_groups with
  | _ :: _ =>
      let never_expire := filter never_expires log_groups in
      match never_expire with
      | _ :: _ =>
          recommendations ++ [SetRetention (List.length never_expire)]
      | [] => recommendations
      end
  | [] => recommendations
  end.

End CloudWatchAnalysis.

(** ** Persistence: the stores of the three collectors *)

Module Storage.

(** The keyword arguments of [s3_client.put_object]. *)
Record PutObject : Type :=
  { Bucket : string; Key : string; Body : string; ContentType : string }.

(** [s[a:b]] for [0 <= a <= b]. *)
Definition slice (s : string) (a b : nat) : string := substring a (b - a) s.

(** A JSON-like value, as [store_to_dynamodb] receives and sends it. *)
Inductive pyval : Type :=
| PNone
| PBool (b : bool)
| PInt (z : Z)
| PFloat (q : Q)
| PStr (s : string)
| PDecimal (literal : string)
| PList (l : list pyval)
| PDict (d : list (string * pyval)).

(** The item of a summary record of [process_cost_data]. *)
Definition item_of (summary : dict value) : pyval :=
  PDict (map (fun kv =>
                (fst kv,
                 match snd kv with VStr s => PStr s | VFloat q => PFloat q end))
             summary).

Fixpoint has_float (v : pyval) : bool :=
  match v with
  | PFloat _ => true
  | PList l => existsb has_float l
  | PDict d => existsb (fun kv => has_float (snd kv)) d
  | _ => false
  end.

Section Stores.
(** The S3 and DynamoDB clients' answers at a tick, the serializers, and
    [str] on floats. *)
Variable s3_client : nat -> PutObject -> result unit.
Variable dynamodb_put_item : nat -> string -> pyval -> result unit.
Variable str_float : Q -> string.

Definition put_object (request : PutObject) : M unit :=
  ask (fun t => s3_client t request).

Definition store_to_s3 (json_dumps : CostExplorer.Response -> string)
    (s3_bucket : option string) (data : CostExplorer.Response)
    (date_str : string) : M string :=
  match CloudWatch.truthy s3_bucket with
  | None => raise (ValueError "S3 bucket not configured")
  | Some bucket =>
      let key :=
        ("raw/cost-explorer/year=" ++ slice date_str 0 4
         ++ "/month=" ++ slice date_str 5 7
         ++ "/day=" ++ slice date_str 8 10 ++ "/data.json")%string in
      try_except
        (_ <- put_object {| Bucket := bucket; Key := key;
                            Body := json_dumps data;
                            ContentType := "application/json" |} ;;
         ret key)
        (fun e => raise e)
  end.

Definition store_metrics_to_s3 (to_parquet : CloudWatch.DataFrame -> string)
    (s3_bucket : option string) (df : CloudWatch.DataFrame)
    (date_str : string) : M string :=
  match CloudWatch.truthy s3_bucket with
  | None => raise (ValueError "S3 bucket not configured")
  | Some bucket =>
      match df with
      | [] => ret ""
      | _ :: _ =>
          let key :=
            ("raw/cloudwatch-metrics/year=" ++ slice date_str 0 4
             ++ "/month=" ++ slice date_str 5 7
             ++ "/day=" ++ slice date_str 8 10 ++ "/metrics.parquet")%string in
          try_except
            (_ <- put_object {| Bucket := bucket; Key := key;
                                Body := to_parquet df;
                                ContentType := "application/octet-stream" |} ;;
             ret key)
            (fun e => raise e)
      end
  end.

Definition store_inventory_to_s3 {Inventory : Type}
    (json_dumps : Inventory -> string) (s3_bucket : option string)
    (inventory : Inventory) (date_str : string) : M string :=
  match CloudWatch.truthy s3_bucket with
  | None => raise (ValueError "S3 bucket not configured")
  | Some bucket =>
      let key :=
        ("raw/inventory/year=" ++ slice date_str 0 4
         ++ "/month=" ++ slice date_str 5 7
         ++ "/day=" ++ slice date_str 8 10 ++ "/inventory.json")%string in
      try_except
        (_ <- put_object {| Bucket := bucket; Key := key;
                            Body := json_dumps inventory;
                            ContentType := "application/json" |} ;;
         ret key)
        (fun e => raise e)
  end.

(** The local function [convert_floats] of [store_to_dynamodb]. *)
Fixpoint convert_floats (obj : pyval) : pyval :=
  match obj with
  | PFloat q => PDecimal (str_float q)
  | PDict d =>
      PDict (map (fun kv : string * pyval =>
                    let (k, v) := kv in (k, convert_floats v)) d)
  | PList l => PList (map convert_floats l)
  | _ => obj
  end.

Definition store_to_dynamodb (dynamodb_table : option string)
    (summary_data : pyval) : M unit :=
  match CloudWatch.truthy dynamodb_table with
  | None => raise (ValueError "DynamoDB table not configured")
  | Some table =>
      try_except
        (ask (fun t => dynamodb_put_item t table (convert_floats summary_data)))
        (fun e => raise e)
  end.

(** *** [collect_last_n_days] *)

(** The keyword arguments of [ce_client.get_cost_and_usage]. *)
Record CostRequest : Type :=
  { rStart : string;
    rEnd : string;
    rGranularity : string;
    rMetrics : list string;
    rGroupBy : list (string * string);
    rFilter : string * list string }.

Variable ce_client : nat -> CostRequest -> result CostExplorer.Response.
Variable float_ : string -> option Q.
(** [datetime.utcnow()] at a tick: its date as a day number, its
    [isoformat()]; and [isoformat()] on dates. *)
Variable today : nat -> Z.
Variable clock : nat -> string.
Variable date_isoformat : Z -> string.
Variable json_dumps : CostExplorer.Response -> string.

Definition fetch_cost_data (start_date end_date granularity : string)
    (group_by : option (list (string * string)))
  : M CostExplorer.Response :=
  let group_by :=
    match group_by with
    | Some g => g
    | None => [("DIMENSION", "SERVICE"); ("DIMENSION", "RESOURCE_ID")]
    end in
  try_except
    (ask (fun t =>
            ce_client t
              {| rStart := start_date;
                 rEnd := end_date;
                 rGranularity := granularity;
                 rMetrics := CostExplorer.requested_metrics;
                 rGroupBy := group_by;
                 rFilter := ("RECORD_TYPE", ["Usage"]) |}))
    (fun e => raise e).

(** The window request [collect_last_n_days] sends when the clock shows
    [end_date]. *)
Definition window_request (end_date days : Z) : CostRequest :=
  {| rStart := date_isoformat (end_date - days);
     rEnd := date_isoformat end_date;
     rGranularity := "DAILY";
     rMetrics := CostExplorer.requested_metrics;
     rGroupBy := [("DIMENSION", "SERVICE"); ("DIMENSION", "RESOURCE_ID")];
     rFilter := ("RECORD_TYPE", ["Usage"]) |}.

Definition collect_last_n_days (s3_bucket dynamodb_table : option string)
    (days : Z) : M (list (dict value)) :=
  end_date <- ask (fun t => Ok (today t)) ;;
  let start_date := (end_date - days)%Z in
  raw_data <- fetch_cost_data (date_isoformat start_date)
                (date_isoformat end_date) "DAILY" None ;;
  _ <- match CloudWatch.truthy s3_bucket with
       | Some _ =>
           _ <- store_to_s3 json_dumps s3_bucket raw_data
                  (date_isoformat end_date) ;;
           ret tt
       | None => ret tt
       end ;;
  summaries <- CostExplorer.process_cost_data float_ clock raw_data ;;
  _ <- match CloudWatch.truthy dynamodb_table with
       | Some _ =>
           for_in summaries
             (fun summary _ => store_to_dynamodb dynamodb_table
                                 (item_of summary))
             tt
       | None => ret tt
       end ;;
  ret summaries.
End Stores.

End Storage.

(** ** [src/collectors/resource_inventory.py], the three scans *)

Module InventoryScans.

Import InventorySpecs.

(** What [describe_instances] lists, with the keys the scan reads through
    [.get] as options, and the record the scan makes of it. *)
Module EC2.
Record Instance : Type :=
  { InstanceId : string;
    InstanceType : string;
    StateName : string;
    LaunchTime : Z;
    AvailabilityZone : string;
    Platform : option string;
    Architecture : option string;
    Tags : option (list Tag);
    PrivateIpAddress : option string;
    PublicIpAddress : option string;
    VpcId : option string;
    SubnetId : option string;
    Monitoring : option (option string) }.

Record Reservation : Type := { Instances : list Instance }.

Record Page : Type := { Reservations : list Reservation }.

Record Data : Type :=
  { resource_type : string;
    resource_id : string;
    instance_type : string;
    state : string;
    launch_time : string;
    availability_zone : string;
    platform : string;
    architecture : string;
    vcpus : option Z;
    memory_gb : option Z;
    tags : dict string;
    private_ip : option string;
    public_ip : option string;
    vpc_id : option string;
    subnet_id : option string;
    monitoring : option string;
    scan_timestamp : string }.
End EC2.

Module RDS.
Record Instance : Type :=
  { DBInstanceIdentifier : string;
    DBInstanceClass : string;
    Engine : string;
    EngineVersion : string;
    DBInstanceStatus : string;
    AllocatedStorage : Z;
    StorageType : option string;
    MultiAZ : option bool;
    AvailabilityZone : option string;
    BackupRetentionPeriod : option Z }.

Record Page : Type := { DBInstances : list Instance }.

Record Data : Type :=
  { resource_type : string;
    resource_id : string;
    instance_class : string;
    engine : string;
    engine_version : string;
    state : string;
    allocated_storage_gb : Z;
    storage_type : option string;
    multi_az : bool;
    availability_zone : option string;
    vcpus : option Z;
    memory_gb : option Z;
    backup_retention_days : option Z;
    tags : list string;
    scan_timestamp : string }.
End RDS.

Module Lambda.
Record Function : Type :=
  { FunctionName : string;
    Runtime : string;
    MemorySize : Z;
    Timeout : Z;
    CodeSize : Z;
    LastModified : string;
    Architectures : option (list string);
    EphemeralStorage : option (option Z) }.

Record Page : Type := { Functions : list Function }.

Record Data : Type :=
  { resource_type : string;
    resource_id : string;
    runtime : string;
    memory_mb : Z;
    timeout_seconds : Z;
    code_size_bytes : Z;
    last_modified : string;
    architecture : string;
    ephemeral_storage_mb : Z;
    tags : list string;
    scan_timestamp : string }.
End Lambda.

(** A record of the inventory. *)
Inductive ResourceRecord : Type :=
| OfEC2 (data : EC2.Data)
| OfRDS (data : RDS.Data)
| OfLambda (data : Lambda.Data).

Definition or_default {A} (o : option A) (default : A) : A :=
  match o with Some a => a | None => default end.

Section Scans.
(** The three paginators, drained, at a tick; the clock's [isoformat()] at
    a tick; [isoformat()] of a launch time. *)
Variable ec2_pages : nat -> result (list EC2.Page).
Variable rds_pages : nat -> result (list RDS.Page).
Variable lambda_pages : nat -> result (list Lambda.Page).
Variable clock : nat -> string.
Variable isoformat : Z -> string.

Definition utcnow_isoformat : M string := ask (fun t => Ok (clock t)).

Definition ec2_instance_data (instance : EC2.Instance) : M EC2.Data :=
  scan_timestamp <- utcnow_isoformat ;;
  ret {| EC2.resource_type := "EC2";
         EC2.resource_id := EC2.InstanceId instance;
         EC2.instance_type := EC2.InstanceType instance;
         EC2.state := EC2.StateName instance;
         EC2.launch_time := isoformat (EC2.LaunchTime instance);
         EC2.availability_zone := EC2.AvailabilityZone instance;
         EC2.platform := or_default (EC2.Platform instance) "Linux/UNIX";
         EC2.architecture := or_default (EC2.Architecture instance) "x86_64";
         EC2.vcpus := _get_instance_vcpus (EC2.InstanceType instance);
         EC2.memory_gb := _get_instance_memory (EC2.InstanceType instance);
         EC2.tags := _extract_tags (or_default (EC2.Tags instance) []);
         EC2.private_ip := EC2.PrivateIpAddress instance;
         EC2.public_ip := EC2.PublicIpAddress instance;
         EC2.vpc_id := EC2.VpcId instance;
         EC2.subnet_id := EC2.SubnetId instance;
         EC2.monitoring := or_default (EC2.Monitoring instance) None;
         EC2.scan_timestamp := scan_timestamp |}.

Definition scan_ec2_instances : M (list ResourceRecord) :=
  try_except
    (pages <- ask ec2_pages ;;
     for_in pages
       (fun page instances =>
          for_in (EC2.Reservations page)
            (fun reservation instances =>
               for_in (EC2.Instances reservation)
                 (fun instance instances =>
                    instance_data <- ec2_instance_data instance ;;
                    ret (instances ++ [OfEC2 instance_data]))
                 instances)
            instances)
       [])
    (fun e => raise e).

Definition rds_instance_data (db_instance : RDS.Instance) : M RDS.Data :=
  scan_timestamp <- utcnow_isoformat ;;
  ret {| RDS.resource_type := "RDS";
         RDS.resource_id := RDS.DBInstanceIdentifier db_instance;
         RDS.instance_class := RDS.DBInstanceClass db_instance;
         RDS.engine := RDS.Engine db_instance;
         RDS.engine_version := RDS.EngineVersion db_instance;
         RDS.state := RDS.DBInstanceStatus db_instance;
         RDS.allocated_storage_gb := RDS.AllocatedStorage db_instance;
         RDS.storage_type := RDS.StorageType db_instance;
         RDS.multi_az := or_default (RDS.MultiAZ db_instance) false;
         RDS.availability_zone := RDS.AvailabilityZone db_instance;
         RDS.vcpus := _get_rds_vcpus (RDS.DBInstanceClass db_instance);
         RDS.memory_gb := _get_rds_memory (RDS.DBInstanceClass db_instance);
         RDS.backup_retention_days := RDS.BackupRetentionPeriod db_instance;
         RDS.tags := [];
         RDS.scan_timestamp := scan_timestamp |}.

Definition scan_rds_instances : M (list ResourceRecord) :=
  try_except
    (pages <- ask rds_pages ;;
     for_in pages
       (fun page instances =>
          for_in (RDS.DBInstances page)
            (fun db_instance instances =>
               instance_data <- rds_instance_data db_instance ;;
               ret (instances ++ [OfRDS instance_data]))
            instances)
       [])
    (fun e => raise e).

(** [function.get('Architectures', ['x86_64'])[0]], an [IndexError] on an
    empty list (written as the lookup error of index 0). *)
Definition first_architecture (function : Lambda.Function) : M string :=
  match or_default (Lambda.Architectures function) ["x86_64"] with
  | a :: _ => ret a
  | [] => raise (KeyError "0")
  end.

Definition lambda_function_data (function : Lambda.Function)
  : M Lambda.Data :=
  architecture <- first_architecture function ;;
  scan_timestamp <- utcnow_isoformat ;;
  ret {| Lambda.resource_type := "Lambda";
         Lambda.resource_id := Lambda.FunctionName function;
         Lambda.runtime := Lambda.Runtime function;
         Lambda.memory_mb := Lambda.MemorySize function;
         Lambda.timeout_seconds := Lambda.Timeout function;
         Lambda.code_size_bytes := Lambda.CodeSize function;
         Lambda.last_modified := Lambda.LastModified function;
         Lambda.architecture := architecture;
         Lambda.ephemeral_storage_mb :=
           or_default
             (or_default (Lambda.EphemeralStorage function) None) 512%Z;
         Lambda.tags := [];
         Lambda.scan_timestamp := scan_timestamp |}.

Definition scan_lambda_functions : M (list ResourceRecord) :=
  try_except
    (pages <- ask lambda_pages ;;
     for_in pages
       (fun page functions =>
          for_in (Lambda.Functions page)
            (fun function functions =>
               function_data <- lambda_function_data function ;;
               ret (functions ++ [OfLambda function_data]))
            functions)
       [])
    (fun e => raise e).

(** [collect_full_inventory] of the class, on its own scans. *)
Definition ResourceInventoryCollector_collect_full_inventory
  : M (dict (list ResourceRecord)) :=
  Inventory.collect_full_inventory ResourceRecord scan_ec2_instances
    scan_rds_instances scan_lambda_functions.
End Scans.

(** All functions, instances and database instances of the pages. *)
Definition all_functions (pages : list Lambda.Page) : list Lambda.Function :=
  flat_map Lambda.Functions pages.

Definition all_instances (pages : list EC2.Page) : list EC2.Instance :=
  flat_map (fun page => flat_map EC2.Instances (EC2.Reservations page)) pages.

Definition all_db_instances (pages : list RDS.Page) : list RDS.Instance :=
  flat_map RDS.DBInstances pages.

Definition record_id (r : ResourceRecord) : string :=
  match r with
  | OfEC2 d => EC2.resource_id d
  | OfRDS d => RDS.resource_id d
  | OfLambda d => Lambda.resource_id d
  end.

Definition record_type (r : ResourceRecord) : string :=
  match r with
  | OfEC2 d => EC2.resource_type d
  | OfRDS d => RDS.resource_type d
  | OfLambda d => Lambda.resource_type d
  end.

End InventoryScans.

(** ** Concrete inputs *)

Module Examples.

Definition usd (amount : string) : CostExplorer.MetricValue :=
  {| CostExplorer.Amount := amount; CostExplorer.Unit := "USD" |}.

Definition cost_group (ks : list string) (amortized quantity unblended : string)
  : CostExplorer.Group :=
  {| CostExplorer.Keys := ks;
     CostExplorer.Metrics :=
       [ ("AmortizedCost", usd amortized);
         ("UsageQuantity", usd quantity);
         ("UnblendedCost", usd unblended) ] |}.

Definition period (start : string) (gs : list CostExplorer.Group)
  : CostExplorer.ResultByTime :=
  {| CostExplorer.TimePeriod_ :=
       {| CostExplorer.Start := start; CostExplorer.End := start |};
     CostExplorer.Groups := Some gs |}.

(** Two time periods of two groups each. *)
Definition two_by_two : CostExplorer.Response :=
  {| CostExplorer.ResultsByTime :=
       Some
         [ period "2024-01-01"
             [ cost_group ["Amazon EC2"; "i-1"] "1.5" "24" "1.25";
               cost_group ["Amazon RDS"] "2" "3" "2" ];
           period "2024-01-02"
             [ cost_group [] "0.5" "1" "0.5";
               cost_group ["AWS Lambda"; "fn"] "4" "100" "4" ] ] |}.

Definition clock_iso (t : nat) : string := "2024-01-03T00:00:00".

Definition datapoint (ts : Z) (v : Q) : CloudWatch.Datapoint :=
  {| CloudWatch.Timestamp := ts;
     CloudWatch.Stats := [("Average", v); ("Sum", v); ("Maximum", v)];
     CloudWatch.DpUnit := None |}.

(** A client that answers out of order, and fails for the instance
    ["i-bad"]. *)
Definition cw_unsorted (t : nat) (p : CloudWatch.Params)
  : result CloudWatch.MetricResponse :=
  if existsb (fun d => String.eqb (CloudWatch.DimValue d) "i-bad")
             (CloudWatch.pDimensions p)
  then Raise (ClientError "Throttling")
  else Ok {| CloudWatch.Datapoints :=
               Some [datapoint 30 3; datapoint 10 1; datapoint 20 2] |}.

Definition clock_s (t : nat) : Z := 1700000000.

Definition cpu_row (rid : string) (ts : Z) (v : Q) : CloudWatch.Row :=
  {| CloudWatch.resource_type := "EC2";
     CloudWatch.resource_id := rid;
     CloudWatch.metric_name := "CPUUtilization";
     CloudWatch.timestamp := ts;
     CloudWatch.value := v;
     CloudWatch.unit := Some "Percent";
     CloudWatch.statistic := "Average" |}.

(** The values 10 to 50 for one instance, among rows of another. *)
Definition cpu_table : CloudWatch.DataFrame :=
  [ cpu_row "i-1" 1 10; cpu_row "i-2" 1 99; cpu_row "i-1" 2 20;
    cpu_row "i-1" 3 30; cpu_row "i-2" 2 1; cpu_row "i-1" 4 40;
    cpu_row "i-1" 5 50 ].

(** An S3 that accepts every object, a DynamoDB that accepts every item,
    a Cost Explorer that answers with the two-by-two response. *)
Definition s3_accepts (t : nat) (request : Storage.PutObject) : result unit :=
  Ok tt.

Definition dynamodb_accepts (t : nat) (table : string) (item : Storage.pyval)
  : result unit := Ok tt.

Definition ce_two_by_two (t : nat) (request : Storage.CostRequest)
  : result CostExplorer.Response := Ok two_by_two.


Definition lambda_function (name : string) (archs : option (list string))
  : InventoryScans.Lambda.Function :=
  {| InventoryScans.Lambda.FunctionName := name;
     InventoryScans.Lambda.Runtime := "python3.12";
     InventoryScans.Lambda.MemorySize := 128;
     InventoryScans.Lambda.Timeout := 3;
     InventoryScans.Lambda.CodeSize := 1024;
     InventoryScans.Lambda.LastModified := "2024-01-01T00:00:00";
     InventoryScans.Lambda.Architectures := archs;
     InventoryScans.Lambda.EphemeralStorage := None |}.

(** Listings of Lambda functions: two well-formed ones, and one with a
    function whose list of architectures is empty. *)
Definition lambda_listing (t : nat)
  : result (list InventoryScans.Lambda.Page) :=
  Ok [ {| InventoryScans.Lambda.Functions :=
            [ lambda_function "resize" None;
              lambda_function "notify" (Some ["arm64"]) ] |} ].

Definition lambda_listing_bad (t : nat)
  : result (list InventoryScans.Lambda.Page) :=
  Ok [ {| InventoryScans.Lambda.Functions :=
            [ lambda_function "resize" None;
              lambda_function "broken" (Some []) ] |} ].

Definition no_ec2 (t : nat) : result (list InventoryScans.EC2.Page) := Ok [].

Definition no_rds (t : nat) : result (list InventoryScans.RDS.Page) := Ok [].

Definition rds_denied (t : nat) : result (list InventoryScans.RDS.Page) :=
  Raise (ClientError "AccessDenied").

(** Scans of a resource inventory: one that lists, one that is refused. *)
Definition scan_ok (ids : list string) : M (list string) :=
  ask (fun _ => Ok ids).

Definition scan_denied : M (list string) :=
  ask (fun _ => Raise (ClientError "AccessDenied")).

Definition one_period (gs : list CostExplorer.Group) : CostExplorer.Response :=
  {| CostExplorer.ResultsByTime := Some [period "2024-01-01" gs] |}.

Definition unblended (ks : list string) (amount : string)
  : CostExplorer.Group :=
  {| CostExplorer.Keys := ks;
     CostExplorer.Metrics := [("UnblendedCost", usd amount)] |}.

(** Three groups of two services, all with keys. *)
Definition services_period : CostExplorer.Response :=
  one_period
    [ cost_group ["A"] "1" "2" "10"; cost_group ["B"] "1" "4" "30";
      cost_group ["A"] "1" "0" "5" ].

(** One usage type in two time periods. *)
Definition usage_two_periods : CostExplorer.Response :=
  {| CostExplorer.ResultsByTime :=
       Some [ period "2024-01-01" [cost_group ["DataTransfer"] "0" "2" "4"];
              period "2024-02-01" [cost_group ["DataTransfer"] "0" "3" "6"] ]
  |}.

Definition ec2 (i : string) : CloudWatch.Resource :=
  {| CloudWatch.type := "EC2"; CloudWatch.id := i |}.

(** A bucket: no supported resource type. *)
Definition bucket : CloudWatch.Resource :=
  {| CloudWatch.type := "S3"; CloudWatch.id := "logs" |}.

End Examples.

(** * Properties *)

(** ** Loops and dictionaries *)

Lemma bind_ok {A B} (m : M A) (k : A -> M B) t a t' :
  m t = (Ok a, t') -> bind m k t = k a t'.
Proof. unfold bind; intros ->; reflexivity. Qed.

Lemma bind_raise {A B} (m : M A) (k : A -> M B) t e t' :
  m t = (Raise e, t') -> bind m k t = (Raise e, t').
Proof. unfold bind; intros ->; reflexivity. Qed.

(** A loop whose body appends to its accumulator appends the bodies'
    contributions in order. *)
Lemma for_in_appends {A B} (R : A -> list B -> Prop)
    (body : A -> list B -> M (list B)) (xs : list A) :
  (forall x acc t, In x xs ->
     exists bs t', body x acc t = (Ok (acc ++ bs), t') /\ R x bs) ->
  forall acc t,
  exists bss t',
    for_in xs body acc t = (Ok (acc ++ List.concat bss), t')
    /\ Forall2 R xs bss.
Proof.
  induction xs as [|x xs IH]; intros Hbody acc t.
  - exists [], t; cbn; rewrite app_nil_r; split; [reflexivity | constructor].
  - destruct (Hbody x acc t (or_introl eq_refl)) as (bs & t1 & Hx & HR).
    destruct (IH (fun y a u H => Hbody y a u (or_intror H)) (acc ++ bs) t1)
      as (bss & t2 & Hxs & HRs).
    exists (bs :: bss), t2; split.
    + cbn [for_in]; rewrite (bind_ok _ _ _ _ _ Hx), Hxs.
      cbn; rewrite app_assoc; reflexivity.
    + constructor; assumption.
Qed.

Lemma Forall2_flat_map_concat {A B C} (P : B -> C -> Prop)
    (f : A -> list B) (xs : list A) (css : list (list C)) :
  Forall2 (fun x cs => Forall2 P (f x) cs) xs css ->
  Forall2 P (flat_map f xs) (List.concat css).
Proof.
  induction 1; cbn; [constructor | apply Forall2_app; assumption].
Qed.

Lemma Forall2_singletons {A C} (P : A -> C -> Prop) (xs : list A)
    (css : list (list C)) :
  Forall2 (fun x cs => exists c, cs = [c] /\ P x c) xs css ->
  Forall2 P xs (List.concat css).
Proof.
  induction 1 as [|x cs xs css (c & -> & Hc) _ IH]; cbn;
    constructor; assumption.
Qed.

Lemma Forall2_length_eq {A B} (P : A -> B -> Prop) xs ys :
  Forall2 P xs ys -> List.length ys = List.length xs.
Proof. induction 1; cbn; congruence. Qed.

(** ** The cost collector of [src/collectors/cost_explorer.py] *)

Section CostExplorerFacts.
Import CostExplorer.
Variable float_ : string -> option Q.
Variable clock : nat -> string.

Lemma process_group_ok tp g acc t :
  amounts_ok float_ g ->
  exists rec,
    process_group float_ clock (Start (TimePeriod_ tp)) g acc t
    = (Ok (acc ++ [rec]), S t)
    /\ summary_of float_ (tp, g) rec /\ keys rec = summary_keys.
Proof.
  intros [(qa & ma & Ha & Fa) (qu & mu & Hu & Fu)].
  unfold process_group, dict_item, float, bind, ret.
  rewrite Ha; cbn. rewrite Fa; cbn. rewrite Hu; cbn. rewrite Fu; cbn.
  eexists; split; [reflexivity|]. split; [|reflexivity].
  unfold summary_of, first_key_or, second_key_or; cbn.
  repeat split.
  - destruct (Keys g) as [|k ks]; reflexivity.
  - destruct (Keys g) as [|k [|k' ks]]; reflexivity.
  - exists qa; split; [exists ma; auto | reflexivity].
  - exists qu; split; [exists mu; auto | reflexivity].
Qed.

Lemma process_cost_data_ok raw t :
  Forall (amounts_ok float_) (map snd (period_groups raw)) ->
  exists recs t',
    process_cost_data float_ clock raw t = (Ok recs, t')
    /\ Forall2 (fun p rec => summary_of float_ p rec /\ keys rec = summary_keys)
               (period_groups raw) recs.
Proof.
  intros Hok. unfold process_cost_data, period_groups in *.
  set (P := fun p rec => summary_of float_ p rec /\ keys rec = summary_keys).
  destruct (for_in_appends
              (fun tp recs =>
                 Forall2 P (map (pair tp) (get_or_empty (Groups tp))) recs)
              (process_time_period float_ clock)
              (get_or_empty (ResultsByTime raw))) with (acc := @nil (dict value)) (t := t)
    as (bss & t' & Hrun & Hall).
  - intros tp acc u Htp. unfold process_time_period.
    destruct (for_in_appends
                (fun g recs => exists rec, recs = [rec] /\ P (tp, g) rec)
                (process_group float_ clock (Start (TimePeriod_ tp)))
                (get_or_empty (Groups tp))) with (acc := acc) (t := u)
      as (css & u' & Hrun & Hall).
    + intros g a v Hg.
      assert (Hg' : amounts_ok float_ g).
      { rewrite Forall_forall in Hok. apply Hok.
        rewrite flat_map_concat_map, concat_map, map_map.
        apply in_concat. exists (map snd (map (pair tp) (get_or_empty (Groups tp)))).
        split.
        - apply in_map_iff. exists tp; auto.
        - rewrite map_map; cbn. rewrite map_id; assumption. }
      destruct (process_group_ok tp g a v Hg') as (rec & Hr & Hs & Hk).
      exists [rec], (S v); split; [assumption|]. exists rec; split; [reflexivity|].
      split; assumption.
    + exists (List.concat css), u'; split; [assumption|].
      apply Forall2_singletons.
      clear -Hall. induction Hall; cbn; constructor; assumption.
  - exists (List.concat bss), t'; split; [assumption|].
    apply Forall2_flat_map_concat; assumption.
Qed.

(** C1: on a response whose groups carry the two amounts in convertible
    form, [process_cost_data] returns, in response order, one record per
    (time period, group) pair: the date is the period's start, the service
    the first key or ["Unknown"], the resource id the second key or
    ["N/A"], the cost and the quantity the conversions of the two amount
    strings; two periods of two groups each give exactly four records. *)
Theorem process_cost_data_flattens raw t :
  Forall (amounts_ok float_) (map snd (period_groups raw)) ->
  exists recs t',
    process_cost_data float_ clock raw t = (Ok recs, t')
    /\ List.length recs = List.length (period_groups raw)
    /\ Forall2 (summary_of float_) (period_groups raw) recs
    /\ (forall tp1 tp2 g1 g2 g3 g4,
          ResultsByTime raw = Some [tp1; tp2] ->
          Groups tp1 = Some [g1; g2] -> Groups tp2 = Some [g3; g4] ->
          List.length recs = 4%nat).
Proof.
  intros Hok. destruct (process_cost_data_ok raw t Hok) as (recs & t' & Hrun & Hall).
  exists recs, t'. split; [assumption|].
  assert (Hlen : List.length recs = List.length (period_groups raw))
    by (eapply Forall2_length_eq; eassumption).
  repeat split.
  - assumption.
  - eapply Forall2_impl; [|eassumption]. intros ? ? [? _]; assumption.
  - intros tp1 tp2 g1 g2 g3 g4 H H1 H2. rewrite Hlen.
    unfold period_groups; rewrite H; cbn; rewrite H1, H2; reflexivity.
Qed.

End CostExplorerFacts.

Section CostExplorerRecords.
Import CostExplorer.
Variable float_ : string -> option Q.
Variable clock : nat -> string.

Lemma for_in_invariant {A S} (I : S -> Prop) (body : A -> S -> M S) xs :
  (forall x s t s' t', body x s t = (Ok s', t') -> I s -> I s') ->
  forall s t s' t', for_in xs body s t = (Ok s', t') -> I s -> I s'.
Proof.
  intros Hbody. induction xs as [|x xs IH]; cbn; intros s t s' t' Hrun Hs.
  - inversion Hrun; subst; assumption.
  - unfold bind in Hrun. destruct (body x s t) as [[s1|e] t1] eqn:Hx;
      [|discriminate].
    eapply IH; [eassumption|]. eapply Hbody; eassumption.
Qed.

Lemma for_in_ext {A S} (body body' : A -> S -> M S) xs :
  (forall x s t, In x xs -> body x s t = body' x s t) ->
  forall s t, for_in xs body s t = for_in xs body' s t.
Proof.
  induction xs as [|x xs IH]; intros H s t; cbn; [reflexivity|].
  unfold bind. rewrite (H x s t (or_introl eq_refl)).
  destruct (body' x s t) as [[s1|e] t1]; [|reflexivity].
  apply IH. intros; apply H; right; assumption.
Qed.

Lemma for_in_map {A B S} (f : A -> B) (body : B -> S -> M S) xs s t :
  for_in (map f xs) body s t = for_in xs (fun x => body (f x)) s t.
Proof.
  revert s t. induction xs as [|x xs IH]; intros s t; cbn; [reflexivity|].
  unfold bind. destruct (body (f x) s t) as [[s1|e] t1]; [apply IH|reflexivity].
Qed.

Lemma dict_get_filter_other {V} (k name : string) (d : dict V) :
  String.eqb k name = false ->
  dict_get k (filter (fun kv => negb (String.eqb (fst kv) name)) d)
  = dict_get k d.
Proof.
  intros Hk. induction d as [|[k' v] d IH]; cbn; [reflexivity|].
  destruct (String.eqb k' name) eqn:Hk'; cbn.
  - apply String.eqb_eq in Hk'; subst k'. rewrite Hk. assumption.
  - destruct (String.eqb k k'); [reflexivity | assumption].
Qed.

Lemma process_group_keys date g acc t recs t' :
  process_group float_ clock date g acc t = (Ok recs, t') ->
  Forall (fun rec => keys rec = summary_keys) acc ->
  Forall (fun rec => keys rec = summary_keys) recs.
Proof.
  unfold process_group, dict_item, float, bind, ret, raise, utcnow_isoformat, ask.
  destruct (dict_get "AmortizedCost" (Metrics g)) as [ma|]; [|discriminate].
  destruct (float_ (Amount ma)); [|discriminate].
  destruct (dict_get "UsageQuantity" (Metrics g)) as [mu|]; [|discriminate].
  destruct (float_ (Amount mu)); [|discriminate].
  intros H Hacc; inversion H; subst.
  apply Forall_app; split; [assumption|]. constructor; [reflexivity|constructor].
Qed.

(** C2, as the code has it: every record [process_cost_data] returns has
    exactly the six keys date, service, resource_id, amortized_cost,
    usage_quantity and timestamp, and the UnblendedCost metric of the
    response is not read: a response without it gives the same result. *)
Theorem process_cost_data_six_fields raw t recs t' :
  process_cost_data float_ clock raw t = (Ok recs, t') ->
  Forall (fun rec => keys rec = summary_keys) recs
  /\ process_cost_data float_ clock (drop_metric "UnblendedCost" raw) t
     = (Ok recs, t').
Proof.
  intros Hrun; split.
  - unfold process_cost_data in Hrun.
    eapply (for_in_invariant (Forall (fun rec => keys rec = summary_keys)));
      [|exact Hrun|constructor].
    intros tp s u s' u' Htp Hs. unfold process_time_period in Htp.
    eapply (for_in_invariant (Forall (fun rec => keys rec = summary_keys)));
      [|exact Htp|exact Hs].
    intros g a v a' v'. apply process_group_keys.
  - rewrite <- Hrun. unfold process_cost_data, drop_metric; cbn.
    destruct (ResultsByTime raw) as [tps|]; cbn; [|reflexivity].
    rewrite for_in_map. apply for_in_ext. intros tp s u _.
    unfold process_time_period; cbn.
    destruct (Groups tp) as [gs|]; cbn; [|reflexivity].
    rewrite for_in_map. apply for_in_ext. intros g a v _.
    unfold process_group, dict_item; cbn [Keys Metrics].
    rewrite !dict_get_filter_other by reflexivity. reflexivity.
Qed.

End CostExplorerRecords.

Lemma process_cost_data_flattens_witness :
  Forall (CostExplorer.amounts_ok float_decimal)
         (map snd (CostExplorer.period_groups Examples.two_by_two))
  /\ exists recs t',
       CostExplorer.process_cost_data float_decimal Examples.clock_iso
         Examples.two_by_two 0%nat = (Ok recs, t')
       /\ List.length recs = 4%nat.
Proof.
  assert (H : Forall (CostExplorer.amounts_ok float_decimal)
                (map snd (CostExplorer.period_groups Examples.two_by_two))).
  { repeat (constructor;
            [split; eexists; eexists; split; reflexivity|]).
    constructor. }
  split; [exact H|].
  destruct (process_cost_data_flattens float_decimal Examples.clock_iso
              Examples.two_by_two 0%nat H) as (recs & t' & Hrun & Hlen & _).
  exists recs, t'; split; [exact Hrun | exact Hlen].
Defined.

(** C2 as stated fails: the records of the two-by-two response, whose
    groups all carry an UnblendedCost metric, have no unblended_cost
    field. *)
Lemma process_cost_data_no_unblended_cost :
  ~ (forall rec,
       In rec (CostExplorer.returned
                 (CostExplorer.process_cost_data float_decimal
                    Examples.clock_iso Examples.two_by_two 0%nat)) ->
       dict_mem "unblended_cost" rec = true).
Proof.
  intros H.
  assert (Hrec : dict_mem "unblended_cost"
                   [ ("date", VStr "2024-01-01");
                     ("service", VStr "Amazon EC2");
                     ("resource_id", VStr "i-1");
                     ("amortized_cost", VFloat (Qplus (inject_Z 1) (5 # 10)));
                     ("usage_quantity", VFloat (inject_Z 24));
                     ("timestamp", VStr "2024-01-03T00:00:00") ] = true).
  { apply H. vm_compute. left. reflexivity. }
  discriminate Hrec.
Qed.

Lemma process_cost_data_six_fields_witness :
  exists recs t',
    CostExplorer.process_cost_data float_decimal Examples.clock_iso
      Examples.two_by_two 0%nat = (Ok recs, t')
    /\ Forall (fun rec => keys rec = CostExplorer.summary_keys) recs.
Proof.
  assert (Hrun : exists recs t',
             CostExplorer.process_cost_data float_decimal Examples.clock_iso
               Examples.two_by_two 0%nat = (Ok recs, t'))
    by (eexists; eexists; vm_compute; reflexivity).
  destruct Hrun as (recs & t' & Hrun).
  exists recs, t'; split; [exact Hrun|].
  exact (proj1 (process_cost_data_six_fields float_decimal Examples.clock_iso
                  Examples.two_by_two 0%nat recs t' Hrun)).
Defined.

(** ** Dictionaries, distinct values and sorting *)

Lemma dict_get_set_same {V} k (v : V) d : dict_get k (dict_set k v d) = Some v.
Proof.
  induction d as [|[k' v'] d IH]; cbn.
  - rewrite String.eqb_refl; reflexivity.
  - destruct (String.eqb k k') eqn:E; cbn; rewrite E; [reflexivity|assumption].
Qed.

Lemma dict_get_set_other {V} k k' (v : V) d :
  String.eqb k k' = false -> dict_get k (dict_set k' v d) = dict_get k d.
Proof.
  intros Hk. induction d as [|[k0 v0] d IH]; cbn.
  - rewrite Hk; reflexivity.
  - destruct (String.eqb k' k0) eqn:E; cbn.
    + apply String.eqb_eq in E; subst k0. rewrite Hk; reflexivity.
    + destruct (String.eqb k k0); [reflexivity|assumption].
Qed.

Lemma mem_string_In x l : mem_string x l = true <-> In x l.
Proof.
  unfold mem_string. rewrite existsb_exists. split.
  - intros (y & Hy & E). apply String.eqb_eq in E; subst; assumption.
  - intros H; exists x; split; [assumption|apply String.eqb_refl].
Qed.

Lemma mem_string_keys {V} k (d : dict V) : dict_mem k d = mem_string k (keys d).
Proof.
  unfold dict_mem, mem_string, keys.
  induction d as [|[k' v] d IH]; cbn; [reflexivity|].
  destruct (String.eqb k k'); [reflexivity|assumption].
Qed.

Lemma keys_dict_set {V} k (v : V) d :
  keys (dict_set k v d) = if dict_mem k d then keys d else keys d ++ [k].
Proof.
  unfold dict_mem, keys. induction d as [|[k' v'] d IH]; cbn; [reflexivity|].
  destruct (String.eqb k k') eqn:E; cbn; [reflexivity|].
  rewrite IH. destruct (dict_get k d); reflexivity.
Qed.

Lemma dict_get_In_keys {V} k (d : dict V) :
  dict_get k d <> None <-> In k (keys d).
Proof.
  rewrite <- mem_string_In, <- mem_string_keys. unfold dict_mem.
  destruct (dict_get k d); split; congruence.
Qed.

Lemma dict_get_NoDup {V} k (v : V) d :
  NoDup (keys d) -> In (k, v) d -> dict_get k d = Some v.
Proof.
  induction d as [|[k' v'] d IH]; cbn; [contradiction|].
  intros Hnd [E|Hin]; inversion Hnd; subst.
  - inversion E; subst. rewrite String.eqb_refl; reflexivity.
  - destruct (String.eqb k k') eqn:E.
    + apply String.eqb_eq in E; subst k'. exfalso. apply H1.
      change (In k (keys d)). unfold keys. apply in_map_iff.
      exists (k, v); auto.
    + apply IH; assumption.
Qed.

Lemma unique_from_ext seen seen' l :
  (forall x, mem_string x seen = mem_string x seen') ->
  unique_from seen l = unique_from seen' l.
Proof.
  revert seen seen'. induction l as [|x l IH]; intros seen seen' H; cbn;
    [reflexivity|].
  rewrite <- H. destruct (mem_string x seen); [apply IH; assumption|].
  f_equal. apply IH. intros y; unfold mem_string; cbn [existsb].
  f_equal. apply (H y).
Qed.

Lemma In_unique_from x seen l :
  In x (unique_from seen l) <-> In x l /\ ~ In x seen.
Proof.
  revert seen. induction l as [|y l IH]; intros seen; cbn; [tauto|].
  destruct (mem_string y seen) eqn:E.
  - apply mem_string_In in E. rewrite IH. split.
    + tauto.
    + intros [[->|H] Hn]; tauto.
  - assert (Hy : ~ In y seen)
      by (rewrite <- mem_string_In; congruence).
    cbn. rewrite IH. cbn. split.
    + intros [->|[H Hn]]; [tauto|]. split; [tauto|]. tauto.
    + intros [[->|H] Hn]; [tauto|].
      destruct (string_dec y x) as [->|Hne]; [tauto|]. right. tauto.
Qed.

Lemma NoDup_unique_from seen l : NoDup (unique_from seen l).
Proof.
  revert seen. induction l as [|y l IH]; intros seen; cbn; [constructor|].
  destruct (mem_string y seen); [apply IH|].
  constructor; [|apply IH]. rewrite In_unique_from. cbn. tauto.
Qed.

Lemma In_unique x l : In x (unique l) <-> In x l.
Proof. unfold unique. rewrite In_unique_from. cbn. tauto. Qed.

Section SortFacts.
Context {A K : Type} (key : A -> K) (leb : K -> K -> bool).
Hypothesis leb_total : forall a b, leb a b = true \/ leb b a = true.
Hypothesis leb_trans :
  forall a b c, leb a b = true -> leb b c = true -> leb a c = true.

Local Abbreviation key_le := (key_le key leb).
Local Abbreviation tied := (tied key leb).

Lemma insert_by_perm x l : Permutation (x :: l) (insert_by key leb x l).
Proof.
  induction l as [|y l IH]; cbn; [reflexivity|].
  destruct (leb (key x) (key y)); [reflexivity|].
  rewrite perm_swap. constructor. assumption.
Qed.

Lemma sort_by_perm l : Permutation l (sort_by key leb l).
Proof.
  induction l as [|x l IH]; cbn; [constructor|].
  rewrite <- insert_by_perm. constructor. assumption.
Qed.

Lemma insert_by_sorted x l :
  StronglySorted key_le l -> StronglySorted key_le (insert_by key leb x l).
Proof.
  induction 1 as [|y l Hs IH Hy]; cbn.
  - constructor; constructor.
  - destruct (leb (key x) (key y)) eqn:E.
    + constructor; [constructor; assumption|].
      constructor; [exact E|].
      eapply Forall_impl; [|exact Hy]. intros z Hz.
      unfold key_le in *. eapply leb_trans; eassumption.
    + constructor; [assumption|].
      assert (Hyx : key_le y x)
        by (destruct (leb_total (key x) (key y)); [congruence|assumption]).
      rewrite Forall_forall. intros z Hz.
      apply (Permutation_in _ (Permutation_sym (insert_by_perm x l))) in Hz.
      destruct Hz as [<-|Hz]; [assumption|].
      rewrite Forall_forall in Hy. apply Hy; assumption.
Qed.

Lemma sort_by_sorted l : StronglySorted key_le (sort_by key leb l).
Proof.
  induction l as [|x l IH]; cbn; [constructor|].
  apply insert_by_sorted; assumption.
Qed.

Lemma insert_by_stable c x l :
  filter (tied c) (insert_by key leb x l) = filter (tied c) (x :: l).
Proof.
  induction l as [|y l IH]; [reflexivity|].
  cbn [insert_by]. destruct (leb (key x) (key y)) eqn:E; [reflexivity|].
  cbn [filter] in *. rewrite IH.
  destruct (tied c y) eqn:Ty, (tied c x) eqn:Tx; try reflexivity.
  exfalso. unfold tied in *.
  apply andb_prop in Ty, Tx. destruct Ty as [_ Ty], Tx as [Tx _].
  rewrite (leb_trans _ _ _ Tx Ty) in E. discriminate.
Qed.

Lemma sort_by_stable c l :
  filter (tied c) (sort_by key leb l) = filter (tied c) l.
Proof.
  induction l as [|x l IH]; [reflexivity|].
  cbn [sort_by fold_right]. rewrite insert_by_stable.
  cbn [filter]. fold (sort_by key leb l). rewrite IH. reflexivity.
Qed.

Lemma filter_rev (p : A -> bool) l : filter p (rev l) = rev (filter p l).
Proof.
  induction l as [|x l IH]; [reflexivity|].
  cbn. rewrite filter_app, IH. cbn.
  destruct (p x); cbn; [reflexivity|rewrite app_nil_r; reflexivity].
Qed.

Lemma sort_by_reverse_stable c l :
  filter (tied c) (sort_by_reverse key leb l) = filter (tied c) l.
Proof.
  unfold sort_by_reverse.
  rewrite filter_rev, sort_by_stable, filter_rev, rev_involutive.
  reflexivity.
Qed.

Lemma sort_by_reverse_perm l : Permutation l (sort_by_reverse key leb l).
Proof.
  unfold sort_by_reverse.
  rewrite <- Permutation_rev, <- sort_by_perm, <- Permutation_rev.
  reflexivity.
Qed.

Lemma StronglySorted_snoc (R : A -> A -> Prop) l x :
  StronglySorted R l -> Forall (fun y => R y x) l ->
  StronglySorted R (l ++ [x]).
Proof.
  induction 1 as [|y l Hs IH Hy]; cbn; intros Hx.
  - constructor; constructor.
  - inversion Hx; subst. constructor; [apply IH; assumption|].
    apply Forall_app. split; [assumption|]. constructor; [assumption|constructor].
Qed.

Lemma StronglySorted_rev (R : A -> A -> Prop) l :
  StronglySorted R l -> StronglySorted (fun x y => R y x) (rev l).
Proof.
  induction 1 as [|x l Hs IH Hx]; cbn; [constructor|].
  apply StronglySorted_snoc; [assumption|].
  apply Forall_rev. assumption.
Qed.

Lemma sort_by_reverse_sorted l :
  StronglySorted (fun x y => key_le y x) (sort_by_reverse key leb l).
Proof. unfold sort_by_reverse. apply StronglySorted_rev, sort_by_sorted. Qed.

End SortFacts.

Lemma StronglySorted_weaken {A} (P R : A -> A -> Prop) l :
  (forall a b, P a b -> R a b) -> StronglySorted P l -> StronglySorted R l.
Proof.
  intros HPR. induction 1 as [|x l Hs IH Hx]; constructor; [assumption|].
  eapply Forall_impl; [|exact Hx]. intros; apply HPR; assumption.
Qed.

(** ** The metrics collector of [src/collectors/cloudwatch_metrics.py] *)

Section CloudWatchFacts.
Import CloudWatch.
Variable cw_client : nat -> Params -> result MetricResponse.
Variable clock : nat -> Z.

Lemma Zleb_total a b : (a <=? b)%Z = true \/ (b <=? a)%Z = true.
Proof. rewrite !Z.leb_le. lia. Qed.

Lemma Zleb_trans a b c :
  (a <=? b)%Z = true -> (b <=? c)%Z = true -> (a <=? c)%Z = true.
Proof. rewrite !Z.leb_le. lia. Qed.

(** C5: the datapoints [get_metric_statistics] returns are those of the
    client's answer, in ascending order of timestamp: each timestamp is
    at most the next one's. *)
Theorem get_metric_statistics_sorted ns mn dims st et per stats u t dps t' :
  get_metric_statistics cw_client ns mn dims st et per stats u t
  = (Ok dps, t') ->
  Sorted (fun a b => (Timestamp a <= Timestamp b)%Z) dps
  /\ exists params response,
       cw_client t params = Ok response
       /\ Permutation
            (match Datapoints response with Some l => l | None => [] end)
            dps.
Proof.
  unfold get_metric_statistics, try_except, bind, client_get_metric_statistics,
    ask, ret, raise.
  match goal with |- context [cw_client t ?p] => set (params := p) end.
  destruct (cw_client t params) as [response|e] eqn:Hc; [|discriminate].
  intros H; inversion H; subst; clear H. split.
  - apply StronglySorted_Sorted.
    eapply StronglySorted_weaken;
      [|apply (sort_by_sorted Timestamp Z.leb Zleb_total Zleb_trans)].
    unfold key_le. intros a b; apply Z.leb_le.
  - exists params, response; split; [exact Hc|]. apply sort_by_perm.
Qed.

Lemma collect_batch_metrics_run
    (collect : string -> string -> Z -> M DataFrame) resources days acc t :
  for_in resources
    (fun resource all_data =>
       try_except
         (df <- collect (type resource) (id resource) days ;;
          ret (all_data ++ [df]))
         (fun e => ret all_data))
    acc t
  = (Ok (acc ++ fst (succeeded collect resources days t)),
     snd (succeeded collect resources days t)).
Proof.
  revert acc t. induction resources as [|r rs IH]; intros acc t; cbn.
  - unfold ret; rewrite app_nil_r; reflexivity.
  - unfold bind at 1, try_except, bind, ret.
    destruct (collect (type r) (id r) days t) as [[df|e] t1]; rewrite IH.
    + destruct (succeeded collect rs days t1) as [dfs t2]; cbn.
      rewrite <- app_assoc; reflexivity.
    + reflexivity.
Qed.

Lemma collect_batch_metrics_eq
    (collect : string -> string -> Z -> M DataFrame) resources days t :
  collect_batch_metrics collect resources days t
  = (Ok (List.concat (fst (succeeded collect resources days t))),
     snd (succeeded collect resources days t)).
Proof.
  unfold collect_batch_metrics.
  rewrite (bind_ok _ _ _ _ _ (collect_batch_metrics_run collect resources days [] t)).
  cbn [app]. destruct (fst (succeeded collect resources days t)); reflexivity.
Qed.

(** C3: whatever the per-resource collection does, [collect_batch_metrics]
    returns a table and never raises; the table holds, in order, the rows
    of exactly the resources whose collection returned; with three
    resources of which the second raises it holds the rows of the first
    and the third; when every collection raises it is the empty table. *)
Theorem collect_batch_metrics_skips_failures
    (collect : string -> string -> Z -> M DataFrame) resources days t :
  collect_batch_metrics collect resources days t
  = (Ok (List.concat (fst (succeeded collect resources days t))),
     snd (succeeded collect resources days t))
  /\ (forall r1 r2 r3 d1 e d3 t1 t2 t3,
        collect (type r1) (id r1) days t = (Ok d1, t1) ->
        collect (type r2) (id r2) days t1 = (Raise e, t2) ->
        collect (type r3) (id r3) days t2 = (Ok d3, t3) ->
        collect_batch_metrics collect [r1; r2; r3] days t
        = (Ok (d1 ++ d3), t3))
  /\ ((forall r u, In r resources ->
         exists e u', collect (type r) (id r) days u = (Raise e, u')) ->
      exists t', collect_batch_metrics collect resources days t = (Ok [], t')).
Proof.
  split; [apply collect_batch_metrics_eq|]. split.
  - intros r1 r2 r3 d1 e d3 t1 t2 t3 H1 H2 H3.
    rewrite collect_batch_metrics_eq. cbn. rewrite H1, H2, H3. cbn.
    rewrite app_nil_r. reflexivity.
  - intros Hfail. rewrite collect_batch_metrics_eq.
    assert (H : fst (succeeded collect resources days t) = []).
    { revert t. induction resources as [|r rs IH]; intros t; cbn; [reflexivity|].
      destruct (Hfail r t (or_introl eq_refl)) as (e & u' & ->).
      apply IH. intros; apply Hfail; right; assumption. }
    rewrite H. eexists; reflexivity.
Qed.

Lemma succeeded_unsupported pre r post days t :
  dict_get (type r) METRICS_CONFIG = None ->
  succeeded (collect_resource_metrics cw_client clock) (pre ++ r :: post) days t
  = succeeded (collect_resource_metrics cw_client clock) (pre ++ post) days t.
Proof.
  intros Hr. revert t. induction pre as [|p pre IH]; intros t.
  - cbn [app succeeded]. unfold collect_resource_metrics at 1.
    rewrite Hr. reflexivity.
  - cbn [app succeeded].
    destruct (collect_resource_metrics cw_client clock (type p) (id p) days t)
      as [[df|e] t1]; rewrite IH; reflexivity.
Qed.

(** C9: a resource of an unsupported type makes [collect_resource_metrics]
    raise a [ValueError], and [collect_batch_metrics] swallows it: the batch
    returns what it returns without that resource, so on that resource
    alone it returns the empty table. *)
Theorem collect_batch_metrics_hides_unsupported_type r days t :
  dict_get (type r) METRICS_CONFIG = None ->
  collect_resource_metrics cw_client clock (type r) (id r) days t
  = (Raise (ValueError ("Unsupported resource type: " ++ type r)), t)
  /\ (forall pre post,
        CloudWatchCollector_collect_batch_metrics cw_client clock
          (pre ++ r :: post) days t
        = CloudWatchCollector_collect_batch_metrics cw_client clock
            (pre ++ post) days t)
  /\ CloudWatchCollector_collect_batch_metrics cw_client clock [r] days t
     = (Ok [], t).
Proof.
  intros Hr. split; [|split].
  - unfold collect_resource_metrics. rewrite Hr. reflexivity.
  - intros pre post. unfold CloudWatchCollector_collect_batch_metrics.
    rewrite !collect_batch_metrics_eq, succeeded_unsupported by assumption.
    reflexivity.
  - unfold CloudWatchCollector_collect_batch_metrics.
    rewrite collect_batch_metrics_eq. cbn [succeeded].
    unfold collect_resource_metrics at 1 2. rewrite Hr. reflexivity.
Qed.

End CloudWatchFacts.

Lemma get_metric_statistics_sorted_witness :
  exists dps t',
    CloudWatch.get_metric_statistics Examples.cw_unsorted "AWS/EC2"
      "CPUUtilization" [] 0 10 3600 None None 0%nat = (Ok dps, t')
    /\ Sorted (fun a b =>
                 (CloudWatch.Timestamp a <= CloudWatch.Timestamp b)%Z) dps.
Proof.
  assert (Hrun : exists dps t',
             CloudWatch.get_metric_statistics Examples.cw_unsorted "AWS/EC2"
               "CPUUtilization" [] 0 10 3600 None None 0%nat = (Ok dps, t'))
    by (eexists; eexists; vm_compute; reflexivity).
  destruct Hrun as (dps & t' & Hrun).
  exists dps, t'; split; [exact Hrun|].
  exact (proj1 (get_metric_statistics_sorted Examples.cw_unsorted _ _ _ _ _ _
                  _ _ _ _ _ Hrun)).
Defined.

Lemma collect_batch_metrics_hides_unsupported_type_witness :
  dict_get (CloudWatch.type Examples.bucket) CloudWatch.METRICS_CONFIG = None
  /\ CloudWatch.CloudWatchCollector_collect_batch_metrics Examples.cw_unsorted
       Examples.clock_s [Examples.bucket] 15 0%nat = (Ok [], 0%nat).
Proof.
  split; [reflexivity|].
  exact (proj2 (proj2 (collect_batch_metrics_hides_unsupported_type
                         Examples.cw_unsorted Examples.clock_s Examples.bucket
                         15 0%nat eq_refl))).
Defined.

Lemma collect_batch_metrics_skips_failures_witness :
  exists d1 d3 t3,
    CloudWatch.CloudWatchCollector_collect_batch_metrics Examples.cw_unsorted
      Examples.clock_s [Examples.ec2 "i-1"; Examples.bucket; Examples.ec2 "i-3"]
      15 0%nat = (Ok (d1 ++ d3), t3)
    /\ List.length d1 = 15%nat /\ List.length d3 = 15%nat.
Proof.
  assert (H1 : exists d1 t1,
             CloudWatch.collect_resource_metrics Examples.cw_unsorted
               Examples.clock_s "EC2" "i-1" 15 0%nat = (Ok d1, t1)
             /\ List.length d1 = 15%nat)
    by (eexists; eexists; split; vm_compute; reflexivity).
  destruct H1 as (d1 & t1 & H1 & L1).
  assert (H3 : exists d3 t3,
             CloudWatch.collect_resource_metrics Examples.cw_unsorted
               Examples.clock_s "EC2" "i-3" 15 t1 = (Ok d3, t3)
             /\ List.length d3 = 15%nat).
  { vm_compute in H1. inversion H1; subst.
    eexists; eexists; split; vm_compute; reflexivity. }
  destruct H3 as (d3 & t3 & H3 & L3).
  exists d1, d3, t3. split; [|split; assumption].
  exact (proj1 (proj2 (collect_batch_metrics_skips_failures
                         (CloudWatch.collect_resource_metrics
                            Examples.cw_unsorted Examples.clock_s)
                         [] 15 0%nat))
           (Examples.ec2 "i-1") Examples.bucket (Examples.ec2 "i-3")
           d1 (ValueError "Unsupported resource type: S3") d3 t1 t1 t3
           H1 eq_refl H3).
Defined.

(** ** The inventory collector of [src/collectors/resource_inventory.py] *)

Section InventoryFacts.
Import Inventory.
Variable ResourceRecord : Type.
Variables scan_ec2_instances scan_rds_instances scan_lambda_functions
  : M (list ResourceRecord).

(** C8: when one of the three scans raises, [collect_full_inventory] raises
    the same exception, the later scans are not run, and no inventory is
    returned. *)
Theorem collect_full_inventory_propagates t e t' :
  raises_in_turn ResourceRecord scan_ec2_instances scan_rds_instances
    scan_lambda_functions t e t' ->
  collect_full_inventory ResourceRecord scan_ec2_instances scan_rds_instances
    scan_lambda_functions t = (Raise e, t')
  /\ forall inventory u,
       collect_full_inventory ResourceRecord scan_ec2_instances
         scan_rds_instances scan_lambda_functions t <> (Ok inventory, u).
Proof.
  intros H.
  assert (Hrun : collect_full_inventory ResourceRecord scan_ec2_instances
                   scan_rds_instances scan_lambda_functions t = (Raise e, t')).
  { unfold collect_full_inventory, bind.
    destruct H as [H | [(a & t1 & Ha & H) | (a & t1 & b & t2 & Ha & Hb & H)]].
    - rewrite H; reflexivity.
    - rewrite Ha, H; reflexivity.
    - rewrite Ha, Hb, H; reflexivity. }
  split; [exact Hrun|]. intros inventory u; rewrite Hrun; discriminate.
Qed.

End InventoryFacts.

Lemma collect_full_inventory_propagates_witness :
  Inventory.collect_full_inventory string (Examples.scan_ok ["i-1"])
    Examples.scan_denied (Examples.scan_ok ["fn"]) 0%nat
  = (Raise (ClientError "AccessDenied"), 2%nat).
Proof.
  refine (proj1 (collect_full_inventory_propagates string
                   (Examples.scan_ok ["i-1"]) Examples.scan_denied
                   (Examples.scan_ok ["fn"]) 0%nat
                   (ClientError "AccessDenied") 2%nat _)).
  right; left. exists ["i-1"], 1%nat. split; reflexivity.
Defined.

(** ** The cost collector of [src/data_collection/cost_explorer/collector.py] *)

Lemma for_in_app {A S} (body : A -> S -> M S) xs ys s t :
  for_in (xs ++ ys) body s t = bind (for_in xs body s) (for_in ys body) t.
Proof.
  revert s t. induction xs as [|x xs IH]; intros s t; cbn; [reflexivity|].
  unfold bind. destruct (body x s t) as [[s1|e] t1]; [|reflexivity].
  rewrite IH. reflexivity.
Qed.

Section CostCollectorFacts.
Import CostExplorer CostCollector.
Variable float_ : string -> option Q.

Lemma each_group_flat {S} response (body : Group -> S -> M S) s t :
  each_group response body s t = for_in (groups_of response) body s t.
Proof.
  unfold each_group, groups_of. revert s t.
  induction (get_or_empty (ResultsByTime response)) as [|r rs IH];
    intros s t; cbn; [reflexivity|].
  rewrite for_in_app. unfold bind.
  destruct (for_in (get_or_empty (Groups r)) body s t) as [[s1|e] t1];
    [apply IH|reflexivity].
Qed.

Lemma get_add_cost_same k c d :
  dict_get k (add_cost k c d)
  = Some (match dict_get k d with Some v => v | None => 0 end + c)%Q.
Proof.
  unfold add_cost, dict_mem. destruct (dict_get k d) as [v|] eqn:E.
  - rewrite E. apply dict_get_set_same.
  - rewrite dict_get_set_same. apply dict_get_set_same.
Qed.

Lemma get_add_cost_other k k' c d :
  String.eqb k k' = false -> dict_get k (add_cost k' c d) = dict_get k d.
Proof.
  intros Hk. unfold add_cost, dict_mem. destruct (dict_get k' d) as [v|] eqn:E.
  - rewrite E. apply dict_get_set_other; assumption.
  - rewrite dict_get_set_same. rewrite !dict_get_set_other by assumption.
    reflexivity.
Qed.

Lemma keys_add_cost k c d :
  keys (add_cost k c d)
  = if mem_string k (keys d) then keys d else keys d ++ [k].
Proof.
  rewrite <- mem_string_keys. unfold add_cost.
  destruct (dict_mem k d) eqn:E.
  - unfold dict_mem in E. destruct (dict_get k d) as [v|] eqn:G; [|discriminate].
    rewrite keys_dict_set. unfold dict_mem. rewrite G. reflexivity.
  - rewrite dict_get_set_same, keys_dict_set.
    unfold dict_mem at 1. rewrite dict_get_set_same.
    rewrite keys_dict_set, E. reflexivity.
Qed.

Lemma keys_add_all pairs d :
  keys (add_all pairs d) = keys d ++ unique_from (keys d) (map fst pairs).
Proof.
  revert d. induction pairs as [|[k c] pairs IH]; intros d.
  - cbn. rewrite app_nil_r; reflexivity.
  - change (add_all ((k, c) :: pairs) d) with (add_all pairs (add_cost k c d)).
    rewrite IH, keys_add_cost. cbn [map fst unique_from].
    destruct (mem_string k (keys d)) eqn:E; [reflexivity|].
    rewrite <- app_assoc; cbn. do 2 f_equal.
    apply unique_from_ext. intros x. unfold mem_string.
    rewrite existsb_app; cbn. rewrite orb_false_r, orb_comm. reflexivity.
Qed.

Lemma get_add_all k pairs d :
  dict_get k (add_all pairs d)
  = match dict_get k d with
    | Some v => Some (fold_left Qplus (costs_of k pairs) v)
    | None =>
        if mem_string k (map fst pairs) then Some (total_of k pairs) else None
    end.
Proof.
  revert d. induction pairs as [|[k' c] pairs IH]; intros d.
  - cbn. destruct (dict_get k d); reflexivity.
  - change (add_all ((k', c) :: pairs) d)
      with (add_all pairs (add_cost k' c d)).
    rewrite IH.
    unfold total_of, costs_of, mem_string; cbn [filter map fst snd existsb].
    destruct (String.eqb k k') eqn:E.
    + apply String.eqb_eq in E; subst k'. rewrite get_add_cost_same.
      cbn [map snd fold_left orb].
      destruct (dict_get k d); reflexivity.
    + rewrite get_add_cost_other by assumption. cbn [orb]. reflexivity.
Qed.

Lemma unblended_cost_some g q t :
  group_cost float_ g = Some q -> unblended_cost float_ g t = (Ok q, t).
Proof.
  unfold group_cost, unblended_cost, dict_item, float, bind, ret.
  destruct (dict_get "UnblendedCost" (Metrics g)); [|discriminate].
  cbn. intros ->. reflexivity.
Qed.

Lemma folded_tag_value g :
  orb (String.eqb (first_key_or "untagged" g) "untagged")
      (String.eqb (first_key_or "untagged" g) "")
  = folded g.
Proof.
  unfold folded, empty_or_missing, literally_untagged, first_key_or.
  destruct (Keys g) as [|k ks]; [reflexivity|apply orb_comm].
Qed.

Lemma parse_tagged_costs_run gs tc t :
  Forall (fun g => group_cost float_ g <> None) gs ->
  for_in gs
    (fun group tagged_costs =>
       let tag_value :=
         match Keys group with k :: _ => k | [] => "untagged" end in
       c <- unblended_cost float_ group ;;
       if orb (String.eqb tag_value "untagged") (String.eqb tag_value "")
       then ret {| tag_key := tag_key tagged_costs;
                   by_tag_value := by_tag_value tagged_costs;
                   untagged_cost := (untagged_cost tagged_costs + c)%Q |}
       else ret {| tag_key := tag_key tagged_costs;
                   by_tag_value :=
                     add_cost tag_value c (by_tag_value tagged_costs);
                   untagged_cost := untagged_cost tagged_costs |})
    tc t
  = (Ok {| tag_key := tag_key tc;
           by_tag_value := add_all (tagged_pairs float_ gs) (by_tag_value tc);
           untagged_cost :=
             fold_left Qplus
               (map (cost_or_zero float_) (filter folded gs))
               (untagged_cost tc) |}, t).
Proof.
  intros Hok. revert tc. induction Hok as [|g gs Hg _ IH]; intros tc.
  - destruct tc; reflexivity.
  - cbn [for_in]. destruct (group_cost float_ g) as [q|] eqn:Hq; [|congruence].
    unfold bind at 1. unfold bind at 1.
    rewrite (unblended_cost_some g q t Hq).
    change (match Keys g with k :: _ => k | [] => "untagged" end)
      with (first_key_or "untagged" g).
    rewrite folded_tag_value.
    unfold tagged_pairs; cbn [filter].
    assert (Hc : cost_or_zero float_ g = q)
      by (unfold cost_or_zero; rewrite Hq; reflexivity).
    destruct (folded g) eqn:Hf; unfold ret; rewrite IH; cbn [negb map fold_left
      tag_key by_tag_value untagged_cost];
      rewrite Hc; reflexivity.
Qed.

(** C6: on a response whose groups all carry a convertible UnblendedCost,
    [_parse_tagged_costs] returns; the untagged cost is the running sum,
    from zero, of the costs of the folded groups, among them every group
    whose key is empty or missing; the mapping has one key per tag value
    of the other groups and never the empty string; a response of one
    group with the empty key gives that group's cost (5 for a cost of 5) as
    untagged cost and an empty mapping. *)
Theorem parse_tagged_costs_folds_empty response tag t :
  Forall (fun g => group_cost float_ g <> None) (groups_of response) ->
  exists r,
    _parse_tagged_costs float_ response tag t = (Ok r, t)
    /\ untagged_cost r
       = fold_left Qplus
           (map (cost_or_zero float_) (filter folded (groups_of response)))
           0%Q
    /\ (forall g, empty_or_missing g = true -> folded g = true)
    /\ keys (by_tag_value r)
       = unique (map fst (tagged_pairs float_ (groups_of response)))
    /\ dict_get "" (by_tag_value r) = None
    /\ (forall g q,
          groups_of response = [g] -> Keys g = [""] ->
          group_cost float_ g = Some q ->
          (untagged_cost r == q)%Q /\ by_tag_value r = []).
Proof.
  intros Hok. eexists. split.
  { unfold _parse_tagged_costs. rewrite each_group_flat.
    apply parse_tagged_costs_run; assumption. }
  cbn [untagged_cost by_tag_value]. split; [reflexivity|]. split.
  { intros g Hg. unfold folded. rewrite Hg. reflexivity. }
  split; [apply keys_add_all|]. split.
  - rewrite get_add_all. cbn [dict_get].
    destruct (mem_string "" (map fst (tagged_pairs float_ (groups_of response))))
      eqn:E; [|reflexivity].
    exfalso. apply mem_string_In in E. unfold tagged_pairs in E.
    rewrite map_map in E. apply in_map_iff in E. destruct E as (g & Hg & Hin).
    apply filter_In in Hin. destruct Hin as [_ Hf]. cbn in Hg.
    unfold folded, empty_or_missing, first_key_or in *.
    destruct (Keys g) as [|k ks]; [discriminate|]. subst k. discriminate.
  - intros g q Hgs Hk Hq. rewrite Hgs. unfold tagged_pairs, folded,
      empty_or_missing, cost_or_zero. cbn [filter]. rewrite Hk. cbn.
    rewrite Hq. split; [apply Qplus_0_l|reflexivity].
Qed.

Lemma parse_body_invariant k g (s s' : TaggedCosts) t t' :
  k = "untagged" \/ k = "" ->
  (let tag_value := match Keys g with k :: _ => k | [] => "untagged" end in
   c <- unblended_cost float_ g ;;
   if orb (String.eqb tag_value "untagged") (String.eqb tag_value "")
   then ret {| tag_key := tag_key s;
               by_tag_value := by_tag_value s;
               untagged_cost := (untagged_cost s + c)%Q |}
   else ret {| tag_key := tag_key s;
               by_tag_value := add_cost tag_value c (by_tag_value s);
               untagged_cost := untagged_cost s |}) t = (Ok s', t') ->
  dict_get k (by_tag_value s) = None -> dict_get k (by_tag_value s') = None.
Proof.
  intros Hk. cbn zeta. unfold bind.
  destruct (unblended_cost float_ g t) as [[c|e] t1]; [|discriminate].
  destruct (String.eqb _ "untagged") eqn:E1; cbn [orb].
  - unfold ret; intros H; inversion H; subst; cbn; auto.
  - destruct (String.eqb _ "") eqn:E2; unfold ret; intros H; inversion H;
      subst; cbn; auto.
    intros Hs. rewrite get_add_cost_other; [assumption|].
    rewrite String.eqb_sym. destruct Hk; subst k; assumption.
Qed.

Lemma unblended_cost_returned g c t t1 :
  unblended_cost float_ g t = (Ok c, t1) ->
  group_cost float_ g = Some c /\ t1 = t.
Proof.
  unfold group_cost, unblended_cost, dict_item, float, bind, ret, raise.
  destruct (dict_get "UnblendedCost" (Metrics g)) as [m|]; [|discriminate].
  destruct (float_ (Amount m)); [|discriminate].
  intros H; inversion H; auto.
Qed.

Lemma parse_returned_costed gs (tc r : TaggedCosts) t t' :
  for_in gs
    (fun group tagged_costs =>
       let tag_value :=
         match Keys group with k :: _ => k | [] => "untagged" end in
       c <- unblended_cost float_ group ;;
       if orb (String.eqb tag_value "untagged") (String.eqb tag_value "")
       then ret {| tag_key := tag_key tagged_costs;
                   by_tag_value := by_tag_value tagged_costs;
                   untagged_cost := (untagged_cost tagged_costs + c)%Q |}
       else ret {| tag_key := tag_key tagged_costs;
                   by_tag_value :=
                     add_cost tag_value c (by_tag_value tagged_costs);
                   untagged_cost := untagged_cost tagged_costs |})
    tc t = (Ok r, t') ->
  Forall (fun g => group_cost float_ g <> None) gs.
Proof.
  revert tc t. induction gs as [|g gs IH]; intros tc t; [constructor|].
  cbn [for_in]. unfold bind at 1. cbv zeta. unfold bind at 1.
  destruct (unblended_cost float_ g t) as [[c|e] t1] eqn:Hc; [|discriminate].
  destruct (unblended_cost_returned g c t t1 Hc) as [Hg _].
  intros Hrun. constructor; [congruence|].
  destruct (orb _ _); unfold ret in Hrun; eapply IH; exact Hrun.
Qed.

(** C10: whenever [_parse_tagged_costs] returns, every group carried a
    cost; the untagged cost is the running sum, from zero, of the costs of
    the groups whose key is empty or missing or is the literal string
    ["untagged"], so the cost of a group tagged ["untagged"] goes into the
    untagged total; the mapping holds the other groups only and never has
    the key ["untagged"]; a response gives the same result when every
    group tagged ["untagged"] has its key removed; and a response of one
    group tagged ["untagged"] gives that group's cost as untagged cost and
    an empty mapping. *)
Theorem parse_tagged_costs_folds_untagged_literal response tag t r t' :
  _parse_tagged_costs float_ response tag t = (Ok r, t') ->
  dict_get "untagged" (by_tag_value r) = None
  /\ _parse_tagged_costs float_
       (map_groups
          (fun g => if literally_untagged g then without_keys g else g)
          response) tag t
     = (Ok r, t')
  /\ Forall (fun g => group_cost float_ g <> None) (groups_of response)
  /\ untagged_cost r
     = fold_left Qplus
         (map (cost_or_zero float_)
              (filter (fun g => orb (empty_or_missing g)
                                    (literally_untagged g))
                      (groups_of response)))
         0%Q
  /\ by_tag_value r
     = add_all
         (map (fun g => (first_key_or "untagged" g, cost_or_zero float_ g))
              (filter (fun g => negb (orb (empty_or_missing g)
                                          (literally_untagged g)))
                      (groups_of response)))
         []
  /\ (forall g q,
        groups_of response = [g] -> Keys g = ["untagged"] ->
        group_cost float_ g = Some q ->
        (untagged_cost r == q)%Q /\ by_tag_value r = []).
Proof.
  intros Hrun.
  assert (Hcosted : Forall (fun g => group_cost float_ g <> None)
                      (groups_of response)).
  { unfold _parse_tagged_costs in Hrun. rewrite each_group_flat in Hrun.
    eapply parse_returned_costed. exact Hrun. }
  assert (Hform : (Ok r, t')
                  = (Ok {| tag_key := tag;
                           by_tag_value :=
                             add_all (tagged_pairs float_ (groups_of response))
                                     [];
                           untagged_cost :=
                             fold_left Qplus
                               (map (cost_or_zero float_)
                                    (filter folded (groups_of response)))
                               0%Q |}, t)).
  { rewrite <- Hrun. unfold _parse_tagged_costs. rewrite each_group_flat.
    apply (parse_tagged_costs_run (groups_of response)
             {| tag_key := tag; by_tag_value := []; untagged_cost := 0 |}
             t Hcosted). }
  split.
  { unfold _parse_tagged_costs in Hrun. rewrite each_group_flat in Hrun.
    eapply (for_in_invariant
              (fun s => dict_get "untagged" (by_tag_value s) = None));
      [|exact Hrun|reflexivity].
    intros g s u s' u'. apply parse_body_invariant. left; reflexivity. }
  split.
  { rewrite <- Hrun. unfold _parse_tagged_costs, each_group, map_groups; cbn.
    destruct (ResultsByTime response) as [rs|]; cbn; [|reflexivity].
    rewrite for_in_map. apply for_in_ext. intros tp s u _. cbn.
    destruct (Groups tp) as [gs|]; cbn; [|reflexivity].
    rewrite for_in_map. apply for_in_ext. intros g a v _.
    unfold literally_untagged, without_keys, unblended_cost.
    destruct g as [[|k ks] ms]; cbn [Keys Metrics]; [reflexivity|].
    destruct (String.eqb k "untagged") eqn:E; cbn [Keys Metrics];
      [|rewrite E; reflexivity].
    apply String.eqb_eq in E; subst k. reflexivity. }
  split; [exact Hcosted|].
  inversion Hform; subst r t'. cbn [untagged_cost by_tag_value].
  split; [reflexivity|]. split; [reflexivity|].
  intros g q Hgs Hk Hq. rewrite Hgs.
  unfold tagged_pairs, folded, empty_or_missing, literally_untagged,
    cost_or_zero.
  cbn [filter]. rewrite Hk. cbn. rewrite Hq.
  split; [apply Qplus_0_l|reflexivity].
Qed.

End CostCollectorFacts.

Lemma parse_tagged_costs_folds_empty_witness :
  Forall (fun g => CostCollector.group_cost float_decimal g <> None)
         (CostCollector.groups_of
            (Examples.one_period [Examples.unblended [""] "5.0"]))
  /\ exists r,
       CostCollector._parse_tagged_costs float_decimal
         (Examples.one_period [Examples.unblended [""] "5.0"])
         "Environment" 0%nat = (Ok r, 0%nat)
       /\ (CostCollector.untagged_cost r == 5)%Q
       /\ CostCollector.by_tag_value r = [].
Proof.
  assert (H : Forall (fun g => CostCollector.group_cost float_decimal g <> None)
                (CostCollector.groups_of
                   (Examples.one_period [Examples.unblended [""] "5.0"])))
    by (repeat constructor; discriminate).
  split; [exact H|].
  destruct (parse_tagged_costs_folds_empty float_decimal
              (Examples.one_period [Examples.unblended [""] "5.0"])
              "Environment" 0%nat H) as (r & Hrun & _ & _ & _ & _ & Hex).
  exists r. split; [exact Hrun|].
  destruct (Hex (Examples.unblended [""] "5.0") (50 # 10) eq_refl eq_refl
              eq_refl) as [Hu Hb].
  split; [|exact Hb]. rewrite Hu. reflexivity.
Defined.

Lemma parse_tagged_costs_folds_untagged_literal_witness :
  exists r,
    CostCollector._parse_tagged_costs float_decimal
      (Examples.one_period
         [Examples.unblended ["untagged"] "7"; Examples.unblended ["prod"] "3";
          Examples.unblended [] "2"])
      "Environment" 0%nat = (Ok r, 0%nat)
    /\ dict_get "untagged" (CostCollector.by_tag_value r) = None
    /\ (CostCollector.untagged_cost r == 9)%Q
    /\ CostCollector.keys_of_costs r = ["prod"].
Proof.
  assert (Hrun : exists r,
             CostCollector._parse_tagged_costs float_decimal
               (Examples.one_period
                  [Examples.unblended ["untagged"] "7";
                   Examples.unblended ["prod"] "3";
                   Examples.unblended [] "2"])
               "Environment" 0%nat = (Ok r, 0%nat))
    by (eexists; vm_compute; reflexivity).
  destruct Hrun as (r & Hrun). exists r. split; [exact Hrun|].
  destruct (parse_tagged_costs_folds_untagged_literal float_decimal _ _ _
              _ _ Hrun) as (Hno & _ & _ & Hsum & Hmap & _).
  split; [exact Hno|]. split.
  - rewrite Hsum. vm_compute. reflexivity.
  - unfold CostCollector.keys_of_costs. rewrite Hmap. vm_compute. reflexivity.
Defined.

Lemma Qle_bool_total a b : Qle_bool a b = true \/ Qle_bool b a = true.
Proof.
  rewrite !Qle_bool_iff. destruct (Qlt_le_dec a b) as [H|H];
    [left; apply Qlt_le_weak; assumption | right; assumption].
Qed.

Lemma Qle_bool_trans a b c :
  Qle_bool a b = true -> Qle_bool b c = true -> Qle_bool a c = true.
Proof. rewrite !Qle_bool_iff. apply Qle_trans. Qed.

Section AggregateFacts.
Import CostExplorer CostCollector.
Variable float_ : string -> option Q.

Lemma aggregate_run gs d t :
  Forall (fun g => Keys g <> [] /\ group_cost float_ g <> None) gs ->
  for_in gs
    (fun group service_costs =>
       service_name <- first_key group ;;
       c <- unblended_cost float_ group ;;
       ret (add_cost service_name c service_costs))
    d t
  = (Ok (add_all (service_pairs float_ gs) d), t).
Proof.
  intros Hok. revert d. induction Hok as [|g gs [Hk Hg] _ IH]; intros d.
  - reflexivity.
  - cbn [for_in]. destruct (group_cost float_ g) as [q|] eqn:Hq; [|congruence].
    unfold bind at 1. unfold bind at 1. unfold first_key at 1.
    destruct (Keys g) as [|k ks] eqn:Ek; [congruence|]. unfold ret at 1.
    unfold bind at 1. rewrite (unblended_cost_some float_ g q t Hq).
    unfold ret at 1. rewrite IH. unfold service_pairs; cbn [map].
    unfold first_key_or, cost_or_zero. rewrite Ek, Hq. reflexivity.
Qed.

(** C7: on a response whose groups all have a key and a convertible
    UnblendedCost, [_aggregate_service_costs] returns the entries
    [items] sorted: [items] has one entry per distinct service, in order
    of first appearance, each with the running sum of that service's
    amounts over all time periods; the result is a rearrangement of
    [items], descending in cost, in which entries of equal cost keep the
    order they have in [items]; totals of 10, 30 and 20 for three services
    give the second, the third, then the first. *)
Theorem aggregate_service_costs_sorted response t :
  Forall (fun g => Keys g <> [] /\ group_cost float_ g <> None)
         (groups_of response) ->
  exists sorted items,
    _aggregate_service_costs float_ response t = (Ok sorted, t)
    /\ map service items
       = unique (map fst (service_pairs float_ (groups_of response)))
    /\ Forall (fun e =>
                 cost e
                 = total_of (service e)
                     (service_pairs float_ (groups_of response))) items
    /\ Permutation items sorted
    /\ StronglySorted (fun a b => (cost b <= cost a)%Q) sorted
    /\ (forall c,
          filter (tied cost Qle_bool c) sorted
          = filter (tied cost Qle_bool c) items)
    /\ (forall a b c,
          items = [a; b; c] ->
          (cost a == 10)%Q -> (cost b == 30)%Q -> (cost c == 20)%Q ->
          sorted = [b; c; a]).
Proof.
  intros Hok.
  set (pairs := service_pairs float_ (groups_of response)).
  set (items := map (fun kv => {| service := fst kv; cost := snd kv |})
                    (add_all pairs [])).
  exists (sort_by_reverse cost Qle_bool items), items.
  split.
  { unfold _aggregate_service_costs.
    erewrite bind_ok; [reflexivity|].
    rewrite each_group_flat. apply aggregate_run; assumption. }
  assert (Hkeys : keys (add_all pairs []) = unique (map fst pairs))
    by apply keys_add_all.
  split.
  { unfold items. rewrite map_map. cbn. exact Hkeys. }
  split.
  { unfold items. rewrite Forall_map, Forall_forall. intros [k v] Hin. cbn.
    assert (Hget : dict_get k (add_all pairs []) = Some v).
    { apply dict_get_NoDup; [|assumption].
      rewrite Hkeys. apply NoDup_unique_from. }
    rewrite get_add_all in Hget. cbn [dict_get] in Hget.
    destruct (mem_string k (map fst pairs)); congruence. }
  split; [apply sort_by_reverse_perm|].
  split.
  { eapply StronglySorted_weaken;
      [|apply (sort_by_reverse_sorted cost Qle_bool Qle_bool_total
                 Qle_bool_trans)].
    unfold key_le. intros a b. apply Qle_bool_iff. }
  split.
  { intros c. apply sort_by_reverse_stable. apply Qle_bool_trans. }
  intros a b c -> Ha Hb Hc.
  assert (Hba : Qle_bool (cost b) (cost a) = false).
  { apply not_true_is_false. rewrite Qle_bool_iff, Ha, Hb.
    apply Qlt_not_le. reflexivity. }
  assert (Hca : Qle_bool (cost c) (cost a) = false).
  { apply not_true_is_false. rewrite Qle_bool_iff, Ha, Hc.
    apply Qlt_not_le. reflexivity. }
  assert (Hcb : Qle_bool (cost c) (cost b) = true).
  { rewrite Qle_bool_iff, Hb, Hc. apply Qlt_le_weak. reflexivity. }
  unfold sort_by_reverse, sort_by. cbn. rewrite Hba. cbn.
  rewrite Hca, Hcb. reflexivity.
Qed.

End AggregateFacts.

Lemma aggregate_service_costs_sorted_witness :
  Forall (fun g => CostExplorer.Keys g <> []
                   /\ CostCollector.group_cost float_decimal g <> None)
         (CostCollector.groups_of
            (Examples.one_period
               [Examples.unblended ["A"] "10"; Examples.unblended ["B"] "30";
                Examples.unblended ["C"] "20"]))
  /\ exists sorted,
       CostCollector._aggregate_service_costs float_decimal
         (Examples.one_period
            [Examples.unblended ["A"] "10"; Examples.unblended ["B"] "30";
             Examples.unblended ["C"] "20"]) 0%nat = (Ok sorted, 0%nat)
       /\ map CostCollector.service sorted = ["B"; "C"; "A"].
Proof.
  assert (H : Forall (fun g => CostExplorer.Keys g <> []
                               /\ CostCollector.group_cost float_decimal g
                                  <> None)
                (CostCollector.groups_of
                   (Examples.one_period
                      [Examples.unblended ["A"] "10";
                       Examples.unblended ["B"] "30";
                       Examples.unblended ["C"] "20"])))
    by (repeat constructor; discriminate).
  split; [exact H|].
  destruct (aggregate_service_costs_sorted float_decimal _ 0%nat H)
    as (sorted & items & Hrun & _).
  exists sorted. split; [exact Hrun|].
  vm_compute in Hrun. inversion Hrun. reflexivity.
Defined.

(** ** Summary statistics *)

Lemma get_fold_dict_set {V} (f : string -> V) k xs d0 :
  dict_get k (fold_left (fun d x => dict_set x (f x) d) xs d0)
  = if mem_string k xs then Some (f k) else dict_get k d0.
Proof.
  revert d0. induction xs as [|x xs IH]; intros d0; [reflexivity|].
  cbn [fold_left]. rewrite IH. unfold mem_string; cbn [existsb].
  fold (mem_string k xs).
  destruct (mem_string k xs); [destruct (String.eqb k x); reflexivity|].
  destruct (String.eqb k x) eqn:E; cbn [orb].
  - apply String.eqb_eq in E; subst x. apply dict_get_set_same.
  - apply dict_get_set_other; assumption.
Qed.

Lemma filter_filter {A} (p q : A -> bool) l :
  filter p (filter q l) = filter (fun x => andb (q x) (p x)) l.
Proof.
  induction l as [|x l IH]; [reflexivity|]. cbn.
  destruct (q x); cbn; [destruct (p x)|]; rewrite IH; reflexivity.
Qed.

Lemma mem_string_unique x l : mem_string x (unique l) = mem_string x l.
Proof.
  destruct (mem_string x l) eqn:E.
  - apply mem_string_In. apply In_unique. apply mem_string_In. assumption.
  - apply not_true_is_false. intros H.
    apply (proj1 (mem_string_In _ _)) in H. apply (proj1 (In_unique _ _)) in H.
    apply (proj2 (mem_string_In _ _)) in H. congruence.
Qed.

Lemma fold_left_pointwise {A B} (f g : A -> B -> A) l s :
  (forall a b, f a b = g a b) -> fold_left f l s = fold_left g l s.
Proof.
  intros H. revert s. induction l as [|x l IH]; intros s; [reflexivity|].
  cbn. rewrite H. apply IH.
Qed.

Section StatisticsFacts.
Import CloudWatch.
Variable sqrt : Q -> Q.

Lemma calculate_statistics_get df rid :
  dict_get rid (calculate_statistics sqrt df)
  = if mem_string rid (map resource_id df)
    then Some
           (fold_left
              (fun resource_stats mname =>
                 dict_set mname (summarize sqrt (pair_values rid mname df))
                          resource_stats)
              (unique
                 (map metric_name
                      (filter (fun r => String.eqb (resource_id r) rid) df)))
              [])
    else None.
Proof.
  unfold calculate_statistics. destruct df as [|r0 df0]; [reflexivity|].
  set (df := r0 :: df0).
  rewrite (get_fold_dict_set
             (fun rid =>
                fold_left
                  (fun resource_stats mname =>
                     dict_set mname
                       (summarize sqrt
                          (map value
                               (filter
                                  (fun r => String.eqb (metric_name r) mname)
                                  (filter
                                     (fun r => String.eqb (resource_id r) rid)
                                     df))))
                       resource_stats)
                  (unique
                     (map metric_name
                          (filter (fun r => String.eqb (resource_id r) rid)
                                  df)))
                  [])).
  rewrite mem_string_unique.
  destruct (mem_string rid (map resource_id df)); [|reflexivity].
  f_equal. apply fold_left_pointwise.
  intros d m. unfold pair_values. rewrite filter_filter. reflexivity.
Qed.

Lemma calculate_statistics_pair df rid mname :
  match dict_get rid (calculate_statistics sqrt df) with
  | Some rs => dict_get mname rs
  | None => None
  end
  = if mem_string mname
         (map metric_name
              (filter (fun r => String.eqb (resource_id r) rid) df))
    then Some (summarize sqrt (pair_values rid mname df))
    else None.
Proof.
  rewrite calculate_statistics_get.
  destruct (mem_string rid (map resource_id df)) eqn:E.
  - rewrite (get_fold_dict_set
               (fun mname => summarize sqrt (pair_values rid mname df))).
    rewrite mem_string_unique. reflexivity.
  - destruct (mem_string mname _) eqn:F; [|reflexivity].
    exfalso. apply mem_string_In, in_map_iff in F.
    destruct F as (r & _ & Hr). apply filter_In in Hr. destruct Hr as [Hr Hid].
    apply String.eqb_eq in Hid.
    assert (mem_string rid (map resource_id df) = true); [|congruence].
    apply mem_string_In, in_map_iff. exists r; auto.
Qed.

Lemma pair_present_iff df rid mname :
  In (rid, mname) (pairs_present df)
  <-> mem_string mname
        (map metric_name
             (filter (fun r => String.eqb (resource_id r) rid) df)) = true.
Proof.
  rewrite mem_string_In. unfold pairs_present. rewrite !in_map_iff. split.
  - intros (r & Hr & Hin). inversion Hr; subst. exists r. split; [reflexivity|].
    apply filter_In. split; [assumption|apply String.eqb_refl].
  - intros (r & Hm & Hin). apply filter_In in Hin. destruct Hin as [Hin Hid].
    apply String.eqb_eq in Hid. exists r. subst. auto.
Qed.

(** C4: [calculate_statistics] gives an empty mapping on an empty table;
    for every (resource, metric) pair of the table it holds the summary
    (mean, median, p95, p99, max, min, population standard deviation) of
    the values of exactly the rows of that pair; it holds nothing for any
    other pair; a pair with the values 10, 20, 30, 40, 50 has mean 30,
    minimum 10 and maximum 50. *)
Theorem calculate_statistics_per_pair df :
  calculate_statistics sqrt [] = []
  /\ (forall rid mname,
        In (rid, mname) (pairs_present df) ->
        exists rs,
          dict_get rid (calculate_statistics sqrt df) = Some rs
          /\ dict_get mname rs
             = Some (summarize sqrt (pair_values rid mname df)))
  /\ (forall rid mname rs s,
        dict_get rid (calculate_statistics sqrt df) = Some rs ->
        dict_get mname rs = Some s ->
        In (rid, mname) (pairs_present df))
  /\ (forall rid mname,
        pair_values rid mname df = [10; 20; 30; 40; 50]%Q ->
        exists rs s,
          dict_get rid (calculate_statistics sqrt df) = Some rs
          /\ dict_get mname rs = Some s
          /\ (mean s == 30)%Q /\ (min s == 10)%Q /\ (max s == 50)%Q).
Proof.
  split; [reflexivity|].
  assert (Hpresent : forall rid mname,
             In (rid, mname) (pairs_present df) ->
             exists rs,
               dict_get rid (calculate_statistics sqrt df) = Some rs
               /\ dict_get mname rs
                  = Some (summarize sqrt (pair_values rid mname df))).
  { intros rid mname Hin. apply pair_present_iff in Hin.
    pose proof (calculate_statistics_pair df rid mname) as H.
    rewrite Hin in H.
    destruct (dict_get rid (calculate_statistics sqrt df)) as [rs|];
      [|discriminate].
    exists rs; auto. }
  split; [exact Hpresent|]. split.
  - intros rid mname rs s Hrs Hs. apply pair_present_iff.
    pose proof (calculate_statistics_pair df rid mname) as H.
    rewrite Hrs, Hs in H.
    destruct (mem_string mname _); [reflexivity|discriminate].
  - intros rid mname Hv.
    assert (Hin : In (rid, mname) (pairs_present df)).
    { unfold pair_values in Hv. unfold pairs_present.
      destruct (filter _ df) as [|r rows] eqn:Hf; [discriminate|].
      assert (Hr : In r (filter
                          (fun r => andb (String.eqb (resource_id r) rid)
                                         (String.eqb (metric_name r) mname))
                          df)) by (rewrite Hf; left; reflexivity).
      apply filter_In in Hr. destruct Hr as [Hr Hb].
      apply andb_prop in Hb. destruct Hb as [H1 H2].
      apply String.eqb_eq in H1, H2. apply in_map_iff. exists r. subst. auto. }
    destruct (Hpresent rid mname Hin) as (rs & Hrs & Hs).
    exists rs, (summarize sqrt (pair_values rid mname df)).
    split; [assumption|]. split; [assumption|]. rewrite Hv.
    cbn. repeat split; reflexivity.
Qed.

End StatisticsFacts.

Lemma calculate_statistics_per_pair_witness :
  exists rs s,
    dict_get "i-1" (CloudWatch.calculate_statistics (fun q => q)
                      Examples.cpu_table) = Some rs
    /\ dict_get "CPUUtilization" rs = Some s
    /\ (CloudWatch.mean s == 30)%Q /\ (CloudWatch.min s == 10)%Q
    /\ (CloudWatch.max s == 50)%Q.
Proof.
  exact (proj2 (proj2 (proj2 (calculate_statistics_per_pair (fun q => q)
                                Examples.cpu_table)))
           "i-1" "CPUUtilization" eq_refl).
Defined.

(** ** More on the metrics collector *)

Section CloudWatchMore.
Import CloudWatch.
Variable cw_client : nat -> Params -> result MetricResponse.
Variable clock : nat -> Z.

Lemma get_metric_statistics_run ns mn dims st et per stats u t :
  get_metric_statistics cw_client ns mn dims st et per stats u t
  = match cw_client t
            {| pNamespace := ns; pMetricName := mn; pDimensions := dims;
               pStartTime := st; pEndTime := et; pPeriod := per;
               pStatistics :=
                 match stats with Some l => l | None => ["Average"] end;
               pUnit := truthy u |} with
    | Ok response =>
        (Ok (sort_by Timestamp Z.leb
               (match Datapoints response with Some l => l | None => [] end)),
         S t)
    | Raise e => (Raise e, S t)
    end.
Proof.
  unfold get_metric_statistics, try_except, bind, client_get_metric_statistics,
    ask, ret, raise.
  destruct (cw_client t _); reflexivity.
Qed.

Lemma collect_metrics_loop config rtype rid st et metrics acc t :
  for_in metrics
    (fun metric_config all_metrics_data =>
       try_except
         (datapoints <-
            get_metric_statistics cw_client (Namespace config)
              (Name metric_config)
              [ {| DimName := DimensionName config; DimValue := rid |} ]
              st et 3600 (Some [Stat metric_config]) (Unit metric_config) ;;
          ret (all_metrics_data
                 ++ map (row_of rtype rid metric_config) datapoints))
         (fun e => ret all_metrics_data))
    acc t
  = (Ok (acc ++ rows_from cw_client config rtype rid st et t metrics),
     (t + List.length metrics)%nat).
Proof.
  revert acc t. induction metrics as [|mc metrics IH]; intros acc t.
  - cbn. unfold ret. rewrite app_nil_r, Nat.add_0_r. reflexivity.
  - cbn [for_in rows_from]. unfold bind at 1, try_except, bind.
    rewrite get_metric_statistics_run. unfold metric_rows, metric_params.
    destruct (cw_client t _) as [response|e]; unfold ret; rewrite IH;
      cbn [List.length]; rewrite Nat.add_succ_r.
    + rewrite app_assoc. reflexivity.
    + reflexivity.
Qed.

Lemma window_test_spec end_time days :
  window_test end_time days = true <-> representable_window end_time days.
Proof.
  unfold window_test, representable_window.
  rewrite !andb_true_iff, !Z.leb_le. tauto.
Qed.

Lemma collect_resource_metrics_run rtype rid days config t :
  dict_get rtype METRICS_CONFIG = Some config ->
  collect_resource_metrics cw_client clock rtype rid days t
  = if window_test (clock t) days
    then (Ok (rows_from cw_client config rtype rid
                (clock t - days * 86400)%Z (clock t) (S t) (Metrics config)),
          (S t + List.length (Metrics config))%nat)
    else (Raise OverflowError, S t).
Proof.
  intros Hc. unfold collect_resource_metrics. rewrite Hc.
  unfold bind at 1, utcnow, ask. unfold bind at 1, subtract_days.
  destruct (window_test (clock t) days); [|reflexivity].
  unfold ret at 1. unfold bind at 1.
  rewrite collect_metrics_loop. reflexivity.
Qed.

(** A window that starts before the first or after the last representable
    time makes [collect_resource_metrics] raise [OverflowError], before any
    call of the client. *)
Lemma collect_resource_metrics_overflow rtype rid days config t :
  dict_get rtype METRICS_CONFIG = Some config ->
  ~ representable_window (clock t) days ->
  collect_resource_metrics cw_client clock rtype rid days t
  = (Raise OverflowError, S t).
Proof.
  intros Hc Hw. rewrite (collect_resource_metrics_run _ _ _ _ _ Hc).
  destruct (window_test (clock t) days) eqn:E; [|reflexivity].
  exfalso. apply Hw, window_test_spec. exact E.
Qed.

(** For a supported resource type and a window that starts at a
    representable time, [collect_resource_metrics] never raises, whatever
    the client does: it reads the clock once, calls the client once per
    metric of the type, and returns a table; when every call fails the
    table is empty. *)
Theorem collect_resource_metrics_never_raises rtype rid days config t :
  dict_get rtype METRICS_CONFIG = Some config ->
  representable_window (clock t) days ->
  exists df,
    collect_resource_metrics cw_client clock rtype rid days t
    = (Ok df, (S t + List.length (Metrics config))%nat)
    /\ ((forall u p, exists e, cw_client u p = Raise e) -> df = []).
Proof.
  intros Hc Hw. apply window_test_spec in Hw. eexists. split.
  { rewrite (collect_resource_metrics_run _ _ _ _ _ Hc), Hw. reflexivity. }
  intros Hfail. generalize (S t).
  induction (Metrics config) as [|mc ms IH]; intros u; [reflexivity|].
  cbn [rows_from]. rewrite IH. unfold metric_rows.
  destruct (Hfail u (metric_params config rid (clock t - days * 86400)%Z
                       (clock t) mc)) as [e ->].
  reflexivity.
Qed.

Lemma rows_from_fields config rtype rid st et t metrics r :
  In r (rows_from cw_client config rtype rid st et t metrics) ->
  resource_type r = rtype /\ resource_id r = rid
  /\ exists mc, In mc metrics
                /\ metric_name r = Name mc /\ statistic r = Stat mc.
Proof.
  revert t. induction metrics as [|mc ms IH]; intros t; cbn [rows_from];
    [contradiction|].
  intros Hin. apply in_app_or in Hin. destruct Hin as [Hin|Hin].
  - unfold metric_rows in Hin. destruct (cw_client t _); [|contradiction].
    apply in_map_iff in Hin. destruct Hin as (dp & <- & _).
    cbn. repeat split. exists mc. cbn. auto.
  - destruct (IH _ Hin) as (H1 & H2 & mc' & Hm & H3).
    repeat split; try assumption. exists mc'. cbn. tauto.
Qed.

(** Every row [collect_resource_metrics] returns carries the resource type
    and id it was called with, and the name and statistic of one of the
    metrics configured for that type. *)
Theorem collect_resource_metrics_rows rtype rid days t df t' r :
  collect_resource_metrics cw_client clock rtype rid days t = (Ok df, t') ->
  In r df ->
  resource_type r = rtype /\ resource_id r = rid
  /\ exists config mc,
       dict_get rtype METRICS_CONFIG = Some config /\ In mc (Metrics config)
       /\ metric_name r = Name mc /\ statistic r = Stat mc.
Proof.
  intros Hrun Hin.
  destruct (dict_get rtype METRICS_CONFIG) as [config|] eqn:Hc.
  - rewrite (collect_resource_metrics_run rtype rid days config t Hc) in Hrun.
    destruct (window_test (clock t) days); [|discriminate].
    inversion Hrun; subst.
    destruct (rows_from_fields _ _ _ _ _ _ _ _ Hin) as (H1 & H2 & mc & Hm & H3).
    repeat split; try assumption. exists config, mc. tauto.
  - unfold collect_resource_metrics in Hrun. rewrite Hc in Hrun. discriminate.
Qed.

(** A client error inside [get_metric_statistics] reaches the caller
    unchanged, after the one call. *)
Theorem get_metric_statistics_reraises ns mn dims st et per stats u t e :
  cw_client t
    {| pNamespace := ns; pMetricName := mn; pDimensions := dims;
       pStartTime := st; pEndTime := et; pPeriod := per;
       pStatistics := match stats with Some l => l | None => ["Average"] end;
       pUnit := truthy u |} = Raise e ->
  get_metric_statistics cw_client ns mn dims st et per stats u t
  = (Raise e, S t).
Proof. intros H. rewrite get_metric_statistics_run, H. reflexivity. Qed.

(** Datapoints with the same timestamp come back from
    [get_metric_statistics] in the order the client gave them. *)
Theorem get_metric_statistics_stable ns mn dims st et per stats u t dps t' ts :
  get_metric_statistics cw_client ns mn dims st et per stats u t
  = (Ok dps, t') ->
  exists params response,
    cw_client t params = Ok response
    /\ filter (fun dp => Z.eqb (Timestamp dp) ts) dps
       = filter (fun dp => Z.eqb (Timestamp dp) ts)
           (match Datapoints response with Some l => l | None => [] end).
Proof.
  rewrite get_metric_statistics_run.
  match goal with |- context [cw_client t ?p] => set (params := p) end.
  destruct (cw_client t params) as [response|e] eqn:Hc; [|discriminate].
  intros H; inversion H; subst; clear H. exists params, response.
  split; [exact Hc|].
  assert (Hext : forall dp : Datapoint,
             Z.eqb (Timestamp dp) ts = tied Timestamp Z.leb ts dp).
  { intros dp. unfold tied.
    destruct (Z.eqb_spec (Timestamp dp) ts) as [->|Hne].
    - rewrite Z.leb_refl. reflexivity.
    - symmetry. apply not_true_is_false. intros Hb.
      apply andb_prop in Hb. destruct Hb as [H1 H2].
      apply Z.leb_le in H1, H2. lia. }
  rewrite !(filter_ext _ _ Hext).
  apply sort_by_stable. apply Zleb_trans.
Qed.

End CloudWatchMore.

Lemma StronglySorted_map {A B} (f : A -> B) (R : B -> B -> Prop) l :
  StronglySorted (fun x y => R (f x) (f y)) l -> StronglySorted R (map f l).
Proof.
  induction 1 as [|x l Hs IH Hx]; cbn; constructor; [assumption|].
  apply Forall_map. assumption.
Qed.

Lemma filter_all {A} (p : A -> bool) l :
  (forall x, In x l -> p x = true) -> filter p l = l.
Proof.
  induction l as [|x l IH]; intros H; [reflexivity|]. cbn.
  rewrite (H x (or_introl eq_refl)). f_equal. apply IH.
  intros; apply H; right; assumption.
Qed.

Lemma filter_none {A} (p : A -> bool) l :
  (forall x, In x l -> p x = false) -> filter p l = [].
Proof.
  induction l as [|x l IH]; intros H; [reflexivity|]. cbn.
  rewrite (H x (or_introl eq_refl)). apply IH.
  intros; apply H; right; assumption.
Qed.

Section CloudWatchOrder.
Import CloudWatch.
Variable cw_client : nat -> Params -> result MetricResponse.
Variable clock : nat -> Z.

Lemma metric_rows_sorted config rtype rid st et t mc :
  StronglySorted (fun a b => (timestamp a <= timestamp b)%Z)
    (metric_rows cw_client config rtype rid st et t mc).
Proof.
  unfold metric_rows. destruct (cw_client t _); [|constructor].
  apply StronglySorted_map. cbn.
  eapply StronglySorted_weaken;
    [|apply (sort_by_sorted Timestamp Z.leb Zleb_total Zleb_trans)].
  unfold key_le. intros x y; apply Z.leb_le.
Qed.

Lemma metric_rows_name config rtype rid st et t mc r :
  In r (metric_rows cw_client config rtype rid st et t mc) ->
  metric_name r = Name mc.
Proof.
  unfold metric_rows. destruct (cw_client t _); [|contradiction].
  intros Hin. apply in_map_iff in Hin. destruct Hin as (dp & <- & _).
  reflexivity.
Qed.

Lemma rows_from_sorted config rtype rid st et t metrics m :
  NoDup (map Name metrics) ->
  StronglySorted (fun a b => (timestamp a <= timestamp b)%Z)
    (filter (fun r => String.eqb (metric_name r) m)
            (rows_from cw_client config rtype rid st et t metrics)).
Proof.
  revert t. induction metrics as [|mc ms IH]; intros t Hnd; cbn [rows_from];
    [constructor|].
  inversion Hnd as [|? ? Hnotin Hnd']; subst.
  rewrite filter_app. destruct (String.eqb (Name mc) m) eqn:E.
  - apply String.eqb_eq in E. subst m.
    rewrite filter_all, filter_none.
    + rewrite app_nil_r. apply metric_rows_sorted.
    + intros r Hr. apply not_true_is_false. intros Hb.
      apply String.eqb_eq in Hb.
      destruct (rows_from_fields cw_client clock _ _ _ _ _ _ _ _ Hr)
        as (_ & _ & mc' & Hin & Hn & _).
      apply Hnotin. rewrite <- Hb, Hn. apply in_map; assumption.
    + intros r Hr. rewrite (metric_rows_name _ _ _ _ _ _ _ _ Hr).
      apply String.eqb_refl.
  - rewrite filter_none.
    + apply IH; assumption.
    + intros r Hr. rewrite (metric_rows_name _ _ _ _ _ _ _ _ Hr). exact E.
Qed.

Lemma METRICS_CONFIG_names_distinct rtype config :
  dict_get rtype METRICS_CONFIG = Some config -> NoDup (map Name (Metrics config)).
Proof.
  unfold METRICS_CONFIG; cbn [dict_get].
  assert (Hnd : forall l : list string,
             (forall a b l1 l2 l3, l = l1 ++ a :: l2 ++ b :: l3 ->
                String.eqb a b = false) -> NoDup l).
  { induction l as [|x l IH]; intros H; constructor.
    - intros Hin. apply in_split in Hin. destruct Hin as (l2 & l3 & ->).
      specialize (H x x [] l2 l3 eq_refl). rewrite String.eqb_refl in H.
      discriminate.
    - apply IH. intros a b l1 l2 l3 ->. apply (H a b (x :: l1) l2 l3).
      reflexivity. }
  destruct (String.eqb rtype "EC2");
    [|destruct (String.eqb rtype "RDS");
      [|destruct (String.eqb rtype "Lambda"); [|discriminate]]];
    intros H; inversion H; subst; cbn;
    repeat (constructor; [cbn; intuition discriminate|]); constructor.
Qed.

(** The rows [collect_resource_metrics] returns for any one metric are in
    ascending order of timestamp. *)
Theorem collect_resource_metrics_ordered rtype rid days t df t' m :
  collect_resource_metrics cw_client clock rtype rid days t = (Ok df, t') ->
  StronglySorted (fun a b => (timestamp a <= timestamp b)%Z)
    (filter (fun r => String.eqb (metric_name r) m) df).
Proof.
  intros Hrun.
  destruct (dict_get rtype METRICS_CONFIG) as [config|] eqn:Hc.
  - rewrite (collect_resource_metrics_run cw_client clock rtype rid days
               config t Hc) in Hrun.
    destruct (window_test (clock t) days); [|discriminate].
    inversion Hrun; subst. apply rows_from_sorted.
    eapply METRICS_CONFIG_names_distinct; eassumption.
  - unfold collect_resource_metrics in Hrun. rewrite Hc in Hrun. discriminate.
Qed.

End CloudWatchOrder.

Lemma collect_resource_metrics_never_raises_witness :
  exists df,
    CloudWatch.collect_resource_metrics Examples.cw_unsorted Examples.clock_s
      "EC2" "i-bad" 15 0%nat = (Ok df, 6%nat).
Proof.
  assert (Hw : CloudWatch.representable_window (Examples.clock_s 0%nat) 15).
  { unfold CloudWatch.representable_window, CloudWatch.timedelta_max_days,
      CloudWatch.datetime_min, CloudWatch.datetime_max, Examples.clock_s.
    lia. }
  destruct (collect_resource_metrics_never_raises Examples.cw_unsorted
              Examples.clock_s "EC2" "i-bad" 15 _ 0%nat eq_refl Hw)
    as (df & Hrun & _).
  exists df. exact Hrun.
Defined.

Lemma collect_resource_metrics_rows_witness :
  exists df t',
    CloudWatch.collect_resource_metrics Examples.cw_unsorted Examples.clock_s
      "RDS" "db-1" 15 0%nat = (Ok df, t')
    /\ Forall (fun r => CloudWatch.resource_type r = "RDS"
                        /\ CloudWatch.resource_id r = "db-1") df.
Proof.
  assert (Hrun : exists df t',
             CloudWatch.collect_resource_metrics Examples.cw_unsorted
               Examples.clock_s "RDS" "db-1" 15 0%nat = (Ok df, t'))
    by (eexists; eexists; vm_compute; reflexivity).
  destruct Hrun as (df & t' & Hrun). exists df, t'. split; [exact Hrun|].
  apply Forall_forall. intros r Hr.
  destruct (collect_resource_metrics_rows Examples.cw_unsorted Examples.clock_s
              "RDS" "db-1" 15 0%nat df t' r Hrun Hr) as (H1 & H2 & _).
  split; assumption.
Defined.

Lemma get_metric_statistics_reraises_witness :
  CloudWatch.get_metric_statistics Examples.cw_unsorted "AWS/EC2"
    "CPUUtilization"
    [ {| CloudWatch.DimName := "InstanceId"; CloudWatch.DimValue := "i-bad" |} ]
    0 10 3600 None None 4%nat
  = (Raise (ClientError "Throttling"), 5%nat).
Proof.
  apply (get_metric_statistics_reraises Examples.cw_unsorted "AWS/EC2"
           "CPUUtilization"
           [ {| CloudWatch.DimName := "InstanceId";
                CloudWatch.DimValue := "i-bad" |} ]
           0 10 3600 None None 4%nat (ClientError "Throttling")).
  reflexivity.
Defined.

Lemma get_metric_statistics_stable_witness :
  exists dps t',
    CloudWatch.get_metric_statistics Examples.cw_unsorted "AWS/EC2"
      "CPUUtilization" [] 0 10 3600 None None 0%nat = (Ok dps, t')
    /\ exists params response,
         Examples.cw_unsorted 0%nat params = Ok response
         /\ filter (fun dp => Z.eqb (CloudWatch.Timestamp dp) 10) dps
            = filter (fun dp => Z.eqb (CloudWatch.Timestamp dp) 10)
                (match CloudWatch.Datapoints response with
                 | Some l => l
                 | None => []
                 end).
Proof.
  assert (Hrun : exists dps t',
             CloudWatch.get_metric_statistics Examples.cw_unsorted "AWS/EC2"
               "CPUUtilization" [] 0 10 3600 None None 0%nat = (Ok dps, t'))
    by (eexists; eexists; vm_compute; reflexivity).
  destruct Hrun as (dps & t' & Hrun). exists dps, t'. split; [exact Hrun|].
  exact (get_metric_statistics_stable Examples.cw_unsorted _ _ _ _ _ _ _ _
           _ _ _ 10%Z Hrun).
Defined.

Lemma collect_resource_metrics_ordered_witness :
  exists df t',
    CloudWatch.collect_resource_metrics Examples.cw_unsorted Examples.clock_s
      "Lambda" "fn" 15 0%nat = (Ok df, t')
    /\ StronglySorted
         (fun a b => (CloudWatch.timestamp a <= CloudWatch.timestamp b)%Z)
         (filter (fun r => String.eqb (CloudWatch.metric_name r) "Errors") df).
Proof.
  assert (Hrun : exists df t',
             CloudWatch.collect_resource_metrics Examples.cw_unsorted
               Examples.clock_s "Lambda" "fn" 15 0%nat = (Ok df, t'))
    by (eexists; eexists; vm_compute; reflexivity).
  destruct Hrun as (df & t' & Hrun). exists df, t'. split; [exact Hrun|].
  exact (collect_resource_metrics_ordered Examples.cw_unsorted Examples.clock_s
           "Lambda" "fn" 15 0%nat df t' "Errors" Hrun).
Defined.

(** ** The other parsers of the second cost collector *)

Lemma for_in_raises {A S} (body : A -> S -> M S) xs x :
  In x xs ->
  (forall s t, exists e t', body x s t = (Raise e, t')) ->
  forall s t, exists e t', for_in xs body s t = (Raise e, t').
Proof.
  intros Hin Hx. induction xs as [|y xs IH]; [contradiction|].
  intros s t. cbn. unfold bind.
  destruct Hin as [->|Hin].
  - destruct (Hx s t) as (e & t' & ->). eauto.
  - destruct (body y s t) as [[s1|e] t1]; [apply IH; assumption|eauto].
Qed.

Lemma find_app {A} (p : A -> bool) l1 l2 :
  find p (l1 ++ l2)
  = match find p l1 with Some x => Some x | None => find p l2 end.
Proof.
  induction l1 as [|x l1 IH]; [reflexivity|]. cbn.
  destruct (p x); [reflexivity|assumption].
Qed.

(** A dict filled by [d[key(x)] = val(x)] over a list holds, under each
    key, the value of the last element with that key. *)
Lemma get_fold_set_last {A V} (kf : A -> string) (vf : A -> V) k xs d0 :
  dict_get k (fold_left (fun d x => dict_set (kf x) (vf x) d) xs d0)
  = match CostParsers.find_last (fun x => String.eqb (kf x) k) xs with
    | Some x => Some (vf x)
    | None => dict_get k d0
    end.
Proof.
  unfold CostParsers.find_last. revert d0.
  induction xs as [|x xs IH]; intros d0; [reflexivity|].
  cbn [fold_left rev]. rewrite IH, find_app. cbn [find].
  destruct (find _ (rev xs)); [reflexivity|].
  destruct (String.eqb (kf x) k) eqn:E.
  - apply String.eqb_eq in E. subst k. apply dict_get_set_same.
  - apply dict_get_set_other. rewrite String.eqb_sym. assumption.
Qed.

Lemma keys_fold_set {A V} (kf : A -> string) (vf : A -> V) xs d0 :
  keys (fold_left (fun d x => dict_set (kf x) (vf x) d) xs d0)
  = keys d0 ++ unique_from (keys d0) (map kf xs).
Proof.
  revert d0. induction xs as [|x xs IH]; intros d0.
  - cbn. rewrite app_nil_r. reflexivity.
  - cbn [fold_left map unique_from]. rewrite IH, keys_dict_set.
    rewrite mem_string_keys.
    destruct (mem_string (kf x) (keys d0)) eqn:E; [reflexivity|].
    rewrite <- app_assoc; cbn. do 2 f_equal.
    apply unique_from_ext. intros y. unfold mem_string.
    rewrite existsb_app; cbn. rewrite orb_false_r, orb_comm. reflexivity.
Qed.

Section CostParsersFacts.
Import CostExplorer CostCollector CostParsers.
Variable float_ : string -> option Q.

Lemma parse_cost_response_run gs (pd : ParsedCosts) t :
  Forall (fun g => Keys g <> [] /\ group_cost float_ g <> None) gs ->
  for_in gs
    (fun group parsed_data =>
       service_name <- first_key group ;;
       c <- unblended_cost float_ group ;;
       ret {| time_period := time_period parsed_data;
              total_cost := (total_cost parsed_data + c)%Q;
              by_service := add_cost service_name c (by_service parsed_data) |})
    pd t
  = (Ok {| time_period := time_period pd;
           total_cost :=
             fold_left Qplus (map snd (service_pairs float_ gs))
                       (total_cost pd);
           by_service := add_all (service_pairs float_ gs) (by_service pd) |},
     t).
Proof.
  intros Hok. revert pd. induction Hok as [|g gs [Hk Hg] _ IH]; intros pd.
  - destruct pd; reflexivity.
  - cbn [for_in]. destruct (group_cost float_ g) as [q|] eqn:Hq; [|congruence].
    unfold bind at 1. unfold bind at 1. unfold first_key at 1.
    destruct (Keys g) as [|k ks] eqn:Ek; [congruence|]. unfold ret at 1.
    unfold bind at 1. rewrite (unblended_cost_some float_ g q t Hq).
    unfold ret at 1. rewrite IH. unfold service_pairs; cbn [map fold_left snd].
    unfold first_key_or, cost_or_zero. rewrite Ek, Hq. reflexivity.
Qed.

(** On a response whose groups all have a key and a convertible
    UnblendedCost, [_parse_cost_response] returns the time periods of the
    response as they are; its total is the running sum, from zero and in
    response order, of the costs of all groups; its per-service mapping has
    one entry per distinct service, in order of first appearance, holding
    the running sum of that service's costs. *)
Theorem parse_cost_response_sums response t :
  Forall (fun g => Keys g <> [] /\ group_cost float_ g <> None)
         (groups_of response) ->
  exists r,
    _parse_cost_response float_ response t = (Ok r, t)
    /\ time_period r = get_or_empty (ResultsByTime response)
    /\ total_cost r
       = fold_left Qplus
           (map snd (service_pairs float_ (groups_of response))) 0%Q
    /\ keys (by_service r)
       = unique (map fst (service_pairs float_ (groups_of response)))
    /\ (forall k,
          dict_get k (by_service r)
          = if mem_string k
                 (map fst (service_pairs float_ (groups_of response)))
            then Some (total_of k (service_pairs float_ (groups_of response)))
            else None).
Proof.
  intros Hok. eexists. split.
  { unfold _parse_cost_response. rewrite each_group_flat.
    apply parse_cost_response_run; assumption. }
  cbn [time_period total_cost by_service].
  split; [reflexivity|]. split; [reflexivity|].
  split; [apply keys_add_all|].
  intros k. rewrite get_add_all. reflexivity.
Qed.

Lemma first_key_empty g t :
  Keys g = [] -> first_key g t = (Raise (KeyError "0"), t).
Proof. unfold first_key. intros ->. reflexivity. Qed.

(** A single group without keys anywhere in the response makes
    [_parse_cost_response], [_aggregate_service_costs] and
    [_parse_usage_types] raise, whatever the other groups hold. *)
Theorem keyless_group_raises response g t :
  In g (groups_of response) -> Keys g = [] ->
  (exists e t', _parse_cost_response float_ response t = (Raise e, t'))
  /\ (exists e t', _aggregate_service_costs float_ response t = (Raise e, t'))
  /\ (exists e t', _parse_usage_types float_ response t = (Raise e, t')).
Proof.
  intros Hin Hk. repeat split.
  - unfold _parse_cost_response. rewrite each_group_flat.
    eapply for_in_raises; [exact Hin|]. intros s u. unfold bind.
    rewrite (first_key_empty g u Hk). eauto.
  - unfold _aggregate_service_costs, bind. rewrite each_group_flat.
    destruct (for_in_raises
                (fun group service_costs =>
                   service_name <- first_key group ;;
                   c <- unblended_cost float_ group ;;
                   ret (add_cost service_name c service_costs))
                (groups_of response) g Hin) with (s := @nil (string * Q))
                                                  (t := t)
      as (e & t' & Hr).
    + intros s u. unfold bind. rewrite (first_key_empty g u Hk). eauto.
    + unfold bind in Hr. rewrite Hr. eauto.
  - unfold _parse_usage_types. rewrite each_group_flat.
    eapply for_in_raises; [exact Hin|]. intros s u. unfold bind.
    rewrite (first_key_empty g u Hk). eauto.
Qed.

Lemma usage_quantity_some g q t :
  group_quantity float_ g = Some q -> usage_quantity float_ g t = (Ok q, t).
Proof.
  unfold group_quantity, usage_quantity, dict_item, float, bind, ret.
  destruct (dict_get "UsageQuantity" (Metrics g)); [|discriminate].
  cbn. intros ->. reflexivity.
Qed.

Lemma parse_usage_types_run gs d t :
  Forall (fun g => Keys g <> [] /\ group_cost float_ g <> None
                   /\ group_quantity float_ g <> None) gs ->
  for_in gs
    (fun group usage_data =>
       usage_type <- first_key group ;;
       c <- unblended_cost float_ group ;;
       q <- usage_quantity float_ group ;;
       ret (dict_set usage_type (usage_entry c q) usage_data))
    d t
  = (Ok (fold_left
           (fun d g => dict_set (first_key_or "" g) (entry_of float_ g) d)
           gs d), t).
Proof.
  intros Hok. revert d. induction Hok as [|g gs (Hk & Hc & Hq) _ IH]; intros d.
  - reflexivity.
  - cbn [for_in fold_left].
    destruct (group_cost float_ g) as [c|] eqn:Ec; [|congruence].
    destruct (group_quantity float_ g) as [q|] eqn:Eq; [|congruence].
    unfold bind at 1. unfold bind at 1. unfold first_key at 1.
    destruct (Keys g) as [|k ks] eqn:Ek; [congruence|]. unfold ret at 1.
    unfold bind at 1. rewrite (unblended_cost_some float_ g c t Ec).
    unfold bind at 1. rewrite (usage_quantity_some g q t Eq).
    unfold ret at 1. rewrite IH.
    unfold entry_of, first_key_or, cost_or_zero. rewrite Ek, Ec, Eq.
    reflexivity.
Qed.

(** [_parse_usage_types] does not add up: under each usage type it holds
    the cost and quantity of the last group of the response with that
    type, earlier time periods being overwritten; the unit cost is the
    cost divided by the quantity when the quantity is positive and zero
    otherwise, so that nothing is divided by zero. *)
Theorem parse_usage_types_last_wins response t :
  Forall (fun g => Keys g <> [] /\ group_cost float_ g <> None
                   /\ group_quantity float_ g <> None)
         (groups_of response) ->
  exists r,
    _parse_usage_types float_ response t = (Ok r, t)
    /\ (forall k,
          dict_get k r
          = option_map (entry_of float_)
              (find_last (fun g => String.eqb (first_key_or "" g) k)
                         (groups_of response)))
    /\ (forall k e,
          dict_get k r = Some e ->
          unit_cost e
          = if Qle_bool (quantity e) 0 then 0%Q
            else (usage_cost e / quantity e)%Q).
Proof.
  intros Hok. eexists. split.
  { unfold _parse_usage_types. rewrite each_group_flat.
    apply parse_usage_types_run; assumption. }
  assert (Hget : forall k,
             dict_get k
               (fold_left
                  (fun d g =>
                     dict_set (first_key_or "" g) (entry_of float_ g) d)
                  (groups_of response) [])
             = option_map (entry_of float_)
                 (find_last (fun g => String.eqb (first_key_or "" g) k)
                            (groups_of response))).
  { intros k. rewrite get_fold_set_last.
    destruct (find_last _ _); reflexivity. }
  split; [exact Hget|].
  intros k e He. rewrite Hget in He.
  destruct (find_last _ _) as [g|]; [|discriminate].
  inversion He; subst e. reflexivity.
Qed.

End CostParsersFacts.

Lemma parse_cost_response_sums_witness :
  exists r,
    CostParsers._parse_cost_response float_decimal Examples.services_period
      0%nat = (Ok r, 0%nat)
    /\ keys (CostParsers.by_service r) = ["A"; "B"]
    /\ CostParsers.total_cost r = (45 # 1)%Q.
Proof.
  assert (H : Forall (fun g => CostExplorer.Keys g <> []
                               /\ CostCollector.group_cost float_decimal g
                                  <> None)
                (CostCollector.groups_of Examples.services_period))
    by (repeat constructor; discriminate).
  destruct (parse_cost_response_sums float_decimal Examples.services_period
              0%nat H) as (r & Hrun & _ & Htotal & Hkeys & _).
  exists r. split; [exact Hrun|]. split.
  - rewrite Hkeys. reflexivity.
  - rewrite Htotal. reflexivity.
Defined.

Lemma keyless_group_raises_witness :
  exists e t',
    CostParsers._parse_cost_response float_decimal Examples.two_by_two 0%nat
    = (Raise e, t').
Proof.
  refine (proj1 (keyless_group_raises float_decimal Examples.two_by_two
                   (Examples.cost_group [] "0.5" "1" "0.5") 0%nat _ eq_refl)).
  vm_compute. tauto.
Defined.

Lemma parse_usage_types_last_wins_witness :
  exists r,
    CostParsers._parse_usage_types float_decimal Examples.usage_two_periods
      0%nat = (Ok r, 0%nat)
    /\ dict_get "DataTransfer" r
       = Some (CostParsers.usage_entry (inject_Z 6) (inject_Z 3)).
Proof.
  assert (H : Forall
                (fun g => CostExplorer.Keys g <> []
                          /\ CostCollector.group_cost float_decimal g <> None
                          /\ CostParsers.group_quantity float_decimal g
                             <> None)
                (CostCollector.groups_of Examples.usage_two_periods))
    by (repeat constructor; discriminate).
  destruct (parse_usage_types_last_wins float_decimal
              Examples.usage_two_periods 0%nat H) as (r & Hrun & Hget & _).
  exists r. split; [exact Hrun|]. rewrite Hget. reflexivity.
Defined.

(** ** Tags and instance specifications *)

Section InventorySpecsFacts.
Import InventorySpecs.

(** [_extract_tags] has one entry per distinct tag key, in order of first
    appearance, and under a key that occurs several times the value of its
    last occurrence. *)
Theorem extract_tags_last_wins tags_list k :
  dict_get k (_extract_tags tags_list)
  = option_map Value
      (CostParsers.find_last (fun tag => String.eqb (Key tag) k) tags_list)
  /\ keys (_extract_tags tags_list) = unique (map Key tags_list).
Proof.
  unfold _extract_tags. split.
  - rewrite get_fold_set_last.
    destruct (CostParsers.find_last _ _); reflexivity.
  - rewrite keys_fold_set. reflexivity.
Qed.

Lemma same_keys_same_misses {V W} (d1 : dict V) (d2 : dict W) k :
  keys d1 = keys d2 -> (dict_get k d1 = None <-> dict_get k d2 = None).
Proof.
  intros Hk. pose proof (dict_get_In_keys k d1) as H1.
  pose proof (dict_get_In_keys k d2) as H2. rewrite Hk in H1.
  destruct (dict_get k d1), (dict_get k d2); split; intros H; try reflexivity;
    try discriminate; exfalso.
  - apply (proj2 H2); [apply H1; discriminate|reflexivity].
  - apply (proj2 H1); [apply H2; discriminate|reflexivity].
Qed.

Ltac table_cases t :=
  repeat match goal with
         | |- context [String.eqb t ?s] =>
             let E := fresh "E" in
             destruct (String.eqb t s) eqn:E;
             [apply String.eqb_eq in E; subst t; intros H; inversion H;
              reflexivity|]
         end;
  try discriminate.

(** The specification tables are consistent: an instance type has a vCPU
    count exactly when it has a memory size, for EC2 and for RDS, and an
    RDS class [db.T] with known vCPUs or memory has those of the EC2
    instance type [T]. *)
Theorem specification_tables_agree (t : string) :
  (_get_instance_vcpus t = None <-> _get_instance_memory t = None)
  /\ (_get_rds_vcpus t = None <-> _get_rds_memory t = None)
  /\ (forall n, _get_rds_vcpus ("db." ++ t) = Some n ->
                _get_instance_vcpus t = Some n)
  /\ (forall n, _get_rds_memory ("db." ++ t) = Some n ->
                _get_instance_memory t = Some n).
Proof.
  split; [apply same_keys_same_misses; reflexivity|].
  split; [apply same_keys_same_misses; reflexivity|].
  split; intros n;
    unfold _get_rds_vcpus, _get_rds_memory, rds_vcpu_map, rds_memory_map;
    cbn; table_cases t.
Qed.

End InventorySpecsFacts.

(** ** The utilities of [src/utils.py] *)

Section DateRangesFacts.
Import Utils.
Variable isoformat : Z -> string.
Variable today : nat -> Z.

Lemma partition_of_app lo mid hi l1 l2 :
  partition_of lo mid l1 -> partition_of mid hi l2 ->
  partition_of lo hi (l1 ++ l2).
Proof.
  revert lo. induction l1 as [|[a b] l1 IH]; intros lo; cbn.
  - intros ->. auto.
  - intros [-> H1] H2. split; [reflexivity|]. apply IH; assumption.
Qed.

Lemma ranges_loop_spec fuel c cur rem acc :
  (0 < c)%Z -> (0 <= rem)%Z -> (Z.to_nat rem <= fuel)%nat ->
  exists zs,
    ranges_loop isoformat fuel c cur rem acc
    = Some (acc ++ map (iso_range isoformat) zs)
    /\ partition_of (cur - rem) cur (rev zs)
    /\ Forall (fun r => (0 < snd r - fst r <= c)%Z) zs
    /\ ((0 < rem)%Z -> zs <> [])
    /\ Forall (fun r => (cur - rem <= fst r)%Z /\ (snd r <= cur)%Z) zs.
Proof.
  intros Hc. revert cur rem acc.
  induction fuel as [|fuel IH]; intros cur rem acc Hrem Hfuel.
  - assert (rem = 0%Z) by lia. subst rem. exists []. cbn.
    rewrite app_nil_r. repeat split; [lia|constructor|lia|constructor].
  - cbn [ranges_loop]. destruct (rem >? 0)%Z eqn:E.
    + apply Z.gtb_lt in E.
      destruct (IH (cur - Z.min c rem)%Z (rem - Z.min c rem)%Z
                  (acc ++ [(isoformat (cur - Z.min c rem)%Z, isoformat cur)]))
        as (zs & Hrun & Hpart & Hall & _ & Hin); [lia|lia|].
      exists ((cur - Z.min c rem, cur)%Z :: zs). repeat split.
      * rewrite Hrun, <- app_assoc. reflexivity.
      * cbn [rev]. eapply partition_of_app.
        -- replace (cur - rem)%Z
             with (cur - Z.min c rem - (rem - Z.min c rem))%Z by lia.
           exact Hpart.
        -- cbn. auto.
      * constructor; [cbn; lia|assumption].
      * discriminate.
      * constructor; [cbn; lia|].
        eapply Forall_impl; [|exact Hin]. cbn. intros r [H1 H2]. lia.
    + rewrite Z.gtb_ltb in E. apply Z.ltb_ge in E.
      assert (rem = 0%Z) by lia. subst rem. exists []. cbn.
      rewrite app_nil_r. repeat split; [lia|constructor|lia|constructor].
Qed.

(** With a positive chunk size, and as long as the oldest day asked for
    is a day Python can represent, the loop of [get_date_ranges] ends
    within [days_back] iterations, and the ranges it returns, oldest first,
    cut the [days_back] days up to today into pieces without gap or
    overlap, each at least one day and at most [chunk_days] days long and
    made of representable days only; there is no range when [days_back]
    is zero. *)
Theorem get_date_ranges_partition fuel days_back chunk_days t :
  (0 < chunk_days)%Z -> (0 <= days_back)%Z ->
  (date_min <= today t - days_back)%Z -> (today t <= date_max)%Z ->
  (Z.to_nat days_back <= fuel)%nat ->
  exists zr,
    get_date_ranges isoformat today fuel days_back chunk_days t
    = (Ok (Some (map (iso_range isoformat) zr)), S t)
    /\ partition_of (today t - days_back) (today t) zr
    /\ Forall (fun r => (0 < snd r - fst r <= chunk_days)%Z) zr
    /\ Forall (fun r => (date_min <= fst r)%Z /\ (snd r <= date_max)%Z) zr
    /\ (zr = [] <-> days_back = 0%Z).
Proof.
  intros Hc Hd Hmin Hmax Hfuel.
  destruct (ranges_loop_spec fuel chunk_days (today t) days_back [] Hc Hd Hfuel)
    as (zs & Hrun & Hpart & Hall & Hne & Hin).
  exists (rev zs). unfold get_date_ranges, bind, ask, ret.
  rewrite Hrun. cbn [app option_map]. rewrite map_rev.
  split; [reflexivity|]. split; [exact Hpart|].
  split; [apply Forall_rev; assumption|].
  split.
  { apply Forall_rev. eapply Forall_impl; [|exact Hin].
    cbn. intros r [H1 H2]. lia. }
  split.
  - intros Hnil. destruct (Z.eq_dec days_back 0) as [|Hnz]; [assumption|].
    exfalso. apply Hne; [lia|]. rewrite <- (rev_involutive zs), Hnil.
    reflexivity.
  - intros ->. cbn in Hpart.
    destruct (rev zs) as [|[a b] rest] eqn:Ez; [reflexivity|].
    exfalso. apply Forall_rev in Hall. rewrite Ez in Hall.
    clear -Hpart Hall.
    assert (Hgrow : forall l lo hi,
               partition_of lo hi l ->
               Forall (fun r => (0 < snd r - fst r <= chunk_days)%Z) l ->
               (lo <= hi)%Z /\ (l <> [] -> lo < hi)%Z).
    { induction l as [|[x y] l IHl]; cbn; intros lo hi Hp Hf.
      - subst. split; [lia|congruence].
      - destruct Hp as [-> Hp]. inversion Hf; subst. cbn in *.
        destruct (IHl _ _ Hp H2). split; [lia|intros _; lia]. }
    destruct (Hgrow _ _ _ Hpart Hall) as [_ Hlt].
    specialize (Hlt ltac:(discriminate)). lia.
Qed.

(** With a chunk size of zero and a positive [days_back] the loop of
    [get_date_ranges] never ends: no number of iterations gives a
    result. *)
Theorem get_date_ranges_zero_chunk fuel days_back t :
  (0 < days_back)%Z ->
  get_date_ranges isoformat today fuel days_back 0 t = (Ok None, S t).
Proof.
  intros Hd. unfold get_date_ranges, bind, ask, ret.
  assert (H : forall cur acc,
             ranges_loop isoformat fuel 0 cur days_back acc = None).
  { induction fuel as [|f IH]; intros cur acc; cbn [ranges_loop];
      replace (days_back >? 0)%Z with true
        by (symmetry; apply Z.gtb_lt; assumption); [reflexivity|].
    replace (Z.min 0 days_back) with 0%Z by lia.
    rewrite !Z.sub_0_r. apply IH. }
  rewrite H. reflexivity.
Qed.

End DateRangesFacts.

Lemma get_date_ranges_partition_witness :
  exists zr,
    Utils.get_date_ranges (fun d => "day") (fun _ => 1000%Z) 70 70 30 0%nat
    = (Ok (Some (map (Utils.iso_range (fun d => "day")) zr)), 1%nat)
    /\ Utils.partition_of 930 1000 zr.
Proof.
  destruct (get_date_ranges_partition (fun d => "day") (fun _ => 1000%Z) 70 70
              30 0%nat) as (zr & Hrun & Hpart & _);
    [lia|lia|unfold Utils.date_min; lia|unfold Utils.date_max; lia
    |reflexivity|].
  exists zr. split; [exact Hrun|exact Hpart].
Defined.

Lemma get_date_ranges_zero_chunk_witness :
  Utils.get_date_ranges (fun d => "day") (fun _ => 1000%Z) 500 7 0 0%nat
  = (Ok None, 1%nat).
Proof.
  apply (get_date_ranges_zero_chunk (fun d => "day") (fun _ => 1000%Z) 500 7
           0%nat).
  lia.
Defined.

Section ScoreFacts.
Import Utils.

Lemma py_min_le a b : (py_min a b <= a)%Q /\ (py_min a b <= b)%Q.
Proof.
  unfold py_min. destruct (Qle_bool a b) eqn:E.
  - apply Qle_bool_iff in E. split; [apply Qle_refl|assumption].
  - split; [|apply Qle_refl].
    destruct (Qlt_le_dec b a) as [H|H]; [apply Qlt_le_weak; assumption|].
    apply Qle_bool_iff in H. congruence.
Qed.

Lemma py_max_ge a b : (a <= py_max a b)%Q /\ (b <= py_max a b)%Q.
Proof.
  unfold py_max. destruct (Qle_bool b a) eqn:E.
  - apply Qle_bool_iff in E. split; [apply Qle_refl|assumption].
  - split; [|apply Qle_refl].
    destruct (Qlt_le_dec a b) as [H|H]; [apply Qlt_le_weak; assumption|].
    apply Qle_bool_iff in H. congruence.
Qed.

(** [calculate_utilization_score] always lies between 0 and 100, and for
    utilizations between 0 and 100 it is the weighted average itself: half
    the CPU, two fifths of the memory, a tenth of the network. *)
Theorem calculate_utilization_score_bounds cpu mem net :
  (0 <= calculate_utilization_score cpu mem net <= 100)%Q
  /\ ((0 <= cpu <= 100)%Q -> (0 <= mem <= 100)%Q -> (0 <= net <= 100)%Q ->
      (calculate_utilization_score cpu mem net
       == cpu * (1 # 2) + mem * (2 # 5) + net * (1 # 10))%Q).
Proof.
  unfold calculate_utilization_score.
  set (score := (cpu * (5 # 10) + mem * (4 # 10) + net * (1 # 10))%Q).
  split.
  - split.
    + unfold py_min. destruct (Qle_bool 100 (py_max 0 score));
        [discriminate|apply py_max_ge].
    + apply py_min_le.
  - intros [Hc0 Hc1] [Hm0 Hm1] [Hn0 Hn1].
    assert (Hw : forall x w : Q, (0 <= x <= 100)%Q -> (0 <= w)%Q ->
                 (0 <= x * w <= 100 * w)%Q).
    { intros x w [Hx0 Hx1] Hw0. split.
      - apply Qmult_le_0_compat; assumption.
      - apply Qmult_le_compat_r; assumption. }
    destruct (Hw cpu (5 # 10) (conj Hc0 Hc1)) as [Ha0 Ha1];
      [unfold Qle; cbn; lia|].
    destruct (Hw mem (4 # 10) (conj Hm0 Hm1)) as [Hb0 Hb1];
      [unfold Qle; cbn; lia|].
    destruct (Hw net (1 # 10) (conj Hn0 Hn1)) as [Hd0 Hd1];
      [unfold Qle; cbn; lia|].
    assert (H0 : (0 <= score)%Q).
    { eapply Qle_trans;
        [|exact (Qplus_le_compat _ _ _ _
                   (Qplus_le_compat _ _ _ _ Ha0 Hb0) Hd0)].
      unfold Qle; cbn; lia. }
    assert (H1 : (score <= 100)%Q).
    { eapply Qle_trans;
        [exact (Qplus_le_compat _ _ _ _
                  (Qplus_le_compat _ _ _ _ Ha1 Hb1) Hd1)|].
      unfold Qle; cbn; lia. }
    assert (Hmax : py_max 0 score = score \/ (score == 0)%Q /\ py_max 0 score = 0%Q).
    { unfold py_max. destruct (Qle_bool score 0) eqn:E; [|left; reflexivity].
      right. apply Qle_bool_iff in E. split; [|reflexivity].
      apply Qle_antisym; assumption. }
    assert (Hres : (py_min 100 (py_max 0 score) == score)%Q).
    { unfold py_min.
      destruct (Qle_bool 100 (py_max 0 score)) eqn:E.
      - apply Qle_bool_iff in E.
        destruct Hmax as [Hm|[Hz Hm]]; rewrite Hm in E.
        + apply Qle_antisym; assumption.
        + exfalso. revert E. unfold Qle; cbn; lia.
      - destruct Hmax as [Hm|[Hz Hm]]; rewrite Hm;
          [reflexivity|symmetry; assumption]. }
    rewrite Hres. unfold score. ring.
Qed.

Section FormatBytesFacts.
Variable fmt2 : Q -> string.

Lemma format_loop_spec units b :
  exists k,
    (k <= List.length units)%nat
    /\ format_loop fmt2 units b
       = (fmt2 (scaled b k) ++ " " ++ nth k units "PB")%string
    /\ ((k < List.length units)%nat -> (scaled b k < 1024)%Q)
    /\ (forall j, (j < k)%nat -> (1024 <= scaled b j)%Q).
Proof.
  revert b. induction units as [|u units IH]; intros b.
  - exists 0%nat. cbn. repeat split; try lia.
  - cbn [format_loop]. destruct (Qle_bool 1024 b) eqn:E; cbn [negb].
    + apply Qle_bool_iff in E.
      destruct (IH (b / 1024)%Q) as (k & Hk & Hrun & Hlt & Hge).
      exists (S k). cbn [List.length nth scaled]. repeat split.
      * lia.
      * exact Hrun.
      * intros H. apply Hlt. lia.
      * intros [|j] Hj; cbn [scaled]; [assumption|apply Hge; lia].
    + exists 0%nat. cbn [List.length nth scaled]. repeat split.
      * lia.
      * intros _. apply Qnot_le_lt. intros H.
        apply Qle_bool_iff in H. congruence.
      * intros j Hj; lia.
Qed.

Lemma scaled_power b k :
  (scaled b k * inject_Z (1024 ^ Z.of_nat k) == b)%Q.
Proof.
  revert b. induction k as [|k IH]; intros b.
  - cbn. ring.
  - cbn [scaled]. rewrite Nat2Z.inj_succ, Z.pow_succ_r by lia.
    rewrite inject_Z_mult.
    transitivity (scaled (b / 1024) k * inject_Z (1024 ^ Z.of_nat k) * 1024)%Q;
      [ring|].
    rewrite IH. field.
Qed.

(** [format_bytes] divides by 1024 until the value is below 1024 or the
    units run out: it prints the value after [k] divisions with the
    [k]-th unit, where every earlier value was at least 1024 and, unless
    the unit is PB, the printed one is below 1024; in particular a value
    below 1024, negative ones included, is printed in B. *)
Theorem format_bytes_unit b :
  exists k,
    (k <= 5)%nat
    /\ format_bytes fmt2 b
       = (fmt2 (scaled b k) ++ " "
          ++ nth k ["B"; "KB"; "MB"; "GB"; "TB"] "PB")%string
    /\ (scaled b k * inject_Z (1024 ^ Z.of_nat k) == b)%Q
    /\ ((k < 5)%nat -> (scaled b k < 1024)%Q)
    /\ (forall j, (j < k)%nat -> (1024 <= scaled b j)%Q)
    /\ ((b < 1024)%Q -> format_bytes fmt2 b = (fmt2 b ++ " B")%string).
Proof.
  destruct (format_loop_spec ["B"; "KB"; "MB"; "GB"; "TB"] b)
    as (k & Hk & Hrun & Hlt & Hge).
  exists k. split; [exact Hk|]. split; [exact Hrun|].
  split; [apply scaled_power|]. split; [exact Hlt|]. split; [exact Hge|].
  intros Hb. unfold format_bytes. cbn [format_loop].
  destruct (Qle_bool 1024 b) eqn:E; [|reflexivity].
  apply Qle_bool_iff in E. exfalso. apply (Qlt_not_le _ _ Hb E).
Qed.

End FormatBytesFacts.
End ScoreFacts.

(** ** The cost estimates of [src/data_collection/Untitled-7.py] *)

Section AnalysisFacts.
Import CloudWatchAnalysis.

(** The tiered price of custom metrics never goes down when metrics are
    added and never exceeds the flat price of 0.30 per metric; 10,000
    metrics cost 3000 and 12,000 cost 3200. *)
Theorem metric_cost_tiers n m :
  (n <= m)%Z ->
  (metric_cost n <= metric_cost m)%Q
  /\ ((0 <= n)%Z -> (metric_cost n <= inject_Z n * (30 # 100))%Q)
  /\ (metric_cost 10000 == 3000)%Q
  /\ (metric_cost 12000 == 3200)%Q.
Proof.
  intros Hnm. split; [|split; [|split]].
  - unfold metric_cost.
    destruct (Z.leb_spec n 10000), (Z.leb_spec m 10000);
      unfold Qle, Qmult, Qplus, inject_Z; cbn [Qnum Qden]; lia.
  - intros Hn. unfold metric_cost.
    destruct (Z.leb_spec n 10000);
      unfold Qle, Qmult, Qplus, inject_Z; cbn [Qnum Qden]; lia.
  - unfold Qeq. vm_compute. reflexivity.
  - unfold Qeq. vm_compute. reflexivity.
Qed.

Lemma snoc_not_nil {A} (l : list A) x : l ++ [x] <> [].
Proof. destruct l; discriminate. Qed.

Lemma never_expire_none log_groups :
  filter never_expires log_groups = []
  <-> Forall (fun lg => retention_days lg <> None) log_groups.
Proof.
  induction log_groups as [|lg lgs IH]; cbn.
  - split; [constructor|reflexivity].
  - unfold never_expires at 1. destruct (retention_days lg) eqn:E.
    + rewrite IH. split.
      * intros H. constructor; [congruence|assumption].
      * intros H. inversion H; assumption.
    + split; [discriminate|]. intros H. inversion H; congruence.
Qed.

Lemma retention_step_none (recs : list Recommendation) log_groups :
  match log_groups with
  | _ :: _ =>
      match filter never_expires log_groups with
      | _ :: _ =>
          recs ++ [SetRetention
                     (List.length (filter never_expires log_groups))]
      | [] => recs
      end
  | [] => recs
  end = []
  <-> recs = []
      /\ Forall (fun lg => retention_days lg <> None) log_groups.
Proof.
  rewrite <- never_expire_none. destruct log_groups as [|lg lgs].
  - cbn. tauto.
  - destruct (filter never_expires (lg :: lgs)) as [|x xs].
    + tauto.
    + split; [intros H; exfalso; revert H; apply snoc_not_nil|].
      intros [_ H]; discriminate H.
Qed.

(** [analyze_cloudwatch_costs] has no recommendation to make exactly when
    there are at most 100 custom metrics, at most 10 high-resolution alarms
    and no log group that never expires. *)
Theorem recommendations_none total_custom alarm_stats log_groups :
  recommendations total_custom alarm_stats log_groups = []
  <-> (total_custom <= 100)%Z
      /\ (high_resolution_alarms alarm_stats <= 10)%Z
      /\ Forall (fun lg => retention_days lg <> None) log_groups.
Proof.
  unfold recommendations. cbv zeta. rewrite retention_step_none.
  destruct (Z.gtb_spec total_custom 100) as [H1|H1];
    destruct (Z.gtb_spec (high_resolution_alarms alarm_stats) 10) as [H2|H2];
    cbn [app]; split;
    try (intros [H _]; discriminate H);
    try (intros (Ha & Hb & _); exfalso; lia).
  - intros [_ H]. repeat split; try lia. assumption.
  - intros (_ & _ & H). split; [reflexivity|assumption].
Qed.

End AnalysisFacts.

Lemma metric_cost_tiers_witness :
  (CloudWatchAnalysis.metric_cost 10000
   <= CloudWatchAnalysis.metric_cost 12000)%Q.
Proof.
  apply (proj1 (metric_cost_tiers 10000 12000 ltac:(lia))).
Defined.

(** ** Persistence *)

Section StorageFacts.
Import Storage.
Variable s3_client : nat -> PutObject -> result unit.
Variable dynamodb_put_item : nat -> string -> pyval -> result unit.
Variable str_float : Q -> string.

Lemma truthy_some bucket :
  bucket <> "" -> CloudWatch.truthy (Some bucket) = Some bucket.
Proof.
  intros H. unfold CloudWatch.truthy.
  destruct (String.eqb_spec bucket ""); [contradiction|reflexivity].
Qed.

Lemma slices_of_iso_date y m d rest :
  String.length y = 4%nat -> String.length m = 2%nat ->
  String.length d = 2%nat ->
  slice (y ++ "-" ++ m ++ "-" ++ d ++ rest) 0 4 = y
  /\ slice (y ++ "-" ++ m ++ "-" ++ d ++ rest) 5 7 = m
  /\ slice (y ++ "-" ++ m ++ "-" ++ d ++ rest) 8 10 = d.
Proof.
  intros Hy Hm Hd.
  destruct y as [|y1 [|y2 [|y3 [|y4 [|? ?]]]]]; try discriminate.
  destruct m as [|m1 [|m2 [|? ?]]]; try discriminate.
  destruct d as [|d1 [|d2 [|? ?]]]; try discriminate.
  unfold slice. cbn. repeat split; destruct rest; reflexivity.
Qed.

(** For a date string that starts [YYYY-MM-DD] and a configured bucket, each
    of the three stores puts its object under
    [raw/<domain>/year=YYYY/month=MM/day=DD/<file>] in that bucket and
    returns that key, when S3 accepts the object. *)
Theorem store_keys_partitioned y m d rest bucket t :
  String.length y = 4%nat -> String.length m = 2%nat ->
  String.length d = 2%nat -> bucket <> "" ->
  (forall json_dumps data,
     s3_client t
       {| Bucket := bucket;
          Key := "raw/cost-explorer/year=" ++ y ++ "/month=" ++ m
                 ++ "/day=" ++ d ++ "/data.json";
          Body := json_dumps data;
          ContentType := "application/json" |} = Ok tt ->
     store_to_s3 s3_client json_dumps (Some bucket) data
       (y ++ "-" ++ m ++ "-" ++ d ++ rest) t
     = (Ok ("raw/cost-explorer/year=" ++ y ++ "/month=" ++ m
            ++ "/day=" ++ d ++ "/data.json")%string, S t))
  /\ (forall to_parquet row df,
        s3_client t
          {| Bucket := bucket;
             Key := "raw/cloudwatch-metrics/year=" ++ y ++ "/month=" ++ m
                    ++ "/day=" ++ d ++ "/metrics.parquet";
             Body := to_parquet (row :: df);
             ContentType := "application/octet-stream" |} = Ok tt ->
        store_metrics_to_s3 s3_client to_parquet (Some bucket) (row :: df)
          (y ++ "-" ++ m ++ "-" ++ d ++ rest) t
        = (Ok ("raw/cloudwatch-metrics/year=" ++ y ++ "/month=" ++ m
               ++ "/day=" ++ d ++ "/metrics.parquet")%string, S t))
  /\ (forall (Inventory : Type) (json_dumps : Inventory -> string) inventory,
        s3_client t
          {| Bucket := bucket;
             Key := "raw/inventory/year=" ++ y ++ "/month=" ++ m
                    ++ "/day=" ++ d ++ "/inventory.json";
             Body := json_dumps inventory;
             ContentType := "application/json" |} = Ok tt ->
        store_inventory_to_s3 s3_client json_dumps (Some bucket) inventory
          (y ++ "-" ++ m ++ "-" ++ d ++ rest) t
        = (Ok ("raw/inventory/year=" ++ y ++ "/month=" ++ m
               ++ "/day=" ++ d ++ "/inventory.json")%string, S t)).
Proof.
  intros Hy Hm Hd Hb.
  destruct (slices_of_iso_date y m d rest Hy Hm Hd) as (Sy & Sm & Sd).
  repeat split.
  - intros json_dumps data Hput. unfold store_to_s3.
    rewrite (truthy_some bucket Hb), Sy, Sm, Sd.
    unfold try_except, bind, put_object, ask, ret. rewrite Hput. reflexivity.
  - intros to_parquet row df Hput. unfold store_metrics_to_s3.
    rewrite (truthy_some bucket Hb), Sy, Sm, Sd.
    unfold try_except, bind, put_object, ask, ret. rewrite Hput. reflexivity.
  - intros Inventory json_dumps inventory Hput. unfold store_inventory_to_s3.
    rewrite (truthy_some bucket Hb), Sy, Sm, Sd.
    unfold try_except, bind, put_object, ask, ret. rewrite Hput. reflexivity.
Qed.

(** Without a bucket (none, or the empty string) the three S3 stores raise
    a [ValueError] before S3 is called, the metrics store even for an empty
    table; without a table name so does the DynamoDB store. *)
Theorem stores_need_configuration name t :
  CloudWatch.truthy name = None ->
  (forall json_dumps data date_str,
     store_to_s3 s3_client json_dumps name data date_str t
     = (Raise (ValueError "S3 bucket not configured"), t))
  /\ (forall to_parquet df date_str,
        store_metrics_to_s3 s3_client to_parquet name df date_str t
        = (Raise (ValueError "S3 bucket not configured"), t))
  /\ (forall (Inventory : Type) (json_dumps : Inventory -> string) inventory
             date_str,
        store_inventory_to_s3 s3_client json_dumps name inventory date_str t
        = (Raise (ValueError "S3 bucket not configured"), t))
  /\ (forall summary_data,
        store_to_dynamodb dynamodb_put_item str_float name summary_data t
        = (Raise (ValueError "DynamoDB table not configured"), t)).
Proof.
  intros H. repeat split; intros;
    unfold store_to_s3, store_metrics_to_s3, store_inventory_to_s3,
      store_to_dynamodb; rewrite H; reflexivity.
Qed.

(** With a bucket configured, [store_metrics_to_s3] on an empty table
    returns the empty key and does not call S3. *)
Theorem store_metrics_to_s3_empty to_parquet bucket date_str t :
  bucket <> "" ->
  store_metrics_to_s3 s3_client to_parquet (Some bucket) [] date_str t
  = (Ok "", t).
Proof.
  intros Hb. unfold store_metrics_to_s3. rewrite (truthy_some bucket Hb).
  reflexivity.
Qed.

Lemma pyval_induction (P : pyval -> Prop) :
  P PNone -> (forall b, P (PBool b)) -> (forall z, P (PInt z)) ->
  (forall q, P (PFloat q)) -> (forall s, P (PStr s)) ->
  (forall s, P (PDecimal s)) ->
  (forall l, Forall P l -> P (PList l)) ->
  (forall d, Forall (fun kv => P (snd kv)) d -> P (PDict d)) ->
  forall v, P v.
Proof.
  intros HNone HBool HInt HFloat HStr HDec HList HDict.
  fix IH 1. intros [ | b | z | q | s | s | l | d];
    [apply HNone|apply HBool|apply HInt|apply HFloat|apply HStr|apply HDec| | ].
  - apply HList. induction l as [|x l IHl]; constructor; [apply IH|exact IHl].
  - apply HDict. induction d as [|[k x] d IHd]; constructor;
      [apply IH|exact IHd].
Qed.

Lemma convert_floats_no_float v : has_float (convert_floats str_float v) = false.
Proof.
  induction v as [ | | | | | | l IH | d IH] using pyval_induction;
    try reflexivity.
  - cbn. induction IH as [|x l Hx _ IHl]; [reflexivity|].
    cbn. rewrite Hx. exact IHl.
  - cbn. induction IH as [|[k x] d Hx _ IHd]; [reflexivity|].
    cbn in *. rewrite Hx. exact IHd.
Qed.

Lemma convert_floats_fixes v :
  has_float v = false -> convert_floats str_float v = v.
Proof.
  induction v as [ | | | | | | l IH | d IH] using pyval_induction;
    try reflexivity; try discriminate.
  - cbn. intros H. f_equal. induction IH as [|x l Hx _ IHl]; [reflexivity|].
    cbn in H. apply orb_false_elim in H. destruct H as [H1 H2].
    cbn. rewrite (Hx H1), (IHl H2). reflexivity.
  - cbn. intros H. f_equal.
    induction IH as [|[k x] d Hx _ IHd]; [reflexivity|].
    cbn in H. apply orb_false_elim in H. destruct H as [H1 H2].
    cbn in *. rewrite (Hx H1), (IHd H2). reflexivity.
Qed.

(** [convert_floats] leaves no float anywhere in the value, changes nothing
    in a value without floats, so converting twice is converting once;
    a dictionary keeps its keys in order. *)
Theorem convert_floats_removes_floats v :
  has_float (convert_floats str_float v) = false
  /\ (has_float v = false -> convert_floats str_float v = v)
  /\ convert_floats str_float (convert_floats str_float v)
     = convert_floats str_float v
  /\ (forall d d',
        v = PDict d -> convert_floats str_float v = PDict d' ->
        map fst d' = map fst d).
Proof.
  split; [apply convert_floats_no_float|].
  split; [apply convert_floats_fixes|].
  split; [apply convert_floats_fixes, convert_floats_no_float|].
  intros d d' -> H. cbn in H. inversion H; subst.
  rewrite map_map. apply map_ext. intros [k x]. reflexivity.
Qed.

End StorageFacts.

Section CollectLastNDays.
Import Storage.
Variable s3_client : nat -> PutObject -> result unit.
Variable dynamodb_put_item : nat -> string -> pyval -> result unit.
Variable str_float : Q -> string.
Variable ce_client : nat -> CostRequest -> result CostExplorer.Response.
Variable float_ : string -> option Q.
Variable today : nat -> Z.
Variable clock : nat -> string.
Variable date_isoformat : Z -> string.
Variable json_dumps : CostExplorer.Response -> string.

Lemma fetch_cost_data_run start_date end_date granularity group_by t :
  fetch_cost_data ce_client start_date end_date granularity group_by t
  = (ce_client t
       {| rStart := start_date;
          rEnd := end_date;
          rGranularity := granularity;
          rMetrics := CostExplorer.requested_metrics;
          rGroupBy :=
            match group_by with
            | Some g => g
            | None => [("DIMENSION", "SERVICE"); ("DIMENSION", "RESOURCE_ID")]
            end;
          rFilter := ("RECORD_TYPE", ["Usage"]) |}, S t).
Proof.
  unfold fetch_cost_data, try_except, ask, raise.
  destruct (ce_client t _); reflexivity.
Qed.

(** Whatever storage is configured, the records [collect_last_n_days]
    returns are those of [process_cost_data] on the response to one
    request: daily usage costs by service and resource for the [days] days
    up to today. *)
Theorem collect_last_n_days_summaries s3_bucket dynamodb_table days t
    summaries t' :
  collect_last_n_days s3_client dynamodb_put_item str_float ce_client float_
    today clock date_isoformat json_dumps s3_bucket dynamodb_table days t
  = (Ok summaries, t') ->
  exists raw_data t1 t2,
    ce_client (S t) (window_request date_isoformat (today t) days) = Ok raw_data
    /\ CostExplorer.process_cost_data float_ clock raw_data t1
       = (Ok summaries, t2).
Proof.
  unfold collect_last_n_days. unfold bind at 1, ask. unfold bind at 1.
  rewrite fetch_cost_data_run. fold (window_request date_isoformat (today t) days).
  destruct (ce_client (S t) (window_request date_isoformat (today t) days)) as [raw|e];
    [|discriminate].
  unfold bind at 1.
  match goal with
  | |- context [match ?m (S (S t)) with _ => _ end] =>
      destruct (m (S (S t))) as [[u|e] t1]
  end; [|discriminate].
  unfold bind at 1.
  destruct (CostExplorer.process_cost_data float_ clock raw t1)
    as [[s|e] t2] eqn:Hp; [|discriminate].
  unfold bind at 1.
  match goal with
  | |- context [match ?m t2 with _ => _ end] =>
      destruct (m t2) as [[u'|e] t3]
  end; [|discriminate].
  unfold ret. intros H. inversion H; subst.
  exists raw, t1, t2. split; [reflexivity|exact Hp].
Qed.


End CollectLastNDays.

Lemma store_keys_partitioned_witness :
  Storage.store_to_s3 Examples.s3_accepts (fun _ => "{}") (Some "lake")
    Examples.two_by_two "2024-03-09T10:00:00" 0%nat
  = (Ok "raw/cost-explorer/year=2024/month=03/day=09/data.json", 1%nat).
Proof.
  apply (proj1 (store_keys_partitioned Examples.s3_accepts "2024" "03" "09"
                  "T10:00:00" "lake" 0%nat eq_refl eq_refl eq_refl
                  ltac:(discriminate))
           (fun _ => "{}") Examples.two_by_two).
  reflexivity.
Defined.

Lemma stores_need_configuration_witness :
  Storage.store_metrics_to_s3 Examples.s3_accepts (fun _ => "") (Some "") []
    "2024-03-09" 0%nat
  = (Raise (ValueError "S3 bucket not configured"), 0%nat).
Proof.
  apply (proj1 (proj2 (stores_need_configuration Examples.s3_accepts
                         Examples.dynamodb_accepts (fun _ => "0") (Some "")
                         0%nat eq_refl))).
Defined.

Lemma store_metrics_to_s3_empty_witness :
  Storage.store_metrics_to_s3 Examples.s3_accepts (fun _ => "") (Some "lake")
    [] "2024-03-09" 7%nat = (Ok "", 7%nat).
Proof.
  apply (store_metrics_to_s3_empty Examples.s3_accepts). discriminate.
Defined.

Lemma collect_last_n_days_summaries_witness :
  exists summaries t',
    Storage.collect_last_n_days Examples.s3_accepts Examples.dynamodb_accepts
      (fun _ => "0") Examples.ce_two_by_two float_decimal (fun _ => 19800%Z)
      Examples.clock_iso (fun _ => "2024-03-09") (fun _ => "{}")
      (Some "lake") (Some "summaries") 90 0%nat = (Ok summaries, t')
    /\ exists raw_data t1 t2,
         CostExplorer.process_cost_data float_decimal Examples.clock_iso
           raw_data t1 = (Ok summaries, t2).
Proof.
  assert (Hrun : exists summaries t',
             Storage.collect_last_n_days Examples.s3_accepts
               Examples.dynamodb_accepts (fun _ => "0") Examples.ce_two_by_two
               float_decimal (fun _ => 19800%Z) Examples.clock_iso
               (fun _ => "2024-03-09") (fun _ => "{}") (Some "lake")
               (Some "summaries") 90 0%nat = (Ok summaries, t'))
    by (eexists; eexists; vm_compute; reflexivity).
  destruct Hrun as (summaries & t' & Hrun). exists summaries, t'.
  split; [exact Hrun|].
  destruct (collect_last_n_days_summaries _ _ _ _ _ _ _ _ _ _ _ _ _ _ _
              Hrun) as (raw & t1 & t2 & _ & Hp).
  exists raw, t1, t2. exact Hp.
Defined.


(** ** The scans of the inventory collector *)

Lemma for_in_flat_map {A B S} (f : A -> list B) (body : B -> S -> M S) xs s t :
  for_in (flat_map f xs) body s t
  = for_in xs (fun x s => for_in (f x) body s) s t.
Proof.
  revert s t. induction xs as [|x xs IH]; intros s t; cbn; [reflexivity|].
  rewrite for_in_app. unfold bind.
  destruct (for_in (f x) body s t) as [[s1|e] t1]; [apply IH|reflexivity].
Qed.

Lemma Forall2_map_eq {A B C} (f : A -> C) (g : B -> C) xs ys :
  Forall2 (fun x y => g y = f x) xs ys -> map g ys = map f xs.
Proof. induction 1; cbn; congruence. Qed.

Section ScanFacts.
Import InventoryScans.
Variable ec2_pages : nat -> result (list EC2.Page).
Variable rds_pages : nat -> result (list RDS.Page).
Variable lambda_pages : nat -> result (list Lambda.Page).
Variable clock : nat -> string.
Variable isoformat : Z -> string.

(** A scan loop that turns each listed resource into one record. *)
Lemma scan_loop {A D} (data : A -> M D) (wrap : D -> ResourceRecord)
    (P : A -> ResourceRecord -> Prop) xs :
  (forall x t, In x xs ->
     exists d t', data x t = (Ok d, t') /\ P x (wrap d)) ->
  forall acc t,
  exists recs t',
    for_in xs (fun x acc => d <- data x ;; ret (acc ++ [wrap d])) acc t
    = (Ok (acc ++ recs), t')
    /\ Forall2 P xs recs.
Proof.
  intros Hdata acc t.
  destruct (for_in_appends (fun x bs => exists r, bs = [r] /\ P x r)
              (fun x acc => d <- data x ;; ret (acc ++ [wrap d])) xs)
    with (acc := acc) (t := t) as (bss & t' & Hrun & Hall).
  - intros x a u Hin. destruct (Hdata x u Hin) as (d & u' & Hd & HP).
    exists [wrap d], u'. split; [|eauto].
    unfold bind, ret. rewrite Hd. reflexivity.
  - exists (List.concat bss), t'. split; [exact Hrun|].
    apply Forall2_singletons. exact Hall.
Qed.

(** When its paginator lists, each scan returns one record per listed
    resource, in listing order, with the resource's identifier and the
    resource type of the scan; for the Lambda scan provided no function
    has an empty list of architectures. *)
Theorem scans_list_every_resource t :
  (forall pages,
     ec2_pages t = Ok pages ->
     exists recs t',
       scan_ec2_instances ec2_pages clock isoformat t = (Ok recs, t')
       /\ map record_id recs = map EC2.InstanceId (all_instances pages)
       /\ Forall (fun r => record_type r = "EC2") recs)
  /\ (forall pages,
        rds_pages t = Ok pages ->
        exists recs t',
          scan_rds_instances rds_pages clock t = (Ok recs, t')
          /\ map record_id recs
             = map RDS.DBInstanceIdentifier (all_db_instances pages)
          /\ Forall (fun r => record_type r = "RDS") recs)
  /\ (forall pages,
        lambda_pages t = Ok pages ->
        Forall (fun f => Lambda.Architectures f <> Some [])
               (all_functions pages) ->
        exists recs t',
          scan_lambda_functions lambda_pages clock t = (Ok recs, t')
          /\ map record_id recs
             = map Lambda.FunctionName (all_functions pages)
          /\ Forall (fun r => record_type r = "Lambda") recs).
Proof.
  repeat split.
  - intros pages Hp.
    destruct (scan_loop (ec2_instance_data clock isoformat) OfEC2
                (fun i r => record_id r = EC2.InstanceId i
                            /\ record_type r = "EC2")
                (all_instances pages)) with (acc := @nil ResourceRecord)
                                            (t := S t)
      as (recs & t' & Hrun & Hall).
    { intros i u _. eexists. eexists. split; [reflexivity|]. cbn. auto. }
    exists recs, t'. split.
    + unfold scan_ec2_instances, try_except, bind at 1, ask. rewrite Hp.
      unfold all_instances in Hrun. rewrite for_in_flat_map in Hrun.
      erewrite for_in_ext; [rewrite Hrun; reflexivity|].
      intros page s u _. cbn beta. symmetry. apply for_in_flat_map.
    + split.
      * apply Forall2_map_eq. eapply Forall2_impl; [|exact Hall].
        intros ? ? [H _]; exact H.
      * clear -Hall. induction Hall as [|? ? ? ? [_ H]]; constructor;
          assumption.
  - intros pages Hp.
    destruct (scan_loop (rds_instance_data clock) OfRDS
                (fun i r => record_id r = RDS.DBInstanceIdentifier i
                            /\ record_type r = "RDS")
                (all_db_instances pages)) with (acc := @nil ResourceRecord)
                                               (t := S t)
      as (recs & t' & Hrun & Hall).
    { intros i u _. eexists. eexists. split; [reflexivity|]. cbn. auto. }
    exists recs, t'. split.
    + unfold scan_rds_instances, try_except, bind at 1, ask. rewrite Hp.
      unfold all_db_instances in Hrun. rewrite for_in_flat_map in Hrun.
      rewrite Hrun. reflexivity.
    + split.
      * apply Forall2_map_eq. eapply Forall2_impl; [|exact Hall].
        intros ? ? [H _]; exact H.
      * clear -Hall. induction Hall as [|? ? ? ? [_ H]]; constructor;
          assumption.
  - intros pages Hp Harch.
    destruct (scan_loop (lambda_function_data clock) OfLambda
                (fun f r => record_id r = Lambda.FunctionName f
                            /\ record_type r = "Lambda")
                (all_functions pages)) with (acc := @nil ResourceRecord)
                                            (t := S t)
      as (recs & t' & Hrun & Hall).
    { intros f u Hin. rewrite Forall_forall in Harch.
      specialize (Harch f Hin).
      unfold lambda_function_data, first_architecture, or_default, bind.
      destruct (Lambda.Architectures f) as [[|a l]|]; [congruence| |];
        eexists; eexists; (split; [reflexivity|]); cbn; auto. }
    exists recs, t'. split.
    + unfold scan_lambda_functions, try_except, bind at 1, ask. rewrite Hp.
      unfold all_functions in Hrun. rewrite for_in_flat_map in Hrun.
      rewrite Hrun. reflexivity.
    + split.
      * apply Forall2_map_eq. eapply Forall2_impl; [|exact Hall].
        intros ? ? [H _]; exact H.
      * clear -Hall. induction Hall as [|? ? ? ? [_ H]]; constructor;
          assumption.
Qed.

(** A failure of a paginator reaches the caller of the scan unchanged. *)
Theorem scans_reraise t e :
  (ec2_pages t = Raise e ->
   scan_ec2_instances ec2_pages clock isoformat t = (Raise e, S t))
  /\ (rds_pages t = Raise e ->
      scan_rds_instances rds_pages clock t = (Raise e, S t))
  /\ (lambda_pages t = Raise e ->
      scan_lambda_functions lambda_pages clock t = (Raise e, S t)).
Proof.
  repeat split; intros H;
    unfold scan_ec2_instances, scan_rds_instances, scan_lambda_functions,
      try_except, bind at 1, ask; rewrite H; reflexivity.
Qed.

Lemma scan_lambda_empty_architectures pages f t :
  lambda_pages t = Ok pages -> In f (all_functions pages) ->
  Lambda.Architectures f = Some [] ->
  exists e t', scan_lambda_functions lambda_pages clock t = (Raise e, t').
Proof.
  intros Hp Hin Ha.
  destruct (for_in_raises
              (fun function functions =>
                 function_data <- lambda_function_data clock function ;;
                 ret (functions ++ [OfLambda function_data]))
              (all_functions pages) f Hin) with (s := @nil ResourceRecord)
                                                (t := S t)
    as (e & t' & Hr).
  - intros s u. unfold bind, lambda_function_data, first_architecture,
      or_default, bind. rewrite Ha. cbn. eauto.
  - exists e, t'. unfold scan_lambda_functions, try_except, bind at 1, ask.
    rewrite Hp. unfold all_functions in Hr. rewrite for_in_flat_map in Hr.
    rewrite Hr. reflexivity.
Qed.

(** A single Lambda function listed with an empty list of architectures
    makes [scan_lambda_functions] raise, and with it the whole
    [collect_full_inventory], whatever the other two scans return. *)
Theorem empty_architectures_abort_inventory pages f :
  (forall t, lambda_pages t = Ok pages) -> In f (all_functions pages) ->
  Lambda.Architectures f = Some [] ->
  forall t,
    (exists e t', scan_lambda_functions lambda_pages clock t = (Raise e, t'))
    /\ exists e t',
         ResourceInventoryCollector_collect_full_inventory ec2_pages
           rds_pages lambda_pages clock isoformat t = (Raise e, t').
Proof.
  intros Hp Hin Ha t. split.
  - eapply scan_lambda_empty_architectures; eauto.
  - unfold ResourceInventoryCollector_collect_full_inventory,
      Inventory.collect_full_inventory, bind.
    destruct (scan_ec2_instances ec2_pages clock isoformat t)
      as [[a|e] t1]; [|eauto].
    destruct (scan_rds_instances rds_pages clock t1) as [[b|e] t2]; [|eauto].
    destruct (scan_lambda_empty_architectures pages f t2 (Hp t2) Hin Ha)
      as (e & t' & ->).
    eauto.
Qed.

End ScanFacts.

Section InventoryReturns.
Import Inventory.
Variable ResourceRecord : Type.
Variables scan_ec2_instances scan_rds_instances scan_lambda_functions
  : M (list ResourceRecord).

(** [collect_full_inventory] returns exactly when the three scans return
    one after the other, and then it returns their three lists under the
    keys [ec2_instances], [rds_instances] and [lambda_functions], in that
    order. *)
Theorem collect_full_inventory_returns t inventory t' :
  collect_full_inventory ResourceRecord scan_ec2_instances scan_rds_instances
    scan_lambda_functions t = (Ok inventory, t')
  <-> exists ec2 t1 rds t2 lambda,
        scan_ec2_instances t = (Ok ec2, t1)
        /\ scan_rds_instances t1 = (Ok rds, t2)
        /\ scan_lambda_functions t2 = (Ok lambda, t')
        /\ inventory
           = [ ("ec2_instances", ec2); ("rds_instances", rds);
               ("lambda_functions", lambda) ].
Proof.
  unfold collect_full_inventory, bind, ret. split.
  - destruct (scan_ec2_instances t) as [[a|e] t1] eqn:Ha; [|discriminate].
    destruct (scan_rds_instances t1) as [[b|e] t2] eqn:Hb; [|discriminate].
    destruct (scan_lambda_functions t2) as [[c|e] t3] eqn:Hc; [|discriminate].
    intros H. inversion H; subst. exists a, t1, b, t2, c.
    repeat split; assumption.
  - intros (a & t1 & b & t2 & c & -> & -> & -> & ->). reflexivity.
Qed.

End InventoryReturns.

Lemma scans_list_every_resource_witness :
  exists recs t',
    InventoryScans.scan_lambda_functions Examples.lambda_listing
      Examples.clock_iso 0%nat = (Ok recs, t')
    /\ map InventoryScans.record_id recs = ["resize"; "notify"].
Proof.
  destruct (proj2 (proj2 (scans_list_every_resource Examples.no_ec2
                            Examples.no_rds Examples.lambda_listing
                            Examples.clock_iso (fun _ => "") 0%nat))
              _ eq_refl) as (recs & t' & Hrun & Hids & _).
  - repeat constructor; discriminate.
  - exists recs, t'. split; [exact Hrun|exact Hids].
Defined.

Lemma scans_reraise_witness :
  InventoryScans.scan_rds_instances Examples.rds_denied Examples.clock_iso
    3%nat = (Raise (ClientError "AccessDenied"), 4%nat).
Proof.
  apply (proj1 (proj2 (scans_reraise Examples.no_ec2 Examples.rds_denied
                         Examples.lambda_listing Examples.clock_iso
                         (fun _ => "") 3%nat (ClientError "AccessDenied")))).
  reflexivity.
Defined.

Lemma empty_architectures_abort_inventory_witness :
  exists e t',
    InventoryScans.ResourceInventoryCollector_collect_full_inventory
      Examples.no_ec2 Examples.no_rds Examples.lambda_listing_bad
      Examples.clock_iso (fun _ => "") 0%nat = (Raise e, t').
Proof.
  refine (proj2 (empty_architectures_abort_inventory Examples.no_ec2
                   Examples.no_rds Examples.lambda_listing_bad
                   Examples.clock_iso (fun _ => "") _
                   (Examples.lambda_function "broken" (Some []))
                   (fun _ => eq_refl) _ eq_refl 0%nat)).
  right. left. reflexivity.
Defined.

Lemma collect_full_inventory_returns_witness :
  Inventory.collect_full_inventory string (Examples.scan_ok ["i-1"])
    (Examples.scan_ok ["db-1"]) (Examples.scan_ok ["fn"]) 0%nat
  = (Ok [ ("ec2_instances", ["i-1"]); ("rds_instances", ["db-1"]);
          ("lambda_functions", ["fn"]) ], 3%nat).
Proof.
  apply (proj2 (collect_full_inventory_returns string
                  (Examples.scan_ok ["i-1"]) (Examples.scan_ok ["db-1"])
                  (Examples.scan_ok ["fn"]) 0%nat _ 3%nat)).
  exists ["i-1"], 1%nat, ["db-1"], 2%nat, ["fn"].
  repeat split; reflexivity.
Defined.

(** ** More on [process_cost_data] and [calculate_statistics] *)

Section ProcessCostDataErrors.
Import CostExplorer.
Variable float_ : string -> option Q.
Variable clock : nat -> string.

Lemma process_group_raises date g acc t :
  ~ amounts_ok float_ g ->
  exists e t', process_group float_ clock date g acc t = (Raise e, t').
Proof.
  intros Hno. unfold process_group, dict_item, float, bind, ret, raise.
  destruct (dict_get "AmortizedCost" (Metrics g)) as [ma|] eqn:Ha; [|eauto].
  destruct (float_ (Amount ma)) as [qa|] eqn:Fa; [|eauto].
  destruct (dict_get "UsageQuantity" (Metrics g)) as [mu|] eqn:Hu; [|eauto].
  destruct (float_ (Amount mu)) as [qu|] eqn:Fu; [|eauto].
  exfalso. apply Hno. split; eexists; eexists; eauto.
Qed.

(** [process_cost_data] is all or nothing: one group anywhere in the
    response that lacks the AmortizedCost or the UsageQuantity metric, or
    whose amount does not convert, makes the call raise, and no record of
    the other groups is returned. *)
Theorem process_cost_data_all_or_nothing raw tp g t :
  In (tp, g) (period_groups raw) -> ~ amounts_ok float_ g ->
  exists e t', process_cost_data float_ clock raw t = (Raise e, t').
Proof.
  intros Hin Hno. unfold period_groups in Hin.
  apply in_flat_map in Hin. destruct Hin as (tp' & Htp & Hg).
  apply in_map_iff in Hg. destruct Hg as (g' & Heq & Hg).
  inversion Heq; subst tp' g'.
  unfold process_cost_data. eapply for_in_raises; [exact Htp|].
  intros s u. unfold process_time_period.
  eapply for_in_raises; [exact Hg|].
  intros s' u'. apply process_group_raises. exact Hno.
Qed.

End ProcessCostDataErrors.

Lemma unique_from_NoDup seen l :
  NoDup l -> (forall x, In x l -> ~ In x seen) -> unique_from seen l = l.
Proof.
  revert seen. induction l as [|x l IH]; intros seen Hnd Hdis; [reflexivity|].
  inversion Hnd; subst. cbn.
  destruct (mem_string x seen) eqn:E.
  - apply mem_string_In in E. exfalso. apply (Hdis x); [left; reflexivity|].
    assumption.
  - f_equal. apply IH; [assumption|].
    intros y Hy [<-|Hs]; [contradiction|].
    apply (Hdis y); [right; assumption|assumption].
Qed.

Lemma unique_idempotent l : unique (unique l) = unique l.
Proof.
  unfold unique at 1. apply unique_from_NoDup.
  - apply NoDup_unique_from.
  - intros x _ [].
Qed.

Section SummaryFacts.
Import CloudWatch.
Variable sqrt : Q -> Q.

Lemma Qmin_le a b : (Qmin a b <= a)%Q /\ (Qmin a b <= b)%Q.
Proof.
  unfold Qmin. destruct (Qle_bool a b) eqn:E.
  - apply Qle_bool_iff in E. split; [apply Qle_refl|assumption].
  - split; [|apply Qle_refl].
    destruct (Qlt_le_dec b a) as [H|H]; [apply Qlt_le_weak; assumption|].
    apply Qle_bool_iff in H. congruence.
Qed.

Lemma Qmax_ge a b : (a <= Qmax a b)%Q /\ (b <= Qmax a b)%Q.
Proof.
  unfold Qmax. destruct (Qle_bool a b) eqn:E.
  - apply Qle_bool_iff in E. split; [assumption|apply Qle_refl].
  - split; [apply Qle_refl|].
    destruct (Qlt_le_dec b a) as [H|H]; [apply Qlt_le_weak; assumption|].
    apply Qle_bool_iff in H. congruence.
Qed.

Lemma fold_Qmin_le l a :
  (fold_left Qmin l a <= a)%Q
  /\ forall v, In v l -> (fold_left Qmin l a <= v)%Q.
Proof.
  revert a. induction l as [|x l IH]; intros a; cbn.
  - split; [apply Qle_refl|contradiction].
  - destruct (IH (Qmin a x)) as [H1 H2]. destruct (Qmin_le a x) as [Ha Hx].
    split; [eapply Qle_trans; eassumption|].
    intros v [<-|Hv]; [eapply Qle_trans; eassumption|apply H2; assumption].
Qed.

Lemma fold_Qmax_ge l a :
  (a <= fold_left Qmax l a)%Q
  /\ forall v, In v l -> (v <= fold_left Qmax l a)%Q.
Proof.
  revert a. induction l as [|x l IH]; intros a; cbn.
  - split; [apply Qle_refl|contradiction].
  - destruct (IH (Qmax a x)) as [H1 H2]. destruct (Qmax_ge a x) as [Ha Hx].
    split; [eapply Qle_trans; eassumption|].
    intros v [<-|Hv]; [eapply Qle_trans; eassumption|apply H2; assumption].
Qed.

(** The mapping [calculate_statistics] returns lists the resources in
    order of first appearance in the table and, under each resource, its
    metrics in order of first appearance; and in every summary the minimum
    is at most, and the maximum at least, every value summarized. *)
Theorem calculate_statistics_order_and_range df :
  keys (calculate_statistics sqrt df) = unique (map resource_id df)
  /\ (forall rid rs,
        dict_get rid (calculate_statistics sqrt df) = Some rs ->
        keys rs
        = unique (map metric_name
                      (filter (fun r => String.eqb (resource_id r) rid) df)))
  /\ (forall values v,
        In v values ->
        (min (summarize sqrt values) <= v <= max (summarize sqrt values))%Q).
Proof.
  split; [|split].
  - unfold calculate_statistics. destruct df as [|r0 df0]; [reflexivity|].
    rewrite (keys_fold_set (fun rid : string => rid)). rewrite map_id.
    apply unique_idempotent.
  - intros rid rs Hrs. rewrite calculate_statistics_get in Hrs.
    destruct (mem_string rid (map resource_id df)); [|discriminate].
    inversion Hrs; subst.
    rewrite (keys_fold_set (fun m : string => m)
               (fun m => summarize sqrt (pair_values rid m df))).
    rewrite map_id. apply unique_idempotent.
  - intros values v Hin. unfold summarize; cbn [min max].
    unfold values_min, values_max. destruct values as [|x l]; [contradiction|].
    destruct (fold_Qmin_le l x) as [H1 H2].
    destruct (fold_Qmax_ge l x) as [H3 H4].
    destruct Hin as [<-|Hin]; split; auto.
Qed.

End SummaryFacts.

Lemma process_cost_data_all_or_nothing_witness :
  exists e t',
    CostExplorer.process_cost_data float_decimal Examples.clock_iso
      (Examples.one_period
         [ Examples.cost_group ["A"] "1" "2" "3";
           Examples.unblended ["B"] "4" ]) 0%nat = (Raise e, t').
Proof.
  refine (process_cost_data_all_or_nothing float_decimal Examples.clock_iso
            _ (Examples.period "2024-01-01"
                 [ Examples.cost_group ["A"] "1" "2" "3";
                   Examples.unblended ["B"] "4" ])
            (Examples.unblended ["B"] "4") 0%nat _ _).
  - right. left. reflexivity.
  - intros [(q & m & Hm & _) _]. discriminate Hm.
Defined.
